(** * Editable DynamoDB table page: JSON column codec and table editor

    A shallow embedding of [example/pages/4_Editable_table.py]: the helpers
    [_get_json_serializable_cols], [_serialize_json_cols],
    [_deserialize_json_cols] and the class [DynamoDBTableEditor] with its
    methods [edit] and [process_edits].

    Python values are an inductive type: [None], booleans, integers, text
    of characters up to U+00FF, byte strings, lists, tuples and dictionaries
    whose keys are text. Floating point numbers, other text, dictionaries
    with other keys and values that hold themselves are outside the model:
    [json.loads] tells text that is malformed from text that reads to a
    value outside the model, and the theorems say which values they are
    about. Values are nested within the recursion limit of the interpreter.
    A pandas [DataFrame] is an index plus named columns; DataFrame
    objects live in a heap because the codec updates them in place. A row
    of the diff is a dictionary that the widget builds for one run of the
    script, and it is passed by value. The Streamlit session, the grid
    widget and the DynamoDB connection are explicit state and oracles. *)

From Stdlib Require Import ZArith Ascii String Decimal DecimalString
  DecimalPos DecimalN DecimalZ Permutation Lia Wf_nat.
From stdpp Require Import base option list strings gmap.

Local Open Scope Z_scope.
Set Warnings "-register-all".

(** ** Python values *)

Inductive pyval : Type :=
  | PyNone
  | PyBool (b : bool)
  | PyInt (z : Z)
  | PyStr (s : string)
  | PyBytes (s : string)
  | PyByteArray (s : string)
  | PyList (l : list pyval)
  | PyTuple (l : list pyval)
  | PyDict (d : list (string * pyval)).

(** A [dict] with [str] keys, in insertion order. *)
Abbreviation pydict := (list (string * pyval)).

(** [isinstance(value, Mapping)] *)
Definition is_Mapping (v : pyval) : bool :=
  match v with PyDict _ => true | _ => false end.

(** [isinstance(value, Sequence)] *)
Definition is_Sequence (v : pyval) : bool :=
  match v with
  | PyStr _ | PyBytes _ | PyByteArray _ | PyList _ | PyTuple _ => true
  | _ => false
  end.

(** [isinstance(value, (str, bytes, bytearray))] *)
Definition is_str_bytes_bytearray (v : pyval) : bool :=
  match v with
  | PyStr _ | PyBytes _ | PyByteArray _ => true
  | _ => false
  end.

(** *** Dictionaries: [k in d], [d[k]], [d[k] = v], [d.pop(k)] *)

Fixpoint dict_get {A : Type} (k : string) (d : list (string * A)) : option A :=
  match d with
  | [] => None
  | (k', v) :: d' => if String.eqb k' k then Some v else dict_get k d'
  end.

Fixpoint dict_set {A : Type} (k : string) (v : A) (d : list (string * A))
  : list (string * A) :=
  match d with
  | [] => [(k, v)]
  | (k', v') :: d' =>
      if String.eqb k' k then (k', v) :: d' else (k', v') :: dict_set k v d'
  end.

Fixpoint dict_pop {A : Type} (k : string) (d : list (string * A))
  : list (string * A) :=
  match d with
  | [] => []
  | (k', v') :: d' =>
      if String.eqb k' k then d' else (k', v') :: dict_pop k d'
  end.

(** [dict(pairs)]: later pairs overwrite, a key keeps its first position. *)
Definition dict_of_pairs {A : Type} (pairs : list (string * A))
  : list (string * A) :=
  fold_left (fun d kv => dict_set kv.1 kv.2 d) pairs [].

(** *** Python's [==] *)

Definition as_number (v : pyval) : option Z :=
  match v with
  | PyInt z => Some z
  | PyBool b => Some (if b then 1 else 0)
  | _ => None
  end.

Definition as_bytes (v : pyval) : option string :=
  match v with
  | PyBytes s | PyByteArray s => Some s
  | _ => None
  end.

Fixpoint py_eq (a b : pyval) {struct a} : bool :=
  match a, b with
  | PyNone, PyNone => true
  | PyBool x, _ =>
      match as_number b with
      | Some z => Z.eqb (if x then 1 else 0) z
      | None => false
      end
  | PyInt x, _ =>
      match as_number b with Some z => Z.eqb x z | None => false end
  | PyStr s, PyStr t => String.eqb s t
  | PyBytes s, _ | PyByteArray s, _ =>
      match as_bytes b with Some t => String.eqb s t | None => false end
  | PyList l, PyList m | PyTuple l, PyTuple m =>
      (fix seq_eq (l m : list pyval) {struct l} : bool :=
         match l, m with
         | [], [] => true
         | x :: l', y :: m' => py_eq x y && seq_eq l' m'
         | _, _ => false
         end) l m
  | PyDict d, PyDict e =>
      Nat.eqb (length d) (length e) &&
      (fix items_eq (d : pydict) {struct d} : bool :=
         match d with
         | [] => true
         | (k, v) :: d' =>
             match dict_get k e with
             | Some w => py_eq v w
             | None => false
             end && items_eq d'
         end) d
  | _, _ => false
  end.

(** [x in xs] on a list compares with [==]. *)
Definition py_in (x : pyval) (xs : list pyval) : bool :=
  existsb (py_eq x) xs.

(** ** [json.dumps] *)

Definition c_quote : ascii := "034"%char.
Definition c_backslash : ascii := "092"%char.

Definition str1 (c : ascii) : string := String c EmptyString.
Definition esc (c : ascii) : string := String c_backslash (str1 c).

Definition hex_digit (n : N) : ascii :=
  match n with
  | 0 => "0" | 1 => "1" | 2 => "2" | 3 => "3" | 4 => "4" | 5 => "5"
  | 6 => "6" | 7 => "7" | 8 => "8" | 9 => "9" | 10 => "a" | 11 => "b"
  | 12 => "c" | 13 => "d" | 14 => "e" | _ => "f"
  end%N%char.

(** [ESCAPE_DCT] of [json.encoder], with [ensure_ascii=True]. *)
Definition escape_char (c : ascii) : string :=
  let n := N_of_ascii c in
  match n with
  | 34 => esc c_quote
  | 92 => esc c_backslash
  | 8 => esc "b"
  | 12 => esc "f"
  | 10 => esc "n"
  | 13 => esc "r"
  | 9 => esc "t"
  | _ =>
      if (32 <=? n)%N && (n <=? 126)%N then str1 c
      else
        String c_backslash
          (String "u" (String "0" (String "0"
             (String (hex_digit (n / 16)) (str1 (hex_digit (n mod 16)))))))
  end%N.

Fixpoint escape_body (s : string) : string :=
  match s with
  | EmptyString => EmptyString
  | String c r => escape_char c +:+ escape_body r
  end.

(** [py_encode_basestring_ascii] *)
Definition encode_basestring_ascii (s : string) : string :=
  String c_quote (escape_body s +:+ str1 c_quote).

(** [int.__repr__] *)
Definition int_repr (z : Z) : string := NilZero.string_of_int (Z.to_int z).

(** [sys.get_int_max_str_digits()], as Python 3.11 sets it: [int(text)] and
    [repr(n)] raise a [ValueError] beyond that many decimal digits, the sign
    apart. *)
Definition max_str_digits : N := 4300.

Definition too_long (d : uint) : bool :=
  (max_str_digits <? N.of_nat (nb_digits d))%N.

Definition int_too_long (z : Z) : bool :=
  match Z.to_int z with
  | Decimal.Pos d | Decimal.Neg d => too_long d
  end.

(** Insertion sort of dictionary items on their keys, for [sort_keys=True]. *)
Fixpoint insert_item {A : Type} (kv : string * A) (l : list (string * A))
  : list (string * A) :=
  match l with
  | [] => [kv]
  | kv' :: l' =>
      if String.leb kv.1 kv'.1 then kv :: l else kv' :: insert_item kv l'
  end.

Fixpoint sort_items {A : Type} (l : list (string * A)) : list (string * A) :=
  match l with
  | [] => []
  | kv :: l' => insert_item kv (sort_items l')
  end.

Definition render_item (kv : string * string) : string :=
  encode_basestring_ascii kv.1 +:+ ": " +:+ kv.2.

(** [json.dumps(o, sort_keys=...)] with the default separators; [None]
    where it raises: a [TypeError] on a value that is not JSON serializable,
    a [ValueError] on an integer of too many digits ([dumps_error] tells
    which). *)
Fixpoint json_dumps (sort_keys : bool) (o : pyval) {struct o} : option string :=
  match o with
  | PyNone => Some "null"
  | PyBool true => Some "true"
  | PyBool false => Some "false"
  | PyInt z => if int_too_long z then None else Some (int_repr z)
  | PyStr s => Some (encode_basestring_ascii s)
  | PyBytes _ | PyByteArray _ => None
  | PyList l | PyTuple l =>
      chunks ←
        (fix dumps_seq (l : list pyval) {struct l} : option (list string) :=
           match l with
           | [] => Some []
           | x :: l' =>
               c ← json_dumps sort_keys x;
               cs ← dumps_seq l';
               Some (c :: cs)
           end) l;
      Some ("[" +:+ String.concat ", " chunks +:+ "]")
  | PyDict d =>
      items ←
        (fix dumps_items (d : pydict) {struct d}
           : option (list (string * string)) :=
           match d with
           | [] => Some []
           | (k, v) :: d' =>
               c ← json_dumps sort_keys v;
               cs ← dumps_items d';
               Some ((k, c) :: cs)
           end) d;
      let items := if sort_keys then sort_items items else items in
      Some ("{" +:+ String.concat ", " (map render_item items) +:+ "}")
  end.

(** ** [json.loads] *)

(** Result of a scan: what was read; a [json.JSONDecodeError]; a document
    that holds what the value model leaves out (a floating point number, a
    [\u] escape beyond Latin-1); an integer of too many digits, on which
    [int(text)] raises a [ValueError]; a budget that ran out, which the
    budget of [json_loads] does not do. *)
Inductive parsed (A : Type) : Type :=
  | Parsed (a : A)
  | Malformed
  | NotModelled
  | Overlong
  | Starved.
Arguments Parsed {A} a.
Arguments Malformed {A}.
Arguments NotModelled {A}.
Arguments Overlong {A}.
Arguments Starved {A}.

#[global] Instance parsed_ret : MRet parsed := @Parsed.
#[global] Instance parsed_bind : MBind parsed := fun A B f m =>
  match m with
  | Parsed a => f a
  | Malformed => Malformed
  | NotModelled => NotModelled
  | Overlong => Overlong
  | Starved => Starved
  end.

(** [WHITESPACE_STR] *)
Definition is_ws (c : ascii) : bool :=
  match N_of_ascii c with
  | 32 | 9 | 10 | 13 => true
  | _ => false
  end%N.

Fixpoint skip_ws (s : string) : string :=
  match s with
  | String c r => if is_ws c then skip_ws r else s
  | EmptyString => s
  end.

Definition hex_value (c : ascii) : option N :=
  let n := N_of_ascii c in
  if (48 <=? n)%N && (n <=? 57)%N then Some (n - 48)%N
  else if (97 <=? n)%N && (n <=? 102)%N then Some (n - 87)%N
  else if (65 <=? n)%N && (n <=? 70)%N then Some (n - 55)%N
  else None.

Definition hex4 (a b c d : ascii) : option N :=
  x ← hex_value a; y ← hex_value b; z ← hex_value c; w ← hex_value d;
  Some (((x * 16 + y) * 16 + z) * 16 + w)%N.

(** The scanners build a value of the model. With [survey] set they go on
    where the document leaves the model, reading a floating point number
    as [None] and a character beyond Latin-1 as a question mark: what they
    build is then of no use, but they find the error that [json.loads]
    raises, if it raises one. *)
Section scanners.
Variable survey : bool.

(** [py_scanstring] in strict mode, from just after the opening quote. *)
Fixpoint scanstring (s : string) : parsed (string * string) :=
  match s with
  | EmptyString => Malformed
  | String c r =>
      match N_of_ascii c with
      | 34%N => Parsed (EmptyString, r)
      | 92%N =>
          match r with
          | EmptyString => Malformed
          | String e r' =>
              let plain (x : ascii) :=
                '(body, rest) ← scanstring r';
                Parsed (String x body, rest) in
              match N_of_ascii e with
              | 34%N => plain c_quote
              | 92%N => plain c_backslash
              | 47%N => plain "/"%char
              | 98%N => plain "008"%char
              | 102%N => plain "012"%char
              | 110%N => plain "010"%char
              | 114%N => plain "013"%char
              | 116%N => plain "009"%char
              | 117%N =>
                  match r' with
                  | String h1 (String h2 (String h3 (String h4 r''))) =>
                      match hex4 h1 h2 h3 h4 with
                      | Some n =>
                          if (n <? 256)%N then
                            '(body, rest) ← scanstring r'';
                            Parsed (String (ascii_of_N n) body, rest)
                          else if survey then
                            '(body, rest) ← scanstring r'';
                            Parsed (String "?" body, rest)
                          else NotModelled
                      | None => Malformed
                      end
                  | _ => Malformed
                  end
              | _ => Malformed
              end
          end
      | n =>
          if (n <? 32)%N then Malformed
          else
            '(body, rest) ← scanstring r;
            Parsed (String c body, rest)
      end
  end.

Definition digit_of (c : ascii) : option (uint -> uint) :=
  match N_of_ascii c with
  | 48 => Some D0 | 49 => Some D1 | 50 => Some D2 | 51 => Some D3
  | 52 => Some D4 | 53 => Some D5 | 54 => Some D6 | 55 => Some D7
  | 56 => Some D8 | 57 => Some D9 | _ => None
  end%N.

(** The longest run of decimal digits at the head of [s]. *)
Fixpoint scan_digits (s : string) : uint * string :=
  match s with
  | EmptyString => (Nil, s)
  | String c r =>
      match digit_of c with
      | Some D => let '(d, rest) := scan_digits r in (D d, rest)
      | None => (Nil, s)
      end
  end.

(** The fraction [(\.\d+)?] of [NUMBER_RE] at the head of [s]: what follows
    it, if it is there. *)
Definition scan_fraction (s : string) : option string :=
  match s with
  | String c r =>
      match N_of_ascii c with
      | 46%N =>
          match scan_digits r with
          | (Nil, _) => None
          | (_, rest) => Some rest
          end
      | _ => None
      end
  | EmptyString => None
  end.

(** The exponent [([eE][-+]?\d+)?] of [NUMBER_RE]. *)
Definition scan_exponent (s : string) : option string :=
  match s with
  | String c r =>
      match N_of_ascii c with
      | 101%N | 69%N =>
          let r :=
            match r with
            | String sign r' =>
                match N_of_ascii sign with
                | 43%N | 45%N => r'
                | _ => r
                end
            | EmptyString => r
            end in
          match scan_digits r with
          | (Nil, _) => None
          | (_, rest) => Some rest
          end
      | _ => None
      end
  | EmptyString => None
  end.

(** What follows the fraction and the exponent at the head of [s], if one
    of them is there: the number is then a floating point number. *)
Definition scan_float (s : string) : option string :=
  match scan_fraction s with
  | Some rest => Some (default rest (scan_exponent rest))
  | None => scan_exponent s
  end.

(** [NUMBER_RE]: an optional minus sign, then a single zero or a run of
    digits without leading zero; a fraction or an exponent makes a float,
    and without them [int(text)] makes the integer. More digits after a
    leading zero are left over in Python and are an error in every context,
    so they are refused here. *)
Definition scan_number (negative : bool) (s : string)
  : parsed (pyval * string) :=
  let '(d, rest) := scan_digits s in
  match d with
  | Nil => Malformed
  | _ =>
      if negb (uint_beq (unorm d) d) then Malformed
      else
        match scan_float rest with
        | Some rest => if survey then Parsed (PyNone, rest) else NotModelled
        | None =>
            if too_long d then Overlong
            else
              let n := Z.of_uint d in
              Parsed (PyInt (if negative then - n else n), rest)
        end
  end.

(** [s] starts with the word [w]: the rest of [s]. *)
Fixpoint strip_prefix (w s : string) : option string :=
  match w, s with
  | EmptyString, _ => Some s
  | String a w', String b s' =>
      if Ascii.eqb a b then strip_prefix w' s' else None
  | _, EmptyString => None
  end.

(** A constant that reads as a float: [NaN], [Infinity], [-Infinity]. *)
Definition float_constant (rest : string) : parsed (pyval * string) :=
  if survey then Parsed (PyNone, rest) else NotModelled.

(** [scan_once], [JSONArray] and [JSONObject] of [json.scanner] and
    [json.decoder]; [fuel] bounds the nesting and the number of items. *)
Fixpoint scan_once (fuel : nat) (s : string) {struct fuel}
  : parsed (pyval * string) :=
  match fuel with
  | O => Starved
  | S fuel =>
      match s with
      | EmptyString => Malformed
      | String c r =>
          match N_of_ascii c with
          | 34%N =>
              '(body, rest) ← scanstring r;
              Parsed (PyStr body, rest)
          | 123%N =>
              let r := skip_ws r in
              match strip_prefix "}" r with
              | Some rest => Parsed (PyDict [], rest)
              | None =>
                  '(pairs, rest) ← JSONObject fuel r;
                  Parsed (PyDict (dict_of_pairs pairs), rest)
              end
          | 91%N =>
              let r := skip_ws r in
              match strip_prefix "]" r with
              | Some rest => Parsed (PyList [], rest)
              | None =>
                  '(values, rest) ← JSONArray fuel r;
                  Parsed (PyList values, rest)
              end
          | 110%N =>
              match strip_prefix "ull" r with
              | Some rest => Parsed (PyNone, rest)
              | None => Malformed
              end
          | 116%N =>
              match strip_prefix "rue" r with
              | Some rest => Parsed (PyBool true, rest)
              | None => Malformed
              end
          | 102%N =>
              match strip_prefix "alse" r with
              | Some rest => Parsed (PyBool false, rest)
              | None => Malformed
              end
          | 78%N =>
              match strip_prefix "aN" r with
              | Some rest => float_constant rest
              | None => Malformed
              end
          | 73%N =>
              match strip_prefix "nfinity" r with
              | Some rest => float_constant rest
              | None => Malformed
              end
          | 45%N =>
              match strip_prefix "Infinity" r with
              | Some rest => float_constant rest
              | None => scan_number true r
              end
          | _ => scan_number false s
          end
      end
  end

with JSONArray (fuel : nat) (s : string) {struct fuel}
  : parsed (list pyval * string) :=
  match fuel with
  | O => Starved
  | S fuel =>
      '(value, rest) ← scan_once fuel s;
      match skip_ws rest with
      | String c r =>
          match N_of_ascii c with
          | 93%N => Parsed ([value], r)
          | 44%N =>
              '(values, rest) ← JSONArray fuel (skip_ws r);
              Parsed (value :: values, rest)
          | _ => Malformed
          end
      | EmptyString => Malformed
      end
  end

with JSONObject (fuel : nat) (s : string) {struct fuel}
  : parsed (list (string * pyval) * string) :=
  match fuel with
  | O => Starved
  | S fuel =>
      match s with
      | String q r =>
          if negb (Ascii.eqb q c_quote) then Malformed
          else
            '(key, rest) ← scanstring r;
            match skip_ws rest with
            | String c r =>
                if negb (Ascii.eqb c ":") then Malformed
                else
                  '(value, rest) ← scan_once fuel (skip_ws r);
                  match skip_ws rest with
                  | String c r =>
                      match N_of_ascii c with
                      | 125%N => Parsed ([(key, value)], r)
                      | 44%N =>
                          '(pairs, rest) ← JSONObject fuel (skip_ws r);
                          Parsed ((key, value) :: pairs, rest)
                      | _ => Malformed
                      end
                  | EmptyString => Malformed
                  end
            | EmptyString => Malformed
            end
      | EmptyString => Malformed
      end
  end.

(** [JSONDecoder.decode]: one value, with white space around it and nothing
    else; the budget is more than the scanners use on [s]. *)
Definition decode (s : string) : parsed pyval :=
  '(obj, rest) ← scan_once (S (2 * String.length s)) (skip_ws s);
  match skip_ws rest with
  | EmptyString => Parsed obj
  | String _ _ => Malformed
  end.

End scanners.

(** [json.loads(s)] for a [str]. A document that leaves the value model is
    scanned again to the end, to tell the error that [json.loads] raises on
    it from the value that it returns, which is outside the model. *)
Definition json_loads (s : string) : parsed pyval :=
  match decode false s with
  | NotModelled =>
      match decode true s with
      | Parsed _ => NotModelled
      | r => r
      end
  | r => r
  end.

(** ** Exceptions and results *)

(** The exceptions of the script. [OutsideModel] is none of Python's: a run
    ends with it where the code goes on with a value that [pyval] leaves
    out, and says nothing of the code from there on. *)
Inductive exn : Type :=
  | StopIteration
  | KeyError (k : string)
  | IndexError
  | TypeError
  | ValueError
  | JSONDecodeError
  | JSONError (msg : string)
  | ClientError
  | StopException
  | OutsideModel.

Inductive outcome (A : Type) : Type :=
  | Ret (a : A)
  | Raise (e : exn).
Arguments Ret {A} a.
Arguments Raise {A} e.

#[global] Instance outcome_ret : MRet outcome := @Ret.
#[global] Instance outcome_bind : MBind outcome := fun A B f m =>
  match m with
  | Ret a => f a
  | Raise e => Raise e
  end.

(** The exception of [json.dumps] on a value it refuses. The encoder goes
    through the value in order, through the items of a dictionary in the
    order of their keys when [sort_keys] is set, and raises at the first
    part that is not JSON serializable ([TypeError]) or is an integer of too
    many digits ([ValueError]). *)
Fixpoint dumps_error (sort_keys : bool) (o : pyval) {struct o} : option exn :=
  match o with
  | PyNone | PyBool _ | PyStr _ => None
  | PyInt z => if int_too_long z then Some ValueError else None
  | PyBytes _ | PyByteArray _ => Some TypeError
  | PyList l | PyTuple l =>
      (fix first_error (l : list pyval) {struct l} : option exn :=
         match l with
         | [] => None
         | x :: l' =>
             match dumps_error sort_keys x with
             | Some e => Some e
             | None => first_error l'
             end
         end) l
  | PyDict d =>
      let errors :=
        (fix errors (d : pydict) {struct d} : list (string * option exn) :=
           match d with
           | [] => []
           | (k, v) :: d' => (k, dumps_error sort_keys v) :: errors d'
           end) d in
      let errors := if sort_keys then sort_items errors else errors in
      list_find is_Some (map snd errors) ≫= snd
  end.

Definition dumps_exception (sort_keys : bool) (o : pyval) : exn :=
  default TypeError (dumps_error sort_keys o).

(** [dumps o]: the serializer [lambda o: json.dumps(o)] of a cell. *)
Definition dumps (o : pyval) : outcome pyval :=
  match json_dumps false o with
  | Some s => Ret (PyStr s)
  | None => Raise (dumps_exception false o)
  end.

(** [json.loads(s)] on any value: only text is decoded here, [bytes] are
    outside the model and anything else is a [TypeError]. *)
Definition loads (s : pyval) : outcome pyval :=
  match s with
  | PyStr t =>
      match json_loads t with
      | Parsed v => Ret v
      | Malformed => Raise JSONDecodeError
      | Overlong => Raise ValueError
      | NotModelled | Starved => Raise OutsideModel
      end
  | PyBytes _ | PyByteArray _ => Raise OutsideModel
  | _ => Raise TypeError
  end.

(** [lambda s: json.loads(s) if s is not None else None] *)
Definition deserializer (s : pyval) : outcome pyval :=
  match s with
  | PyNone => Ret PyNone
  | _ => loads s
  end.

(** [Series.apply(f)]: [f] on each cell in turn, and the cells that it
    returned. *)
Fixpoint series_apply (f : pyval -> outcome pyval) (col : list pyval)
  : outcome (list pyval) :=
  match col with
  | [] => Ret []
  | x :: col' =>
      y ← f x;
      ys ← series_apply f col';
      Ret (y :: ys)
  end.

(** pandas then chooses the dtype of the column from these cells. It keeps
    them as they are, with the dtype [object], when one of them is a text, a
    byte string, a list, a tuple or a dictionary. Cells that are numbers and
    [None] only make a column of numbers, where an integer can be a float
    and [None] is [nan]: values that [pyval] leaves out. This changes no
    exception and no call; what a theorem says of the cells of a column that
    came through [Series.apply], it says for the dtype [object]. *)
Definition object_dtype (cells : list pyval) : bool :=
  existsb (fun v => is_Sequence v || is_Mapping v) cells.

(** ** DataFrames, the session and the world *)

(** A frame is its index (one label per row) and its named columns, each a
    series aligned with the index. *)
Record DataFrame : Type := {
  index : list pyval;
  columns : list (string * list pyval)
}.

(** The rows of [df.iterrows()]: the label and the row as a mapping. *)
Definition row_at (df : DataFrame) (i : nat) : pydict :=
  map (fun c => (c.1, default PyNone (c.2 !! i))) (columns df).

Definition iterrows (df : DataFrame) : list (pyval * pydict) :=
  imap (fun i label => (label, row_at df i)) (index df).

(** The edit state of the grid widget: [st.session_state[widget_key]]. *)
Record EditInfo : Type := {
  edited_rows : list (nat * pydict);
  added_rows : list pydict;
  deleted_rows : list nat
}.

(** The applied-edits record, [st.session_state[processed_edits_key]]: the
    dictionary at ["edited_rows"] and the lists at ["added_rows"] and
    ["deleted_rows"]. *)
Record ProcessedEdits : Type := {
  processed_edited_rows : gmap nat pydict;
  processed_added_rows : list string;
  processed_deleted_rows : list pyval
}.

(** The class attribute [_DEFAULT_EDIT_INFO] as the class statement makes
    it, read as an edit state and as an applied-edits record. *)
Definition _DEFAULT_EDIT_INFO : EditInfo :=
  {| edited_rows := []; added_rows := []; deleted_rows := [] |}.

Definition _DEFAULT_PROCESSED : ProcessedEdits :=
  {| processed_edited_rows := ∅;
     processed_added_rows := [];
     processed_deleted_rows := [] |}.

(** Nothing was recorded in the three objects. *)
Definition pristine (p : ProcessedEdits) : bool :=
  match map_to_list (processed_edited_rows p),
        processed_added_rows p, processed_deleted_rows p with
  | [], [], [] => true
  | _, _, _ => false
  end.

Abbreviation ref := nat.

(** [st.session_state], at the three keys of the editor. The value at the
    key of the applied-edits record is [_DEFAULT_EDIT_INFO.copy()], a
    shallow copy: a dictionary of its own whose three values are the
    dictionary and the two lists of the class attribute. No key of the copy
    is assigned afterwards, so the session holds no more than the fact that
    the key is set, and what is recorded is in the objects of the class
    attribute. *)
Record session_state : Type := {
  data_editor_data : option ref;
  data_editor_widget : option EditInfo;
  data_editor_processed : bool
}.

(** What the outside sees: calls on the connection and on Streamlit. *)
Inductive event : Type :=
  | modify_item (key : pyval) (item : pydict)
  | put_item (key : pyval) (item : pydict)
  | del_item (key : pyval)
  | data_editor (df : DataFrame)
  | st_error (msg : string).

(** The world of the script: the DataFrame objects, the dictionary and the
    two lists that the class attribute [_DEFAULT_EDIT_INFO] and its shallow
    copies share, the session and what the outside saw. *)
Record world : Type := {
  heap : list DataFrame;
  default_edit_info : ProcessedEdits;
  session : session_state;
  trace : list event
}.

Definition set_heap (h : list DataFrame) (w : world) : world :=
  {| heap := h; default_edit_info := default_edit_info w;
     session := session w; trace := trace w |}.
Definition set_session (s : session_state) (w : world) : world :=
  {| heap := heap w; default_edit_info := default_edit_info w;
     session := s; trace := trace w |}.
Definition set_widget (i : option EditInfo) (w : world) : world :=
  set_session {| data_editor_data := data_editor_data (session w);
                 data_editor_widget := i;
                 data_editor_processed := data_editor_processed (session w) |} w.
Definition set_processed_key (w : world) : world :=
  set_session {| data_editor_data := data_editor_data (session w);
                 data_editor_widget := data_editor_widget (session w);
                 data_editor_processed := true |} w.
Definition set_processed (p : ProcessedEdits) (w : world) : world :=
  {| heap := heap w; default_edit_info := p;
     session := session w; trace := trace w |}.
Definition set_data (r : ref) (w : world) : world :=
  set_session {| data_editor_data := Some r;
                 data_editor_widget := data_editor_widget (session w);
                 data_editor_processed := data_editor_processed (session w) |} w.
Definition log (e : event) (w : world) : world :=
  {| heap := heap w; default_edit_info := default_edit_info w;
     session := session w; trace := trace w ++ [e] |}.

(** ** The monad of the script: state that survives an exception *)

Definition M (A : Type) : Type := world -> world * outcome A.

#[global] Instance M_ret : MRet M := fun A a w => (w, Ret a).
#[global] Instance M_bind : MBind M := fun A B f m w =>
  match m w with
  | (w', Ret a) => f a w'
  | (w', Raise e) => (w', Raise e)
  end.

Definition raise {A : Type} (e : exn) : M A := fun w => (w, Raise e).
Definition lift {A : Type} (o : outcome A) : M A := fun w => (w, o).
Definition get_world : M world := fun w => (w, Ret w).
Definition modify_world (f : world -> world) : M unit := fun w => (f w, Ret tt).

(** [try: m  except E as e: h e], for the exceptions [handles] selects. *)
Definition try_except {A : Type} (m : M A) (handler : exn -> option (M A))
  : M A := fun w =>
  match m w with
  | (w', Raise e) =>
      match handler e with
      | Some h => h w'
      | None => (w', Raise e)
      end
  | r => r
  end.

(** [for x in xs: body x] *)
Fixpoint for_each {A : Type} (xs : list A) (body : A -> M unit) : M unit :=
  match xs with
  | [] => mret tt
  | x :: xs' => body x;; for_each xs' body
  end.

(** *** DataFrame objects *)

Definition deref (df : ref) : M DataFrame :=
  w ← get_world;
  match heap w !! df with
  | Some d => mret d
  | None => raise OutsideModel
  end.

Definition alloc (d : DataFrame) : M ref :=
  w ← get_world;
  modify_world (set_heap (heap w ++ [d]));;
  mret (length (heap w)).

(** [df.copy()] *)
Definition copy (df : ref) : M ref :=
  d ← deref df;
  alloc d.

(** [df[col]] *)
Definition getitem (df : ref) (col : string) : M (list pyval) :=
  d ← deref df;
  match dict_get col (columns d) with
  | Some series => mret series
  | None => raise (KeyError col)
  end.

(** [df[col] = series] *)
Definition setitem (df : ref) (col : string) (series : list pyval) : M unit :=
  d ← deref df;
  modify_world (fun w =>
    set_heap (<[df := {| index := index d;
                         columns := dict_set col series (columns d) |}]>
                (heap w)) w).

(** ** The JSON column codec *)

Definition is_json_value (value : pyval) : bool :=
  (is_Mapping value || is_Sequence value) &&
  negb (is_str_bytes_bytearray value).

Definition _get_json_serializable_cols (df : ref) : M (list string) :=
  d ← deref df;
  match iterrows d with
  | [] => raise StopIteration
  | (_, row) :: _ =>
      mret (map fst (filter (fun lv => is_json_value lv.2 = true) row))
  end.

Definition invalid_json (json_col : string) : string :=
  "Invalid json string in column '" +:+ json_col +:+ "'!".

Fixpoint _serialize_json_cols (df : ref) (json_cols : list string) : M ref :=
  match json_cols with
  | [] => mret df
  | json_col :: json_cols =>
      series ← getitem df json_col;
      series ← lift (series_apply dumps series);
      setitem df json_col series;;
      _serialize_json_cols df json_cols
  end.

(** The two kinds of [data] that [_deserialize_json_cols] accepts, each with
    its branch of the [isinstance] test. *)
Class DFOrMapping (D : Type) : Type :=
  deserialize_col : D -> string -> M D.

(** [data[json_col] = data[json_col].apply(deserializer)] *)
#[global] Instance DataFrame_data : DFOrMapping ref := fun data json_col =>
  series ← getitem data json_col;
  series ← lift (series_apply deserializer series);
  setitem data json_col series;;
  mret data.

(** [if json_col in data: data[json_col] = deserializer(data[json_col])]

    The source updates the dictionary in place and goes on with the same
    object. The dictionaries that it is called on are the rows of the diff,
    which the widget builds again for each run of the script and which
    nothing reads after the step of the row: here the updated dictionary is
    returned, and the session keeps the diff as the widget gave it. What is
    said of the world after a step is said of the frames, of the record of
    applied edits and of the trace. *)
#[global] Instance MutableMapping_data : DFOrMapping pydict :=
  fun data json_col =>
  match dict_get json_col data with
  | Some s =>
      v ← lift (deserializer s);
      mret (dict_set json_col v data)
  | None => mret data
  end.

Fixpoint _deserialize_json_cols {D : Type} `{!DFOrMapping D}
    (data : D) (json_cols : list string) : M D :=
  match json_cols with
  | [] => mret data
  | json_col :: json_cols =>
      data ← try_except (deserialize_col data json_col)
               (fun e => match e with
                         | JSONDecodeError =>
                             Some (raise (JSONError (invalid_json json_col)))
                         | _ => None
                         end);
      _deserialize_json_cols data json_cols
  end.

(** ** The table editor *)

Record DynamoDBTableEditor : Type := { df : ref }.

(** [self.df.index[int(idx)]] *)
Definition index_at (df : ref) (idx : nat) : M pyval :=
  d ← deref df;
  match index d !! idx with
  | Some label => mret label
  | None => raise IndexError
  end.

(** [added_row.pop("_index")]: the value, and the dictionary without the
    key. The source removes the key in place, from a row of the diff; see
    [MutableMapping_data]. *)
Definition pop (k : string) (d : pydict) : M (pyval * pydict) :=
  match dict_get k d with
  | Some v => mret (v, dict_pop k d)
  | None => raise (KeyError k)
  end.

(** [json.dumps(added_row, sort_keys=True)] *)
Definition dumps_sorted (added_row : pydict) : M string :=
  match json_dumps true (PyDict added_row) with
  | Some s => mret s
  | None => raise (dumps_exception true (PyDict added_row))
  end.

(** The property [edit_info]: the edit state of the widget, which [edit]
    reads after [st.data_editor] has set it. The default is a shallow copy
    of the class attribute: empty as long as nothing was recorded in its
    objects; what the loops do with recorded entries read as an edit state
    is outside the model. *)
Definition edit_info : M EditInfo :=
  w ← get_world;
  match data_editor_widget (session w) with
  | Some info => mret info
  | None =>
      if pristine (default_edit_info w) then mret _DEFAULT_EDIT_INFO
      else raise OutsideModel
  end.

(** The objects that the local names [processed_edited_rows],
    [processed_added_rows] and [processed_deleted_rows] alias: those of the
    class attribute. *)
Definition the_processed (w : world) : ProcessedEdits :=
  default_edit_info w.

(** The property [processed_edits]: the copy is made on first access. *)
Definition processed_edits : M ProcessedEdits :=
  w ← get_world;
  (if data_editor_processed (session w) then mret tt
   else modify_world set_processed_key);;
  mret (the_processed w).

(** [processed_edited_rows[idx] = edited_row] *)
Definition record_edited (idx : nat) (edited_row : pydict) : M unit :=
  modify_world (fun w =>
    let p := the_processed w in
    set_processed
      {| processed_edited_rows := <[idx := edited_row]> (processed_edited_rows p);
         processed_added_rows := processed_added_rows p;
         processed_deleted_rows := processed_deleted_rows p |} w).

(** [processed_added_rows.append(added_row_repr)] *)
Definition record_added (added_row_repr : string) : M unit :=
  modify_world (fun w =>
    let p := the_processed w in
    set_processed
      {| processed_edited_rows := processed_edited_rows p;
         processed_added_rows := processed_added_rows p ++ [added_row_repr];
         processed_deleted_rows := processed_deleted_rows p |} w).

(** [processed_deleted_rows.append(index_val)] *)
Definition record_deleted (index_val : pyval) : M unit :=
  modify_world (fun w =>
    let p := the_processed w in
    set_processed
      {| processed_edited_rows := processed_edited_rows p;
         processed_added_rows := processed_added_rows p;
         processed_deleted_rows := processed_deleted_rows p ++ [index_val] |} w).

(** [idx in processed_edited_rows and processed_edited_rows[idx] == edited_row] *)
Definition already_edited (p : ProcessedEdits) (idx : nat) (edited_row : pydict)
  : bool :=
  match processed_edited_rows p !! idx with
  | Some r => py_eq (PyDict r) (PyDict edited_row)
  | None => false
  end.

Section Editor.

(** The connection and the user are oracles: [responds tr c] tells whether
    the store call [c] succeeds after the calls of [tr]; a grid maps the
    frame it shows to the edited frame and to the widget's edit state. *)
Variable responds : list event -> event -> bool.

Definition connection (c : event) : M unit := fun w =>
  (log c w, if responds (trace w) c then Ret tt else Raise ClientError).

(** Body of [for idx, edited_row in edit_info["edited_rows"].items()]. *)
Definition process_edited_row (self : DynamoDBTableEditor)
    (json_cols : list string) (entry : nat * pydict) : M unit :=
  let '(idx, edited_row) := entry in
  index_val ← index_at (df self) idx;
  edited_row ← _deserialize_json_cols edited_row json_cols;
  w ← get_world;
  if already_edited (the_processed w) idx edited_row then mret tt
  else
    connection (modify_item index_val edited_row);;
    record_edited idx edited_row.

(** Body of [for added_row in edit_info["added_rows"]]. *)
Definition process_added_row (json_cols : list string) (added_row : pydict)
  : M unit :=
  added_row ← _deserialize_json_cols added_row json_cols;
  '(keys, added_row) ← pop "_index" added_row;
  added_row_repr ← dumps_sorted added_row;
  w ← get_world;
  if bool_decide (added_row_repr ∈ processed_added_rows (the_processed w))
  then mret tt
  else
    connection (put_item keys added_row);;
    record_added added_row_repr.

(** Body of [for idx in edit_info["deleted_rows"]]. *)
Definition process_deleted_row (self : DynamoDBTableEditor) (idx : nat)
  : M unit :=
  index_val ← index_at (df self) idx;
  w ← get_world;
  if py_in index_val (processed_deleted_rows (the_processed w)) then mret tt
  else
    connection (del_item index_val);;
    record_deleted index_val.

Definition process_edits (self : DynamoDBTableEditor)
    (json_cols : list string) : M unit :=
  info ← edit_info;
  processed_edits;;
  for_each (edited_rows info) (process_edited_row self json_cols);;
  processed_edits;;
  for_each (added_rows info) (process_added_row json_cols);;
  processed_edits;;
  for_each (deleted_rows info) (process_deleted_row self).

(** [st.data_editor(df, ..., key=self.widget_key)]: shows the frame, and
    leaves the user's edit state in the session. What the user does is the
    oracle [grid], from the frame shown to the frame returned and the diff.
    The widget returns the frame shown with the diff applied to it; the
    statements that depend on it assume [frame_holds_diff] of the two
    results. *)
Definition st_data_editor (grid : DataFrame -> DataFrame * EditInfo)
    (df : ref) : M ref :=
  d ← deref df;
  modify_world (log (data_editor d));;
  modify_world (set_widget (Some (grid d).2));;
  alloc (grid d).1.

Definition edit (self : DynamoDBTableEditor)
    (grid : DataFrame -> DataFrame * EditInfo) : M ref :=
  json_cols ← _get_json_serializable_cols (df self);
  df ← (c ← copy (df self); _serialize_json_cols c json_cols);
  edited_df ← st_data_editor grid df;
  edited_df ← try_except (_deserialize_json_cols edited_df json_cols)
    (fun e => match e with
              | JSONError msg =>
                  Some (modify_world (log (st_error msg));;
                        raise StopException)
              | _ => None
              end);
  process_edits self json_cols;;
  mret edited_df.

(** The statements of [edit] before [self.process_edits(json_cols)]. *)
Definition show_table (self : DynamoDBTableEditor)
    (grid : DataFrame -> DataFrame * EditInfo) : M (list string * ref) :=
  json_cols ← _get_json_serializable_cols (df self);
  df ← (c ← copy (df self); _serialize_json_cols c json_cols);
  edited_df ← st_data_editor grid df;
  edited_df ← try_except (_deserialize_json_cols edited_df json_cols)
    (fun e => match e with
              | JSONError msg =>
                  Some (modify_world (log (st_error msg));;
                        raise StopException)
              | _ => None
              end);
  mret (json_cols, edited_df).

(** [DynamoDBTableEditor(conn)]: the table is fetched on the first run of
    the session only. *)
Definition __init__ (items : DataFrame) : M DynamoDBTableEditor :=
  w ← get_world;
  match data_editor_data (session w) with
  | Some r => mret {| df := r |}
  | None =>
      r ← alloc items;
      modify_world (set_data r);;
      mret {| df := r |}
  end.

(** One render of the page. *)
Definition editable_demo (items : DataFrame)
    (grid : DataFrame -> DataFrame * EditInfo) : M unit :=
  table_editor ← __init__ items;
  edit table_editor grid;;
  mret tt.

End Editor.

(** ** Predicates on values used in the statements *)

(** Every dictionary inside the value has distinct keys, as in Python. *)
Fixpoint wf_val (v : pyval) : bool :=
  match v with
  | PyList l | PyTuple l => forallb wf_val l
  | PyDict d =>
      bool_decide (NoDup (map fst d)) && forallb (fun kv => wf_val kv.2) d
  | _ => true
  end.

(** No tuple inside the value. *)
Fixpoint tuple_free (v : pyval) : bool :=
  match v with
  | PyTuple _ => false
  | PyList l => forallb tuple_free l
  | PyDict d => forallb (fun kv => tuple_free kv.2) d
  | _ => true
  end.

(** [json.dumps] accepts the value. *)
Definition json_encodable (v : pyval) : bool :=
  match json_dumps false v with Some _ => true | None => false end.

(** Budget that [scan_once] needs to read back the encoding of a value. *)
Fixpoint weight (v : pyval) : nat :=
  match v with
  | PyList l | PyTuple l => S (list_sum (map (fun x => S (weight x)) l))
  | PyDict d => S (list_sum (map (fun kv => S (weight kv.2)) d))
  | _ => 1%nat
  end.

(** ** Pure views of the codec loops, used to state the theorems *)

(** The [except json.JSONDecodeError] clause of [_deserialize_json_cols]. *)
Definition rethrow (json_col : string) (e : exn) : exn :=
  match e with
  | JSONDecodeError => JSONError (invalid_json json_col)
  | _ => e
  end.

(** [df[c] = df[c].apply(f)] on the content of a frame. *)
Definition column_apply (f : pyval -> outcome pyval) (c : string)
    (d : DataFrame) : outcome DataFrame :=
  match dict_get c (columns d) with
  | None => Raise (KeyError c)
  | Some series =>
      series ← series_apply f series;
      Ret {| index := index d; columns := dict_set c series (columns d) |}
  end.

(** The loop over the columns: the content of the frame when the loop ends,
    and the exception that ended it, if any. *)
Fixpoint columns_apply (f : pyval -> outcome pyval)
    (handle : string -> exn -> exn) (cols : list string) (d : DataFrame)
  : DataFrame * option exn :=
  match cols with
  | [] => (d, None)
  | c :: cols =>
      match column_apply f c d with
      | Ret d' => columns_apply f handle cols d'
      | Raise e => (d, Some (handle c e))
      end
  end.

(** [_deserialize_json_cols] on a mapping, which touches no state. *)
Fixpoint deserialize_mapping (data : pydict) (json_cols : list string)
  : outcome pydict :=
  match json_cols with
  | [] => Ret data
  | json_col :: json_cols =>
      match dict_get json_col data with
      | None => deserialize_mapping data json_cols
      | Some s =>
          match deserializer s with
          | Ret v => deserialize_mapping (dict_set json_col v data) json_cols
          | Raise e => Raise (rethrow json_col e)
          end
      end
  end.

(** The value a cell function returns, the cell itself where it raises. *)
Definition total (f : pyval -> outcome pyval) (v : pyval) : pyval :=
  match f v with
  | Ret x => x
  | Raise _ => v
  end.

(** The columns of a frame after [f] went through the column [c], and
    through each column of [cols] in turn. *)
Definition column_map (f : pyval -> outcome pyval) (c : string)
    (columns : list (string * list pyval)) : list (string * list pyval) :=
  match dict_get c columns with
  | Some series => dict_set c (map (total f) series) columns
  | None => columns
  end.

Definition columns_map (f : pyval -> outcome pyval) (cols : list string)
    (columns : list (string * list pyval)) : list (string * list pyval) :=
  fold_left (fun acc c => column_map f c acc) cols columns.

(** Store calls in a trace. *)
Definition is_store_call (e : event) : bool :=
  match e with
  | modify_item _ _ | put_item _ _ | del_item _ => true
  | _ => false
  end.

Definition table_a : DataFrame :=
  {| index := [PyStr "a"];
     columns := [("tags", [PyList [PyStr "x"; PyStr "y"]]);
                 ("name", [PyStr "n"])] |}.

Definition world_of (d : DataFrame) : world :=
  {| heap := [d];
     default_edit_info := _DEFAULT_PROCESSED;
     session := {| data_editor_data := Some 0%nat;
                   data_editor_widget := None;
                   data_editor_processed := false |};
     trace := [] |}.

Definition editor0 : DynamoDBTableEditor := {| df := 0%nat |}.





(** Structural equality of values, to count calls in a trace. *)
Fixpoint pyval_beq (a b : pyval) {struct a} : bool :=
  match a, b with
  | PyNone, PyNone => true
  | PyBool x, PyBool y => Bool.eqb x y
  | PyInt x, PyInt y => Z.eqb x y
  | PyStr s, PyStr t | PyBytes s, PyBytes t | PyByteArray s, PyByteArray t =>
      String.eqb s t
  | PyList l, PyList m | PyTuple l, PyTuple m =>
      (fix seq_beq (l m : list pyval) {struct l} : bool :=
         match l, m with
         | [], [] => true
         | x :: l', y :: m' => pyval_beq x y && seq_beq l' m'
         | _, _ => false
         end) l m
  | PyDict d, PyDict e =>
      (fix items_beq (d e : pydict) {struct d} : bool :=
         match d, e with
         | [], [] => true
         | (k, v) :: d', (k', v') :: e' =>
             String.eqb k k' && pyval_beq v v' && items_beq d' e'
         | _, _ => false
         end) d e
  | _, _ => false
  end.

(** The applied-edits record after an entry was recorded. *)
Definition with_edited (idx : nat) (edited_row : pydict) (p : ProcessedEdits)
  : ProcessedEdits :=
  {| processed_edited_rows := <[idx := edited_row]> (processed_edited_rows p);
     processed_added_rows := processed_added_rows p;
     processed_deleted_rows := processed_deleted_rows p |}.

Definition with_added (added_row_repr : string) (p : ProcessedEdits)
  : ProcessedEdits :=
  {| processed_edited_rows := processed_edited_rows p;
     processed_added_rows := processed_added_rows p ++ [added_row_repr];
     processed_deleted_rows := processed_deleted_rows p |}.

Definition with_deleted (index_val : pyval) (p : ProcessedEdits)
  : ProcessedEdits :=
  {| processed_edited_rows := processed_edited_rows p;
     processed_added_rows := processed_added_rows p;
     processed_deleted_rows := processed_deleted_rows p ++ [index_val] |}.

(** A store call made in world [w]: the world when it fails, and the world
    when it succeeds and the entry is recorded. *)
Definition call_outcome (responds : list event -> event -> bool) (c : event)
    (p : ProcessedEdits) (w : world) : world * outcome unit :=
  if responds (trace w) c then (set_processed p (log c w), Ret tt)
  else (log c w, Raise ClientError).

(** The event [e] is the store call [c]. *)
Definition same_call (c e : event) : bool :=
  match c, e with
  | modify_item k r, modify_item k' r' | put_item k r, put_item k' r' =>
      pyval_beq k k' && pyval_beq (PyDict r) (PyDict r')
  | del_item k, del_item k' => pyval_beq k k'
  | _, _ => false
  end.


(** Number of store calls of a trace that [sel] selects, and number of
    times a given store call occurs in a trace. *)
Definition calls_of (sel : event -> bool) (tr : list event) : nat :=
  length (filter (fun e => sel e = true) tr).

Definition calls (c : event) (tr : list event) : nat :=
  calls_of (same_call c) tr.

(** The world once the property [processed_edits] was read. *)
Definition ensure_processed (w : world) : world :=
  if data_editor_processed (session w) then w else set_processed_key w.

Definition json_cols_of (d : DataFrame) : list string :=
  map fst (filter (fun lv => is_json_value lv.2 = true) (row_at d 0)).

(** A step that makes no store call and leaves the applied-edits record and
    the objects of the heap as they are. *)
Definition quiet (w w' : world) : Prop :=
  (exists ext, heap w' = heap w ++ ext) /\
  data_editor_data (session w') = data_editor_data (session w) /\
  the_processed w' = the_processed w /\
  exists evs, trace w' = trace w ++ evs /\
              Forall (fun e => is_store_call e = false) evs.

(** The frame that [edit] shows for a table: its JSON columns as text. *)
Definition display (d : DataFrame) : DataFrame :=
  (columns_apply dumps (fun _ e => e) (json_cols_of d) d).1.

(** Number of selected calls that the store accepted, in a trace that
    follows the calls of [pre]. *)
Fixpoint accepted_from (responds : list event -> event -> bool)
    (sel : event -> bool) (pre tr : list event) : nat :=
  match tr with
  | [] => 0
  | e :: tr =>
      ((if sel e && responds pre e then 1 else 0)
       + accepted_from responds sel (pre ++ [e]) tr)%nat
  end.

Definition accepted (responds : list event -> event -> bool)
    (sel : event -> bool) (tr : list event) : nat :=
  accepted_from responds sel [] tr.

(** What holds after a computation: [P] when it returned, [R] when it
    raised. *)
Definition holds {A : Type} (P R : world -> Prop) (r : world * outcome A)
    : Prop :=
  match r with
  | (w, Ret _) => P w
  | (w, Raise _) => R w
  end.

(** The discipline of the three loops of [process_edits], for the calls that
    [sel] selects and the entries that [recorded] finds in the applied-edits
    record: a step makes no call, or it makes one call and records [p] when
    the call returns; a selected call is made only when its entry is not
    recorded, and records it; any other call keeps what is recorded. *)
Definition guarded (responds : list event -> event -> bool)
    (sel : event -> bool) (recorded : ProcessedEdits -> Prop)
    (step : M unit) (w : world) : Prop :=
  (exists o, step w = (w, o)) \/
  (exists c p,
     step w = call_outcome responds c p w /\
     if sel c then ~ recorded (the_processed w) /\ recorded p
     else recorded (the_processed w) -> recorded p).

(** The store accepted at most one selected call since the trace held [n0]
    accepted ones, and if it did the entry is recorded. *)
Definition once (responds : list event -> event -> bool)
    (sel : event -> bool) (recorded : ProcessedEdits -> Prop) (n0 : nat)
    (w : world) : Prop :=
  (n0 <= accepted responds sel (trace w) <= n0 + 1)%nat /\
  (accepted responds sel (trace w) = (n0 + 1)%nat ->
   recorded (the_processed w)).

(** At most one selected call was made since the trace held [m0] of them,
    and if one was made the entry is recorded. *)
Definition asked (sel : event -> bool) (recorded : ProcessedEdits -> Prop)
    (m0 : nat) (w : world) : Prop :=
  (m0 <= calls_of sel (trace w) <= m0 + 1)%nat /\
  (calls_of sel (trace w) = (m0 + 1)%nat -> recorded (the_processed w)).

Definition bounded (sel : event -> bool) (m0 : nat) (w : world) : Prop :=
  (m0 <= calls_of sel (trace w) <= m0 + 1)%nat.

(** The three loops of a render follow the discipline, for the diff [info]
    of a table [d]. *)
Definition disciplined (responds : list event -> event -> bool)
    (sel : event -> bool) (recorded : ProcessedEdits -> Prop)
    (self : DynamoDBTableEditor) (d : DataFrame) (info : EditInfo) : Prop :=
  forall w, heap w !! df self = Some d ->
    (forall entry, entry ∈ edited_rows info ->
       guarded responds sel recorded
         (process_edited_row responds self (json_cols_of d) entry) w) /\
    (forall added_row, added_row ∈ added_rows info ->
       guarded responds sel recorded
         (process_added_row responds (json_cols_of d) added_row) w) /\
    (forall idx, idx ∈ deleted_rows info ->
       guarded responds sel recorded
         (process_deleted_row responds self idx) w).

(** A store that accepts every call, and one that refuses every call. *)
Definition accepts : list event -> event -> bool := fun _ _ => true.
Definition refuses : list event -> event -> bool := fun _ _ => false.

Definition table_ab : DataFrame :=
  {| index := [PyStr "a"; PyStr "b"];
     columns := [("tags", [PyList [PyStr "x"; PyStr "y"]; PyList []]);
                 ("n", [PyInt 1; PyInt 2])] |}.

Definition table_empty : DataFrame :=
  {| index := []; columns := [("tags", []); ("n", [])] |}.

(** The user changes the tags of the first row, adds a row and deletes the
    second row. *)
Definition edits_ok : EditInfo :=
  {| edited_rows := [(0%nat, [("tags", PyStr "[1, 2]")])];
     added_rows := [[("_index", PyStr "c"); ("n", PyInt 3)]];
     deleted_rows := [1%nat] |}.

Definition grid_ok (shown : DataFrame) : DataFrame * EditInfo :=
  (shown, edits_ok).

(** The user deletes the second row and does nothing else. *)
Definition edits_delete : EditInfo :=
  {| edited_rows := []; added_rows := []; deleted_rows := [1%nat] |}.
Definition grid_delete (shown : DataFrame) : DataFrame * EditInfo :=
  (shown, edits_delete).

(** The user adds the same row twice, with the columns in another order. *)
Definition edits_twice : EditInfo :=
  {| edited_rows := [];
     added_rows := [[("_index", PyStr "c"); ("n", PyInt 3); ("m", PyInt 4)];
                    [("m", PyInt 4); ("_index", PyStr "c"); ("n", PyInt 3)]];
     deleted_rows := [] |}.
Definition grid_twice (shown : DataFrame) : DataFrame * EditInfo :=
  (shown, edits_twice).

(** ** Notions used by the properties of a whole render *)

(** The store call [e] applies an entry of the diff [info] to the table
    [d]: the row key is the one at the entry's position, the columns are
    the decoded columns of the entry. *)
Definition from_diff (d : DataFrame) (info : EditInfo) (e : event) : Prop :=
  match e with
  | modify_item index_val edited_row =>
      exists idx row,
        (idx, row) ∈ edited_rows info /\
        index d !! idx = Some index_val /\
        deserialize_mapping row (json_cols_of d) = Ret edited_row
  | put_item keys added_row =>
      exists row decoded,
        row ∈ added_rows info /\
        deserialize_mapping row (json_cols_of d) = Ret decoded /\
        dict_get "_index" decoded = Some keys /\
        added_row = dict_pop "_index" decoded
  | del_item index_val =>
      exists idx, idx ∈ deleted_rows info /\ index d !! idx = Some index_val
  | data_editor _ | st_error _ => True
  end.

(** What the loops record after the store call [c] returned. *)
Definition records (c : event) (p0 p : ProcessedEdits) : Prop :=
  match c with
  | modify_item _ edited_row => exists idx, p = with_edited idx edited_row p0
  | put_item _ added_row =>
      exists added_row_repr,
        json_dumps true (PyDict added_row) = Some added_row_repr /\
        p = with_added added_row_repr p0
  | del_item index_val => p = with_deleted index_val p0
  | data_editor _ | st_error _ => False
  end.

(** A step of the three loops for the diff [info]: it ends where it started,
    or it makes one store call for an entry of the diff, and records the
    entry when the call returns. *)
Definition entry_step (responds : list event -> event -> bool)
    (d : DataFrame) (info : EditInfo) (step : M unit) (w : world) : Prop :=
  (exists o, step w = (w, o)) \/
  (exists c p,
     step w = call_outcome responds c p w /\
     is_store_call c = true /\ from_diff d info c /\
     records c (the_processed w) p).

(** The applied-edits record [p'] holds what [p] holds: the positions of
    the edited rows, and the added and deleted rows in the same order. *)
Definition extends (p p' : ProcessedEdits) : Prop :=
  (forall idx, is_Some (processed_edited_rows p !! idx) ->
               is_Some (processed_edited_rows p' !! idx)) /\
  processed_added_rows p `prefix_of` processed_added_rows p' /\
  processed_deleted_rows p `prefix_of` processed_deleted_rows p'.

(** Number of store calls in a trace. *)
Definition store_calls (tr : list event) : nat := calls_of is_store_call tr.

(** The entries of a diff that the applied-edits record [p] makes the loops
    skip, for the table [d]. *)
Definition edited_settled (d : DataFrame) (p : ProcessedEdits)
    (entry : nat * pydict) : Prop :=
  exists index_val edited_row,
    index d !! entry.1 = Some index_val /\
    deserialize_mapping entry.2 (json_cols_of d) = Ret edited_row /\
    already_edited p entry.1 edited_row = true.

Definition added_settled (d : DataFrame) (p : ProcessedEdits)
    (added_row : pydict) : Prop :=
  exists decoded keys added_row_repr,
    deserialize_mapping added_row (json_cols_of d) = Ret decoded /\
    dict_get "_index" decoded = Some keys /\
    json_dumps true (PyDict (dict_pop "_index" decoded))
    = Some added_row_repr /\
    added_row_repr ∈ processed_added_rows p.

Definition deleted_settled (d : DataFrame) (p : ProcessedEdits) (idx : nat)
  : Prop :=
  exists index_val,
    index d !! idx = Some index_val /\
    py_in index_val (processed_deleted_rows p) = true.

Definition settled (d : DataFrame) (info : EditInfo) (p : ProcessedEdits)
  : Prop :=
  Forall (edited_settled d p) (edited_rows info) /\
  Forall (added_settled d p) (added_rows info) /\
  Forall (deleted_settled d p) (deleted_rows info).

(** The runs of the page in one session: each run fetches the items the
    store holds then, if it fetches, and shows a grid. *)
Definition renders (responds : list event -> event -> bool)
    (runs : list (DataFrame * (DataFrame -> DataFrame * EditInfo)))
    (w : world) : world :=
  fold_left (fun w run => (editable_demo responds run.1 run.2 w).1) runs w.

(** A session before its first run, in a process that recorded nothing, and
    a grid that the user leaves alone. *)
Definition world_new : world :=
  {| heap := [];
     default_edit_info := _DEFAULT_PROCESSED;
     session := {| data_editor_data := None;
                   data_editor_widget := None;
                   data_editor_processed := false |};
     trace := [] |}.

Definition grid_same (shown : DataFrame) : DataFrame * EditInfo :=
  (shown, _DEFAULT_EDIT_INFO).


(** ** Predicates of the statements on decoding and on the loops *)

(** The cell function succeeds on [None] and on what [json.loads] reads. *)
Definition decodes (x : pyval) : Prop :=
  x = PyNone \/ exists v, loads x = Ret v.

(** The discipline, with what the other calls do to the entry: a call that
    is not selected leaves the entry recorded or not, as it was. *)
Definition strict (responds : list event -> event -> bool)
    (sel : event -> bool) (recorded : ProcessedEdits -> Prop)
    (step : M unit) (w : world) : Prop :=
  (exists o, step w = (w, o)) \/
  (exists c p,
     step w = call_outcome responds c p w /\
     if sel c then ~ recorded (the_processed w) /\ recorded p
     else recorded p <-> recorded (the_processed w)).

Definition strictly_disciplined (responds : list event -> event -> bool)
    (sel : event -> bool) (recorded : ProcessedEdits -> Prop)
    (self : DynamoDBTableEditor) (d : DataFrame) (info : EditInfo) : Prop :=
  forall w, heap w !! df self = Some d ->
    (forall entry, entry ∈ edited_rows info ->
       strict responds sel recorded
         (process_edited_row responds self (json_cols_of d) entry) w) /\
    (forall added_row, added_row ∈ added_rows info ->
       strict responds sel recorded
         (process_added_row responds (json_cols_of d) added_row) w) /\
    (forall idx, idx ∈ deleted_rows info ->
       strict responds sel recorded
         (process_deleted_row responds self idx) w).

(** What the selected calls and the record of the entry are in [w], for a
    run of steps that started in [w0]: the entry is recorded only if it was
    or if the store accepted a selected call since, and an entry that was
    recorded stays recorded and is the object of no call. *)
Definition traced (responds : list event -> event -> bool)
    (sel : event -> bool) (recorded : ProcessedEdits -> Prop)
    (w0 w : world) : Prop :=
  (calls_of sel (trace w0) <= calls_of sel (trace w))%nat /\
  (accepted responds sel (trace w0) <= accepted responds sel (trace w))%nat /\
  (accepted responds sel (trace w) - accepted responds sel (trace w0)
   <= calls_of sel (trace w) - calls_of sel (trace w0))%nat /\
  (recorded (the_processed w) ->
   recorded (the_processed w0) \/
   (accepted responds sel (trace w0) < accepted responds sel (trace w))%nat) /\
  (recorded (the_processed w0) ->
   recorded (the_processed w) /\
   calls_of sel (trace w) = calls_of sel (trace w0)).

(** The diff holds an entry whose step leaves the entry recorded when it
    returns. *)
Definition reports (responds : list event -> event -> bool)
    (recorded : ProcessedEdits -> Prop) (self : DynamoDBTableEditor)
    (d : DataFrame) (info : EditInfo) : Prop :=
  (exists entry, entry ∈ edited_rows info /\
     forall w w', heap w !! df self = Some d ->
       process_edited_row responds self (json_cols_of d) entry w
       = (w', Ret tt) -> recorded (the_processed w')) \/
  (exists added_row, added_row ∈ added_rows info /\
     forall w w', heap w !! df self = Some d ->
       process_added_row responds (json_cols_of d) added_row w
       = (w', Ret tt) -> recorded (the_processed w')) \/
  (exists idx, idx ∈ deleted_rows info /\
     forall w w', heap w !! df self = Some d ->
       process_deleted_row responds self idx w = (w', Ret tt) ->
       recorded (the_processed w')).


(** The user leaves malformed text in the tags of the first row: the grid
    gives back the frame with that text, and reports the change. *)
Definition edits_typo : EditInfo :=
  {| edited_rows := [(0%nat, [("tags", PyStr "{bad")])];
     added_rows := [];
     deleted_rows := [] |}.
Definition grid_typo (shown : DataFrame) : DataFrame * EditInfo :=
  ({| index := index shown;
      columns := dict_set "tags" [PyStr "{bad"; PyStr "[]"] (columns shown) |},
   edits_typo).

(** * Properties *)

(** ** The codec on sample texts *)

Example dumps_nested :
  json_dumps false
    (PyDict [("b", PyList [PyInt 1; PyBool true]); ("a", PyStr "x")])
  = Some (String "{" (String c_quote ("b" +:+ String c_quote
      (": [1, true], " +:+ String c_quote ("a" +:+ String c_quote
        (": " +:+ String c_quote ("x" +:+ String c_quote "}"))))))).
Proof. reflexivity. Qed.

Example loads_nested :
  json_loads (String "{" (String c_quote ("b" +:+ String c_quote
      (" : [1 ,true, null] , " +:+ String c_quote ("a" +:+ String c_quote
        (": " +:+ String c_quote ("x\u00e9" +:+ String c_quote " } ")))))))
  = Parsed (PyDict [("b", PyList [PyInt 1; PyBool true; PyNone]);
                    ("a", PyStr (String "x" (str1 "233")))]).
Proof. vm_compute. reflexivity. Qed.

Example loads_bad : json_loads "{bad" = Malformed.
Proof. reflexivity. Qed.

Example loads_leading_zero : json_loads "[01]" = Malformed.
Proof. reflexivity. Qed.

(** A floating point number is read by [json.loads], to a value outside
    the model; text that breaks off, or a point with no digit behind it, is
    malformed, also behind a floating point number. *)
Example loads_float : json_loads "[1.5]" = NotModelled.
Proof. reflexivity. Qed.

Example loads_constant : json_loads "[NaN, -Infinity]" = NotModelled.
Proof. reflexivity. Qed.

Example loads_unfinished : json_loads "[" = Malformed.
Proof. reflexivity. Qed.

Example loads_unfinished_inside : json_loads "[1,[" = Malformed.
Proof. reflexivity. Qed.

Example loads_point : json_loads "[1.]" = Malformed.
Proof. reflexivity. Qed.

Example loads_float_unfinished : json_loads "[1.5" = Malformed.
Proof. reflexivity. Qed.

Example loads_float_then_bad : json_loads "[1.5, {bad]" = Malformed.
Proof. reflexivity. Qed.

(** The first value that [json.dumps] refuses decides the exception. *)
Example dumps_bytes :
  dumps (PyList [PyInt 1; PyBytes "x"]) = Raise TypeError.
Proof. reflexivity. Qed.

Example loads_trailing_comma : json_loads "[1,]" = Malformed.
Proof. reflexivity. Qed.

Example loads_minus_zero : json_loads "-0" = Parsed (PyInt 0).
Proof. reflexivity. Qed.

(** ** Text *)

Lemma append_cons (x : ascii) (a b : string) :
  String x a +:+ b = String x (a +:+ b).
Proof. reflexivity. Qed.

Lemma append_empty_l (b : string) : EmptyString +:+ b = b.
Proof. reflexivity. Qed.

Lemma append_assoc (a b c : string) : (a +:+ b) +:+ c = a +:+ (b +:+ c).
Proof.
  induction a as [|x a IH]; [done|]. rewrite !append_cons. by f_equal.
Qed.

Lemma append_empty_r (a : string) : a +:+ EmptyString = a.
Proof.
  induction a as [|x a IH]; [done|]. rewrite append_cons. by f_equal.
Qed.

Lemma length_append (a b : string) :
  String.length (a +:+ b) = (String.length a + String.length b)%nat.
Proof.
  induction a as [|x a IH]; [done|]. rewrite append_cons. simpl. by f_equal.
Qed.

Create Rewrite HintDb text.
#[export] Hint Rewrite append_cons append_empty_l append_assoc : text.

(** ** Induction on values, through the nested lists *)

Lemma pyval_ind' (P : pyval -> Prop) :
  P PyNone ->
  (forall b, P (PyBool b)) ->
  (forall z, P (PyInt z)) ->
  (forall s, P (PyStr s)) ->
  (forall s, P (PyBytes s)) ->
  (forall s, P (PyByteArray s)) ->
  (forall l, Forall P l -> P (PyList l)) ->
  (forall l, Forall P l -> P (PyTuple l)) ->
  (forall d, Forall (fun kv => P kv.2) d -> P (PyDict d)) ->
  forall v, P v.
Proof.
  intros HN HB HI HS HBy HBa HL HT HD.
  fix IH 1. intros [ | b | z | s | s | s | l | l | d].
  - exact HN.
  - apply HB.
  - apply HI.
  - apply HS.
  - apply HBy.
  - apply HBa.
  - apply HL. induction l as [|x l IHl]; constructor; [apply IH|exact IHl].
  - apply HT. induction l as [|x l IHl]; constructor; [apply IH|exact IHl].
  - apply HD. induction d as [|[k x] d IHd]; constructor; [apply IH|exact IHd].
Qed.

(** ** Reading back an encoded string *)

Lemma scanstring_escape_char (c : ascii) (tail : string) :
  scanstring false (escape_char c +:+ tail)
  = ('(body, rest) ← scanstring false tail; Parsed (String c body, rest)).
Proof.
  destruct c as [[] [] [] [] [] [] [] []]; reflexivity.
Qed.

Lemma scanstring_escape_body (s rest : string) :
  scanstring false (escape_body s +:+ String c_quote rest) = Parsed (s, rest).
Proof.
  induction s as [|c s IH]; [done|].
  cbn [escape_body]. by rewrite append_assoc, scanstring_escape_char, IH.
Qed.

(** ** Reading back an encoded integer *)

Definition no_digit_ahead (rest : string) : Prop :=
  scan_digits rest = (Nil, rest) /\ scan_float rest = None.

Lemma scan_digits_string_of_uint (d : uint) (rest : string) :
  scan_digits rest = (Nil, rest) ->
  scan_digits (NilEmpty.string_of_uint d +:+ rest) = (d, rest).
Proof.
  intros Hrest. induction d; cbn [NilEmpty.string_of_uint];
    rewrite ?append_cons; [done|..];
    cbn [scan_digits]; unfold digit_of; simpl; by rewrite IHd.
Qed.

Lemma unorm_to_uint (p : positive) : unorm (Pos.to_uint p) = Pos.to_uint p.
Proof.
  rewrite <- (DecimalPos.Unsigned.to_of (Pos.to_uint p)).
  by rewrite DecimalPos.Unsigned.of_to.
Qed.

Lemma uint_beq_refl (d : uint) : uint_beq d d = true.
Proof. induction d; simpl; auto. Qed.

Lemma scan_number_to_uint (negative : bool) (p : positive) (rest : string) :
  no_digit_ahead rest -> too_long (Pos.to_uint p) = false ->
  scan_number false negative (NilEmpty.string_of_uint (Pos.to_uint p) +:+ rest)
  = Parsed (PyInt (if negative then Z.neg p else Z.pos p), rest).
Proof.
  intros [Hd Hf] Hlen. unfold scan_number.
  rewrite scan_digits_string_of_uint by done.
  pose proof (DecimalPos.Unsigned.to_uint_nonnil p) as Hnil.
  pose proof (DecimalPos.Unsigned.of_to p) as Hof.
  rewrite unorm_to_uint, uint_beq_refl, Hf, Hlen. cbn [negb].
  unfold Z.of_uint. rewrite Hof.
  destruct (Pos.to_uint p); [done|by destruct negative..].
Qed.

(** ** Equations of the decoder *)

Lemma scan_once_string (f : nat) (r : string) :
  scan_once false (S f) (String c_quote r)
  = ('(body, rest) ← scanstring false r; Parsed (PyStr body, rest)).
Proof. reflexivity. Qed.

Lemma scan_once_array (f : nat) (r : string) :
  scan_once false (S f) (String "[" r)
  = match strip_prefix "]" (skip_ws r) with
    | Some rest => Parsed (PyList [], rest)
    | None =>
        '(values, rest) ← JSONArray false f (skip_ws r);
        Parsed (PyList values, rest)
    end.
Proof. reflexivity. Qed.

Lemma scan_once_object (f : nat) (r : string) :
  scan_once false (S f) (String "{" r)
  = match strip_prefix "}" (skip_ws r) with
    | Some rest => Parsed (PyDict [], rest)
    | None =>
        '(pairs, rest) ← JSONObject false f (skip_ws r);
        Parsed (PyDict (dict_of_pairs pairs), rest)
    end.
Proof. reflexivity. Qed.

Lemma JSONArray_eq (f : nat) (s : string) :
  JSONArray false (S f) s
  = ('(value, rest) ← scan_once false f s;
     match skip_ws rest with
     | String c r =>
         match N_of_ascii c with
         | 93%N => Parsed ([value], r)
         | 44%N =>
             '(values, rest) ← JSONArray false f (skip_ws r);
             Parsed (value :: values, rest)
         | _ => Malformed
         end
     | EmptyString => Malformed
     end).
Proof. reflexivity. Qed.

Lemma JSONObject_eq (f : nat) (r : string) :
  JSONObject false (S f) (String c_quote r)
  = ('(key, rest) ← scanstring false r;
     match skip_ws rest with
     | String c r =>
         if negb (Ascii.eqb c ":") then Malformed
         else
           '(value, rest) ← scan_once false f (skip_ws r);
           match skip_ws rest with
           | String c r =>
               match N_of_ascii c with
               | 125%N => Parsed ([(key, value)], r)
               | 44%N =>
                   '(pairs, rest) ← JSONObject false f (skip_ws r);
                   Parsed ((key, value) :: pairs, rest)
               | _ => Malformed
               end
           | EmptyString => Malformed
           end
     | EmptyString => Malformed
     end).
Proof. reflexivity. Qed.

Lemma scan_once_digits (f : nat) (d : uint) (rest : string) :
  d <> Nil ->
  scan_once false (S f) (NilEmpty.string_of_uint d +:+ rest)
  = scan_number false false (NilEmpty.string_of_uint d +:+ rest).
Proof. destruct d; [done|reflexivity..]. Qed.

Lemma scan_once_minus (f : nat) (d : uint) (rest : string) :
  d <> Nil ->
  scan_once false (S f) (String "-" (NilEmpty.string_of_uint d +:+ rest))
  = scan_number false true (NilEmpty.string_of_uint d +:+ rest).
Proof. destruct d; [done|reflexivity..]. Qed.

(** ** The first character of an encoding *)

Definition value_start (c : ascii) : bool :=
  match N_of_ascii c with
  | 34 | 91 | 123 | 110 | 116 | 102 | 45 => true
  | n => (48 <=? n) && (n <=? 57)
  end%N.

Lemma value_start_skip_ws (c : ascii) (r : string) :
  value_start c = true -> skip_ws (String c r) = String c r.
Proof.
  destruct c as [[] [] [] [] [] [] [] []]; try discriminate; reflexivity.
Qed.

Lemma value_start_not_close (w : ascii) (c : ascii) (r : string) :
  value_start c = true -> w = "]"%char \/ w = "}"%char ->
  strip_prefix (str1 w) (String c r) = None.
Proof.
  intros Hc [-> | ->];
    destruct c as [[] [] [] [] [] [] [] []]; try discriminate; reflexivity.
Qed.

Lemma string_of_uint_head (d : uint) :
  d <> Nil ->
  exists c r, NilEmpty.string_of_uint d = String c r /\ value_start c = true.
Proof. destruct d; [done|simpl; eauto..]. Qed.

Lemma mapM_seq (f : pyval -> option string) (l : list pyval) :
  (fix dumps_seq (l : list pyval) {struct l} : option (list string) :=
     match l with
     | [] => Some []
     | x :: l' => c ← f x; cs ← dumps_seq l'; Some (c :: cs)
     end) l = mapM f l.
Proof. induction l as [|x l IH]; [done|]. simpl. by rewrite IH. Qed.

Definition dumps_item (sort_keys : bool) (kv : string * pyval)
  : option (string * string) :=
  c ← json_dumps sort_keys kv.2; Some (kv.1, c).

Lemma mapM_items (sort_keys : bool) (d : pydict) :
  (fix dumps_items (d : pydict) {struct d} : option (list (string * string)) :=
     match d with
     | [] => Some []
     | (k, v) :: d' =>
         c ← json_dumps sort_keys v; cs ← dumps_items d'; Some ((k, c) :: cs)
     end) d = mapM (dumps_item sort_keys) d.
Proof.
  induction d as [|[k v] d IH]; [done|]. simpl. rewrite IH.
  unfold dumps_item. simpl. by destruct (json_dumps sort_keys v).
Qed.

Lemma json_dumps_list (sort_keys : bool) (l : list pyval) :
  json_dumps sort_keys (PyList l)
  = (chunks ← mapM (json_dumps sort_keys) l;
     Some ("[" +:+ String.concat ", " chunks +:+ "]")).
Proof. simpl. by rewrite mapM_seq. Qed.

Lemma json_dumps_tuple (sort_keys : bool) (l : list pyval) :
  json_dumps sort_keys (PyTuple l) = json_dumps sort_keys (PyList l).
Proof. reflexivity. Qed.

Lemma json_dumps_dict (sort_keys : bool) (d : pydict) :
  json_dumps sort_keys (PyDict d)
  = (items ← mapM (dumps_item sort_keys) d;
     Some ("{" +:+ String.concat ", "
             (map render_item (if sort_keys then sort_items items else items))
           +:+ "}")).
Proof. simpl. by rewrite mapM_items. Qed.

Lemma json_dumps_head (sort_keys : bool) (v : pyval) (s : string) :
  json_dumps sort_keys v = Some s ->
  exists c r, s = String c r /\ value_start c = true.
Proof.
  destruct v as [ | [] | z | t | t | t | l | l | d].
  - intros [= <-]. do 2 eexists; split; reflexivity.
  - intros [= <-]. do 2 eexists; split; reflexivity.
  - intros [= <-]. do 2 eexists; split; reflexivity.
  - cbn [json_dumps]. destruct (int_too_long z); [done|].
    intros [= <-]. unfold int_repr, NilZero.string_of_int, NilZero.string_of_uint.
    destruct z as [|p|p]; simpl.
    + do 2 eexists; split; reflexivity.
    + destruct (string_of_uint_head (Pos.to_uint p)) as (c & r & Hs & Hc);
        [apply DecimalPos.Unsigned.to_uint_nonnil|].
      destruct (Pos.to_uint p); [do 2 eexists; split; reflexivity|do 2 eexists; split; reflexivity..].
    + do 2 eexists; split; reflexivity.
  - intros [= <-]. do 2 eexists; split; reflexivity.
  - done.
  - done.
  - rewrite json_dumps_list. destruct (mapM _ l); [|done].
    intros [= <-]. do 2 eexists; split; reflexivity.
  - rewrite json_dumps_tuple, json_dumps_list. destruct (mapM _ l); [|done].
    intros [= <-]. do 2 eexists; split; reflexivity.
  - rewrite json_dumps_dict. destruct (mapM _ d); [|done].
    intros [= <-]. do 2 eexists; split; reflexivity.
Qed.

(** ** [json.loads] reads back what [json.dumps] wrote *)

Definition reads_back (v : pyval) : Prop :=
  forall s fuel rest,
    json_dumps false v = Some s -> (weight v <= fuel)%nat ->
    no_digit_ahead rest ->
    scan_once false fuel (s +:+ rest) = Parsed (v, rest).

Lemma mapM_cons_Some {A B : Type} (f : A -> option B) (x : A) (l : list A)
    (ys : list B) :
  mapM f (x :: l) = Some ys ->
  exists y ys', f x = Some y /\ mapM f l = Some ys' /\ ys = y :: ys'.
Proof. intros Hm. simplify_option_eq. eauto. Qed.

Lemma concat_chunks_head (l : list pyval) (chunks : list string) :
  mapM (json_dumps false) l = Some chunks -> l <> [] ->
  exists h r, String.concat ", " chunks = String h r /\ value_start h = true.
Proof.
  destruct l as [|x l]; [done|]. intros Hm _.
  apply mapM_cons_Some in Hm as (c & cs & Hc & _ & ->).
  destruct (json_dumps_head _ _ _ Hc) as (h & r & -> & Hh).
  destruct cs; cbn [String.concat]; rewrite ?append_cons; eauto.
Qed.

Lemma skip_ws_space (s : string) : skip_ws (String " " s) = skip_ws s.
Proof. reflexivity. Qed.

Lemma concat_cons2 (sep x y : string) (l : list string) :
  String.concat sep (x :: y :: l) = x +:+ sep +:+ String.concat sep (y :: l).
Proof. reflexivity. Qed.

Lemma JSONArray_dumps (l : list pyval) :
  Forall reads_back l -> l <> [] ->
  forall chunks fuel rest,
    mapM (json_dumps false) l = Some chunks ->
    (list_sum (map (fun x => S (weight x)) l) <= fuel)%nat ->
    JSONArray false fuel (String.concat ", " chunks +:+ String "]" rest)
    = Parsed (l, rest).
Proof.
  induction 1 as [|x l Hx Hl IH]; [done|]. intros _ chunks fuel rest Hm Hfuel.
  apply mapM_cons_Some in Hm as (c & cs & Hc & Hcs & ->).
  destruct fuel as [|f]; [simpl in Hfuel; lia|].
  rewrite JSONArray_eq. destruct l as [|y l].
  - injection Hcs as <-. cbn [String.concat].
    rewrite (Hx _ f (String "]" rest) Hc); [done|simpl in Hfuel; lia|done].
  - destruct (concat_chunks_head _ _ Hcs) as (h & r & Hk & Hh); [done|].
    destruct (mapM_cons_Some _ _ _ _ Hcs) as (c' & cs' & _ & _ & ->).
    rewrite concat_cons2, !append_assoc.
    rewrite (Hx _ f _ Hc); [|simpl in Hfuel; lia|done].
    cbn [mbind parsed_bind]. rewrite !append_cons, append_empty_l.
    change (skip_ws (String "," ?s)) with (String "," s).
    cbv iota beta. change (N_of_ascii ",") with 44%N. cbv iota beta.
    rewrite skip_ws_space, Hk, append_cons.
    rewrite value_start_skip_ws by done.
    rewrite <- append_cons, <- Hk.
    rewrite IH; [done|done|done|simpl in Hfuel |- *; lia].
Qed.

Lemma render_item_eq (k c rest : string) :
  render_item (k, c) +:+ rest
  = String c_quote (escape_body k +:+
      String c_quote (String ":" (String " " (c +:+ rest)))).
Proof.
  unfold render_item, encode_basestring_ascii, str1. cbn [fst snd].
  by rewrite !append_cons, !append_assoc, !append_cons, !append_empty_l.
Qed.

Lemma concat_items_head (items : list (string * string)) :
  items <> [] ->
  exists r, String.concat ", " (map render_item items) = String c_quote r.
Proof.
  destruct items as [|[k c] [|kv items]]; [done|..]; intros _; cbn [map].
  - cbn [String.concat]. rewrite <- (append_empty_r (render_item _)).
    rewrite render_item_eq. eauto.
  - rewrite concat_cons2, render_item_eq. eauto.
Qed.

Lemma JSONObject_dumps (d : pydict) :
  Forall (fun kv => reads_back kv.2) d -> d <> [] ->
  forall items fuel rest,
    mapM (dumps_item false) d = Some items ->
    (list_sum (map (fun kv => S (weight kv.2)) d) <= fuel)%nat ->
    JSONObject false fuel
      (String.concat ", " (map render_item items) +:+ String "}" rest)
    = Parsed (d, rest).
Proof.
  induction 1 as [|[k v] d Hv Hd IH]; [done|].
  intros _ items fuel rest Hm Hfuel.
  apply mapM_cons_Some in Hm as ([k' c] & cs & Hc & Hcs & ->).
  unfold dumps_item in Hc. cbn [fst snd] in Hc, Hv.
  destruct (json_dumps false v) as [c0|] eqn:Hdv; [|done].
  injection Hc as <- <-.
  destruct (json_dumps_head _ _ _ Hdv) as (h & r & -> & Hh).
  destruct fuel as [|f]; [simpl in Hfuel; lia|].
  destruct d as [|kv d].
  - injection Hcs as <-. cbn [map String.concat].
    rewrite render_item_eq, JSONObject_eq, scanstring_escape_body.
    cbn [mbind parsed_bind].
    change (skip_ws (String ":" ?s)) with (String ":" s). cbv iota beta.
    change (negb (Ascii.eqb ":" ":")) with false. cbv iota.
    rewrite skip_ws_space, append_cons, value_start_skip_ws by done.
    rewrite <- append_cons.
    rewrite (Hv _ f (String "}" rest) Hdv); [done|simpl in Hfuel; lia|done].
  - destruct (mapM_cons_Some _ _ _ _ Hcs) as (i & cs' & _ & _ & ->).
    destruct (concat_items_head (i :: cs')) as (r' & Hk); [done|].
    cbn [map]. rewrite concat_cons2, !append_assoc.
    change (render_item i :: map render_item cs')
      with (map render_item (i :: cs')).
    rewrite render_item_eq, JSONObject_eq, scanstring_escape_body.
    cbn [mbind parsed_bind].
    change (skip_ws (String ":" ?s)) with (String ":" s). cbv iota beta.
    change (negb (Ascii.eqb ":" ":")) with false. cbv iota.
    rewrite skip_ws_space, append_cons, value_start_skip_ws by done.
    rewrite <- append_cons.
    rewrite (Hv _ f _ Hdv); [|simpl in Hfuel; lia|done].
    cbn [mbind parsed_bind]. rewrite !append_cons, append_empty_l.
    change (skip_ws (String "," ?s)) with (String "," s).
    cbv iota beta. change (N_of_ascii ",") with 44%N. cbv iota beta.
    rewrite skip_ws_space, Hk, append_cons.
    change (skip_ws (String c_quote ?s)) with (String c_quote s).
    rewrite <- append_cons, <- Hk.
    rewrite IH; [done|done|done|simpl in Hfuel |- *; lia].
Qed.

(** ** The budget of the decoder is enough *)

Section budget.
Variable survey : bool.

Lemma skip_ws_length (s : string) :
  (String.length (skip_ws s) <= String.length s)%nat.
Proof.
  induction s as [|c s IH]; [done|]. simpl. destruct (is_ws c); simpl; lia.
Qed.

Lemma strip_prefix_length (w s rest : string) :
  strip_prefix w s = Some rest ->
  (String.length rest + String.length w = String.length s)%nat.
Proof.
  revert s. induction w as [|a w IH]; intros [|b s]; simpl; try done.
  - by intros [= <-].
  - by intros [= <-].
  - destruct (Ascii.eqb a b); [|done]. intros H%IH. lia.
Qed.

Lemma parsed_bind_Parsed {A B : Type} (m : parsed A) (k : A -> parsed B)
    (b : B) :
  m ≫= k = Parsed b -> exists a, m = Parsed a /\ k a = Parsed b.
Proof. destruct m; try done. eauto. Qed.

Lemma parsed_bind_Starved {A B : Type} (m : parsed A) (k : A -> parsed B) :
  m ≫= k = Starved -> m = Starved \/ exists a, m = Parsed a /\ k a = Starved.
Proof. destruct m; try done; eauto. Qed.

Lemma scanstring_length (s body rest : string) :
  scanstring survey s = Parsed (body, rest) ->
  (String.length rest < String.length s)%nat.
Proof.
  revert body rest.
  induction s as [s IH] using (induction_ltof1 _ String.length).
  unfold ltof in IH.
  intros body rest. destruct s as [|c r]; [done|]. cbn [scanstring].
  assert (forall x r' body rest,
            (String.length r' < String.length (String c r))%nat ->
            ('(body, rest) ← scanstring survey r'; Parsed (String x body, rest))
            = Parsed (body, rest) ->
            (String.length rest < String.length (String c r))%nat) as Hplain.
  { intros x r' body' rest' Hr' H.
    apply parsed_bind_Parsed in H as ([b t] & H & [= _ <-]).
    apply IH in H; [lia|done]. }
  destruct (N_of_ascii c) as [|p] eqn:Hc.
  { done. }
  repeat match goal with
         | |- context [match ?p with xI _ => _ | xO _ => _ | xH => _ end] =>
             destruct p
         end;
    try (destruct (_ <? 32)%N; [done|]; apply Hplain; simpl; lia);
    try (intros [= _ <-]; simpl; lia).
  destruct r as [|e r']; [done|].
  destruct (N_of_ascii e) as [|p'] eqn:He; [done|].
  repeat match goal with
         | |- context [match ?p with xI _ => _ | xO _ => _ | xH => _ end] =>
             destruct p
         end; try done; try (apply Hplain; simpl; lia).
  destruct r' as [|h1 [|h2 [|h3 [|h4 r'']]]]; try done.
  destruct (hex4 h1 h2 h3 h4) as [n|]; [|done].
  destruct (n <? 256)%N; [apply Hplain; simpl; lia|].
  destruct survey; [apply Hplain; simpl; lia|done].
Qed.

Lemma scanstring_budget (s : string) : scanstring survey s <> Starved.
Proof.
  induction s as [s IH] using (induction_ltof1 _ String.length).
  unfold ltof in IH.
  destruct s as [|c r]; [done|]. cbn [scanstring].
  assert (forall x r',
            (String.length r' < String.length (String c r))%nat ->
            ('(body, rest) ← scanstring survey r'; Parsed (String x body, rest))
            <> Starved) as Hplain.
  { intros x r' Hr' H.
    apply parsed_bind_Starved in H as [H|([b t] & _ & H)]; [|done].
    by apply IH in H. }
  destruct (N_of_ascii c) as [|p] eqn:Hc.
  { done. }
  repeat match goal with
         | |- context [match ?p with xI _ => _ | xO _ => _ | xH => _ end] =>
             destruct p
         end;
    try (destruct (_ <? 32)%N; [done|]; apply Hplain; simpl; lia);
    try done.
  destruct r as [|e r']; [done|].
  destruct (N_of_ascii e) as [|p'] eqn:He; [done|].
  repeat match goal with
         | |- context [match ?p with xI _ => _ | xO _ => _ | xH => _ end] =>
             destruct p
         end; try done; try (apply Hplain; simpl; lia).
  destruct r' as [|h1 [|h2 [|h3 [|h4 r'']]]]; try done.
  destruct (hex4 h1 h2 h3 h4) as [n|]; [|done].
  destruct (n <? 256)%N; [apply Hplain; simpl; lia|].
  destruct survey; [apply Hplain; simpl; lia|done].
Qed.

Lemma scan_digits_length (s : string) (d : uint) (rest : string) :
  scan_digits s = (d, rest) ->
  (String.length rest <= String.length s)%nat /\
  (d <> Nil -> (String.length rest < String.length s)%nat).
Proof.
  revert d rest. induction s as [|c s IH]; intros d rest; simpl.
  - by intros [= <- <-].
  - destruct (digit_of c) as [D|]; [|by intros [= <- <-]].
    destruct (scan_digits s) as [d' rest'] eqn:Hs. intros [= <- <-].
    destruct (IH _ _ eq_refl) as [Hle _]. split; [lia|]. intros _. lia.
Qed.

Lemma scan_fraction_length (s rest : string) :
  scan_fraction s = Some rest -> (String.length rest <= String.length s)%nat.
Proof.
  destruct s as [|c r]; [done|]. unfold scan_fraction.
  destruct (N_of_ascii c) as [|p]; [done|].
  repeat match goal with
         | |- context [match ?p with xI _ => _ | xO _ => _ | xH => _ end] =>
             destruct p
         end; try done.
  destruct (scan_digits r) as [d rest'] eqn:Hd.
  apply scan_digits_length in Hd as [Hle _].
  destruct d; [done|..]; intros [= <-]; simpl; lia.
Qed.

Lemma scan_exponent_length (s rest : string) :
  scan_exponent s = Some rest -> (String.length rest <= String.length s)%nat.
Proof.
  destruct s as [|c r]; [done|]. unfold scan_exponent.
  assert (forall r0, (String.length r0 <= String.length r)%nat ->
            match scan_digits r0 with
            | (Nil, _) => None
            | (_, rest) => Some rest
            end = Some rest ->
            (String.length rest <= String.length (String c r))%nat) as Hrun.
  { intros r0 Hr0. destruct (scan_digits r0) as [d rest'] eqn:Hd.
    apply scan_digits_length in Hd as [Hle _].
    destruct d; [done|..]; intros [= <-]; simpl; lia. }
  assert (forall r0 : string,
            (String.length
               match r0 with
               | String sign r' =>
                   match N_of_ascii sign with
                   | 43%N | 45%N => r'
                   | _ => r0
                   end
               | EmptyString => r0
               end <= String.length r0)%nat) as Hsign.
  { intros [|sign r']; [done|].
    destruct (N_of_ascii sign) as [|p]; [done|].
    repeat match goal with
           | |- context [match ?p with xI _ => _ | xO _ => _ | xH => _ end] =>
               destruct p
           end; simpl; lia. }
  destruct (N_of_ascii c) as [|p]; [done|].
  repeat match goal with
         | |- context [match ?p with xI _ => _ | xO _ => _ | xH => _ end] =>
             destruct p
         end; try done; apply Hrun, Hsign.
Qed.

Lemma scan_float_length (s rest : string) :
  scan_float s = Some rest -> (String.length rest <= String.length s)%nat.
Proof.
  unfold scan_float. destruct (scan_fraction s) as [r|] eqn:Hf.
  - apply scan_fraction_length in Hf.
    destruct (scan_exponent r) as [r'|] eqn:He; intros [= <-]; [|done].
    apply scan_exponent_length in He. simpl. lia.
  - apply scan_exponent_length.
Qed.

Lemma scan_number_length (negative : bool) (s : string) (v : pyval)
    (rest : string) :
  scan_number survey negative s = Parsed (v, rest) ->
  (String.length rest < String.length s)%nat.
Proof.
  unfold scan_number. destruct (scan_digits s) as [d r] eqn:Hd.
  apply scan_digits_length in Hd as [_ Hlt].
  destruct d; [done|..];
    (destruct (negb _); [done|];
     assert (String.length r < String.length s)%nat by (by apply Hlt);
     destruct (scan_float r) as [r'|] eqn:Hf;
     [apply scan_float_length in Hf; destruct survey; [|done];
      intros [= _ <-]; lia
     |destruct (too_long _); [done|]; by intros [= _ <-]]).
Qed.

Lemma scan_number_budget (negative : bool) (s : string) :
  scan_number survey negative s <> Starved.
Proof.
  unfold scan_number. destruct (scan_digits s) as [d r].
  destruct d; [done|..];
    (destruct (negb _); [done|];
     destruct (scan_float r); [by destruct survey|by destruct (too_long _)]).
Qed.

Ltac split_scan H :=
  unfold mbind, parsed_bind, float_constant in H;
  repeat match type of H with
         | context [match ?x with _ => _ end] => destruct x eqn:?
         end;
  simplify_eq.

Ltac measure_ws :=
  repeat match goal with
         | H : skip_ws ?x = _ |- _ =>
             let L := fresh "L" in
             pose proof (skip_ws_length x) as L; rewrite H in L; clear H
         | H : context [skip_ws ?x] |- _ =>
             lazymatch goal with
             | _ : (String.length (skip_ws x) <= String.length x)%nat |- _ =>
                 fail
             | _ => pose proof (skip_ws_length x)
             end
         end.

Lemma scan_length (fuel : nat) :
  (forall s v r, scan_once survey fuel s = Parsed (v, r) ->
                 (String.length r < String.length s)%nat) /\
  (forall s vs r, JSONArray survey fuel s = Parsed (vs, r) ->
                  (String.length r < String.length s)%nat) /\
  (forall s ps r, JSONObject survey fuel s = Parsed (ps, r) ->
                  (String.length r < String.length s)%nat).
Proof.
  induction fuel as [|f (IHv & IHa & IHo)]; [by split; [|split]|].
  split; [|split].
  - intros s v r H. destruct s as [|c s]; [done|]. cbn [scan_once] in H.
    split_scan H;
      repeat match goal with
             | H : scanstring _ _ = Parsed _ |- _ =>
                 apply scanstring_length in H
             | H : scan_number _ _ _ = Parsed _ |- _ =>
                 apply scan_number_length in H
             | H : strip_prefix _ _ = Some _ |- _ =>
                 apply strip_prefix_length in H
             | H : JSONArray _ _ _ = Parsed _ |- _ => apply IHa in H
             | H : JSONObject _ _ _ = Parsed _ |- _ => apply IHo in H
             end;
      measure_ws; simpl in *; lia.
  - intros s vs r H. cbn [JSONArray] in H.
    split_scan H;
      repeat match goal with
             | H : scan_once _ _ _ = Parsed _ |- _ => apply IHv in H
             | H : JSONArray _ _ _ = Parsed _ |- _ => apply IHa in H
             end;
      measure_ws; simpl in *; lia.
  - intros s ps r H. cbn [JSONObject] in H.
    split_scan H;
      repeat match goal with
             | H : scanstring _ _ = Parsed _ |- _ =>
                 apply scanstring_length in H
             | H : scan_once _ _ _ = Parsed _ |- _ => apply IHv in H
             | H : JSONObject _ _ _ = Parsed _ |- _ => apply IHo in H
             end;
      measure_ws; simpl in *; lia.
Qed.

Lemma scan_budget (fuel : nat) :
  (forall s, (2 * String.length s + 1 <= fuel)%nat ->
             scan_once survey fuel s <> Starved) /\
  (forall s, (2 * String.length s + 2 <= fuel)%nat ->
             JSONArray survey fuel s <> Starved) /\
  (forall s, (2 * String.length s + 2 <= fuel)%nat ->
             JSONObject survey fuel s <> Starved).
Proof.
  induction fuel as [|f (IHv & IHa & IHo)].
  { split; [|split]; intros s Hs; lia. }
  destruct (scan_length f) as (Lv & La & Lo).
  split; [|split].
  - intros s Hf H. destruct s as [|c s]; [done|]. cbn [scan_once] in H.
    simpl in Hf.
    split_scan H;
      try (by match goal with
              | H : scanstring _ _ = Starved |- _ =>
                  apply scanstring_budget in H
              | H : scan_number _ _ _ = Starved |- _ =>
                  apply scan_number_budget in H
              end);
      match goal with
      | H : JSONArray _ _ ?x = Starved |- _ => apply IHa in H; [done|]
      | H : JSONObject _ _ ?x = Starved |- _ => apply IHo in H; [done|]
      end;
      measure_ws; lia.
  - intros s Hf H. cbn [JSONArray] in H.
    split_scan H;
      repeat match goal with
             | H : scan_once _ _ _ = Parsed _ |- _ => apply Lv in H
             end;
      match goal with
      | H : scan_once _ _ ?x = Starved |- _ => apply IHv in H; [done|]
      | H : JSONArray _ _ ?x = Starved |- _ => apply IHa in H; [done|]
      end;
      measure_ws; simpl in *; lia.
  - intros s Hf H. cbn [JSONObject] in H.
    split_scan H;
      try (by match goal with
              | H : scanstring _ _ = Starved |- _ =>
                  apply scanstring_budget in H
              end);
      repeat match goal with
             | H : scan_once _ _ _ = Parsed _ |- _ => apply Lv in H
             | H : scanstring _ _ = Parsed _ |- _ =>
                 apply scanstring_length in H
             end;
      match goal with
      | H : scan_once _ _ ?x = Starved |- _ => apply IHv in H; [done|]
      | H : JSONObject _ _ ?x = Starved |- _ => apply IHo in H; [done|]
      end;
      measure_ws; simpl in *; lia.
Qed.

(** The budget of [decode] is enough for every text. *)
Lemma decode_budget (s : string) : decode survey s <> Starved.
Proof.
  unfold decode. intros H.
  apply parsed_bind_Starved in H as [H|([obj rest] & _ & H)].
  - apply scan_budget in H; [done|]. pose proof (skip_ws_length s). lia.
  - by destruct (skip_ws rest).
Qed.
End budget.

Lemma json_loads_budget (s : string) : json_loads s <> Starved.
Proof.
  unfold json_loads. pose proof (decode_budget false s).
  pose proof (decode_budget true s).
  destruct (decode false s); try done. by destruct (decode true s).
Qed.

(** ** [dict(pairs)] on distinct keys *)

Lemma dict_set_fresh {A : Type} (k : string) (v : A) (d : list (string * A)) :
  k ∉ map fst d -> dict_set k v d = d ++ [(k, v)].
Proof.
  induction d as [|[k' v'] d IH]; [done|]. cbn [map fst]. intros Hk.
  apply not_elem_of_cons in Hk as [Hne Hk]. cbn [dict_set].
  destruct (String.eqb_spec k' k); [congruence|]. by rewrite IH.
Qed.

Lemma dict_of_pairs_NoDup {A : Type} (d : list (string * A)) :
  NoDup (map fst d) -> dict_of_pairs d = d.
Proof.
  unfold dict_of_pairs.
  cut (forall acc, NoDup (map fst (acc ++ d)) ->
         fold_left (fun a kv => dict_set kv.1 kv.2 a) d acc = acc ++ d).
  { intros H Hd. by apply (H []). }
  induction d as [|[k v] d IH]; intros acc Hn; simpl.
  - by rewrite app_nil_r.
  - rewrite dict_set_fresh.
    + rewrite IH; rewrite <- app_assoc; done.
    + rewrite map_app in Hn. apply NoDup_app in Hn as (_ & Hn & _).
      intros Hin. apply (Hn k Hin). simpl. left.
Qed.

Lemma wf_val_list (l : list pyval) :
  wf_val (PyList l) = true <-> Forall (fun x => wf_val x = true) l.
Proof. simpl. rewrite forallb_forall, Forall_forall. by setoid_rewrite list_elem_of_In. Qed.

Lemma tuple_free_list (l : list pyval) :
  tuple_free (PyList l) = true <-> Forall (fun x => tuple_free x = true) l.
Proof. simpl. rewrite forallb_forall, Forall_forall. by setoid_rewrite list_elem_of_In. Qed.

Lemma wf_val_dict (d : pydict) :
  wf_val (PyDict d) = true
  <-> NoDup (map fst d) /\ Forall (fun kv => wf_val kv.2 = true) d.
Proof.
  simpl. rewrite andb_true_iff, bool_decide_eq_true.
  rewrite forallb_forall, Forall_forall. by setoid_rewrite list_elem_of_In.
Qed.

Lemma tuple_free_dict (d : pydict) :
  tuple_free (PyDict d) = true <-> Forall (fun kv => tuple_free kv.2 = true) d.
Proof. simpl. rewrite forallb_forall, Forall_forall. by setoid_rewrite list_elem_of_In. Qed.

Lemma scan_number_uint (negative : bool) (d : uint) (rest : string) :
  d <> Nil -> unorm d = d -> no_digit_ahead rest -> too_long d = false ->
  scan_number false negative (NilEmpty.string_of_uint d +:+ rest)
  = Parsed (PyInt (if negative then - Z.of_uint d else Z.of_uint d), rest).
Proof.
  intros Hnil Hnorm [Hd Hf] Hlen. unfold scan_number.
  rewrite scan_digits_string_of_uint by done.
  rewrite Hnorm, uint_beq_refl, Hf, Hlen. by destruct d.
Qed.

Lemma scan_once_dumps (v : pyval) :
  wf_val v = true -> tuple_free v = true -> reads_back v.
Proof.
  induction v as [ | b | z | t | t | t | l IH | l IH | d IH] using pyval_ind';
    intros Hwf Htf s fuel rest Hs Hfuel Hrest.
  - injection Hs as <-. destruct fuel; [simpl in Hfuel; lia|]. reflexivity.
  - destruct fuel; [simpl in Hfuel; lia|].
    destruct b; injection Hs as <-; reflexivity.
  - cbn [json_dumps] in Hs.
    destruct (int_too_long z) eqn:Hlen; [done|]. unfold int_too_long in Hlen.
    injection Hs as <-. destruct fuel as [|f]; [simpl in Hfuel; lia|].
    unfold int_repr, NilZero.string_of_int, NilZero.string_of_uint.
    pose proof (DecimalPos.Unsigned.to_uint_nonnil) as Hnil.
    destruct z as [|p|p]; cbn [Z.to_int] in Hlen |- *.
    + change "0" with (NilEmpty.string_of_uint (D0 Nil)).
      rewrite scan_once_digits by done. by rewrite scan_number_uint.
    + specialize (Hnil p).
      replace (match Pos.to_uint p with
               | Nil => "0"
               | _ => NilEmpty.string_of_uint (Pos.to_uint p)
               end) with (NilEmpty.string_of_uint (Pos.to_uint p))
        by (by destruct (Pos.to_uint p)).
      rewrite scan_once_digits by done. by apply scan_number_to_uint.
    + specialize (Hnil p).
      replace (match Pos.to_uint p with
               | Nil => "0"
               | _ => NilEmpty.string_of_uint (Pos.to_uint p)
               end) with (NilEmpty.string_of_uint (Pos.to_uint p))
        by (by destruct (Pos.to_uint p)).
      rewrite append_cons, scan_once_minus by done.
      by apply (scan_number_to_uint true).
  - injection Hs as <-. destruct fuel as [|f]; [simpl in Hfuel; lia|].
    unfold encode_basestring_ascii, str1.
    rewrite append_cons, append_assoc, append_cons, append_empty_l.
    by rewrite scan_once_string, scanstring_escape_body.
  - done.
  - done.
  - rewrite json_dumps_list in Hs.
    destruct (mapM (json_dumps false) l) as [chunks|] eqn:Hm; [|done].
    injection Hs as <-. destruct fuel as [|f]; [simpl in Hfuel; lia|].
    rewrite !append_cons, append_empty_l, append_assoc, append_cons, append_empty_l.
    rewrite scan_once_array.
    destruct l as [|x l].
    + injection Hm as <-. reflexivity.
    + destruct (concat_chunks_head _ _ Hm) as (h & r & Hk & Hh); [done|].
      rewrite Hk, append_cons, value_start_skip_ws by done.
      rewrite (value_start_not_close "]") by auto.
      rewrite <- append_cons, <- Hk.
      rewrite (JSONArray_dumps (x :: l)); [done| |done|done|simpl in Hfuel |- *; lia].
      apply wf_val_list in Hwf. apply tuple_free_list in Htf.
      rewrite Forall_forall in IH, Hwf, Htf |- *. eauto.
  - done.
  - rewrite json_dumps_dict in Hs.
    destruct (mapM (dumps_item false) d) as [items|] eqn:Hm; [|done].
    injection Hs as <-. destruct fuel as [|f]; [simpl in Hfuel; lia|].
    rewrite !append_cons, append_empty_l, append_assoc, append_cons, append_empty_l.
    rewrite scan_once_object.
    apply wf_val_dict in Hwf as [Hnd Hwf]. apply tuple_free_dict in Htf.
    destruct d as [|kv d].
    + injection Hm as <-. reflexivity.
    + destruct (mapM_cons_Some _ _ _ _ Hm) as (i & cs' & _ & _ & ->).
      destruct (concat_items_head (i :: cs')) as (r' & Hk); [done|].
      rewrite Hk, append_cons.
      change (skip_ws (String c_quote ?s)) with (String c_quote s).
      change (strip_prefix "}" (String c_quote ?s)) with (@None string).
      rewrite <- append_cons, <- Hk.
      rewrite (JSONObject_dumps (kv :: d)); [|  |done|done|simpl in Hfuel |- *; lia].
      * cbn [mbind parsed_bind]. by rewrite dict_of_pairs_NoDup.
      * rewrite Forall_forall in IH, Hwf, Htf |- *. eauto.
Qed.

Lemma weight_seq_le (l : list pyval) (chunks : list string) :
  Forall (fun x => forall s, json_dumps false x = Some s ->
                             (weight x <= String.length s)%nat) l ->
  mapM (json_dumps false) l = Some chunks ->
  (list_sum (map (fun x => S (weight x)) l)
   <= String.length (String.concat ", " chunks) + 1)%nat.
Proof.
  intros Hl. revert chunks.
  induction Hl as [|x l Hx Hl IH]; intros chunks Hm.
  - injection Hm as <-. simpl. lia.
  - apply mapM_cons_Some in Hm as (c & cs & Hc & Hcs & ->).
    specialize (Hx _ Hc). specialize (IH _ Hcs).
    destruct cs as [|c' cs].
    + destruct l; [|by apply mapM_cons_Some in Hcs as (? & ? & _ & _ & ?)].
      simpl. lia.
    + rewrite concat_cons2, !length_append. cbn [map].
      change (list_sum (?a :: ?t)) with (a + list_sum t)%nat.
      change (String.length ", ") with 2%nat. lia.
Qed.

Lemma weight_items_le (d : pydict) (items : list (string * string)) :
  Forall (fun kv => forall s, json_dumps false kv.2 = Some s ->
                              (weight kv.2 <= String.length s)%nat) d ->
  mapM (dumps_item false) d = Some items ->
  (list_sum (map (fun kv => S (weight kv.2)) d)
   <= String.length (String.concat ", " (map render_item items)) + 1)%nat.
Proof.
  intros Hd. revert items.
  induction Hd as [|[k v] d Hv Hd IH]; intros items Hm.
  - injection Hm as <-. simpl. lia.
  - apply mapM_cons_Some in Hm as ([k' c] & cs & Hc & Hcs & ->).
    unfold dumps_item in Hc. cbn [fst snd] in Hc, Hv.
    destruct (json_dumps false v) as [c0|] eqn:Hdv; [|done].
    injection Hc as <- <-.
    specialize (Hv _ eq_refl). specialize (IH _ Hcs).
    assert (String.length c0 <= String.length (render_item (k, c0)))%nat.
    { unfold render_item. rewrite !length_append. cbn [snd]. lia. }
    destruct cs as [|c' cs].
    + destruct d; [|by apply mapM_cons_Some in Hcs as (? & ? & _ & _ & ?)].
      cbn [map String.concat fst snd] in *.
      change (list_sum (?a :: ?t)) with (a + list_sum t)%nat.
      change (list_sum []) with 0%nat. lia.
    + cbn [map]. rewrite concat_cons2, !length_append.
      cbn [map fst snd] in *.
      change (list_sum (?a :: ?t)) with (a + list_sum t)%nat.
      change (String.length ", ") with 2%nat. lia.
Qed.

Lemma weight_le_length (v : pyval) (s : string) :
  json_dumps false v = Some s -> (weight v <= String.length s)%nat.
Proof.
  revert s.
  induction v as [ | b | z | t | t | t | l IH | l IH | d IH] using pyval_ind';
    intros s Hs;
    try (destruct (json_dumps_head _ _ _ Hs) as (c & r & -> & _); simpl; lia).
  - rewrite json_dumps_list in Hs.
    destruct (mapM (json_dumps false) l) as [chunks|] eqn:Hm; [|done].
    injection Hs as <-. pose proof (weight_seq_le _ _ IH Hm).
    rewrite !length_append. cbn [weight String.length]. lia.
  - rewrite json_dumps_tuple, json_dumps_list in Hs.
    destruct (mapM (json_dumps false) l) as [chunks|] eqn:Hm; [|done].
    injection Hs as <-. pose proof (weight_seq_le _ _ IH Hm).
    rewrite !length_append. cbn [weight String.length]. lia.
  - rewrite json_dumps_dict in Hs.
    destruct (mapM (dumps_item false) d) as [items|] eqn:Hm; [|done].
    injection Hs as <-. pose proof (weight_items_le _ _ IH Hm).
    rewrite !length_append. cbn [weight String.length]. lia.
Qed.

(** [json.loads(json.dumps(v))] is [v] for a tuple-free value. *)
Lemma json_loads_dumps (v : pyval) (s : string) :
  wf_val v = true -> tuple_free v = true ->
  json_dumps false v = Some s -> json_loads s = Parsed v.
Proof.
  intros Hwf Htf Hs.
  assert (decode false s = Parsed v) as Hd.
  { unfold decode.
    destruct (json_dumps_head _ _ _ Hs) as (c & r & Hcr & Hc).
    rewrite Hcr at 2. rewrite value_start_skip_ws by done. rewrite <- Hcr.
    rewrite <- (append_empty_r s) at 2.
    rewrite (scan_once_dumps v Hwf Htf s _ EmptyString Hs); [done| |done].
    pose proof (weight_le_length _ _ Hs). lia. }
  unfold json_loads. by rewrite Hd.
Qed.

(** ** Running the script monad *)

Lemma set_heap_id (w : world) : set_heap (heap w) w = w.
Proof. by destruct w. Qed.

Lemma bind_run {A B : Type} (m : M A) (k : A -> M B) (w : world) :
  (m ≫= k) w
  = match m w with
    | (w', Ret a) => k a w'
    | (w', Raise e) => (w', Raise e)
    end.
Proof. reflexivity. Qed.

Lemma deref_run (df : ref) (w : world) (d : DataFrame) :
  heap w !! df = Some d -> deref df w = (w, Ret d).
Proof. intros H. unfold deref. rewrite bind_run. simpl. by rewrite H. Qed.

Ltac run_unfold :=
  unfold index_at, pop, dumps_sorted, edit_info, processed_edits,
    record_edited, record_added, record_deleted, getitem, setitem, copy;
  unfold deref, alloc, lift, raise, try_except;
  unfold get_world, modify_world;
  unfold mbind, mret, M_bind, M_ret.

Lemma column_apply_run (f : pyval -> outcome pyval) (df : ref) (c : string)
    (w : world) (d : DataFrame) :
  heap w !! df = Some d ->
  (series ← getitem df c;
   series ← lift (series_apply f series);
   setitem df c series) w
  = match column_apply f c d with
    | Ret d' => (set_heap (<[df := d']> (heap w)) w, Ret tt)
    | Raise e => (w, Raise e)
    end.
Proof.
  intros H. unfold column_apply. run_unfold. rewrite H.
  destruct (dict_get c (columns d)) as [series|]; [|done].
  change (series_apply f series ≫= ?k)
    with (match series_apply f series with Ret a => k a | Raise e => Raise e end).
  destruct (series_apply f series) as [series'|e]; [|done].
  by rewrite H.
Qed.

Lemma heap_insert_insert (w : world) (df : ref) (d d' : DataFrame) :
  set_heap (<[df := d']> (heap (set_heap (<[df := d]> (heap w)) w)))
    (set_heap (<[df := d]> (heap w)) w)
  = set_heap (<[df := d']> (heap w)) w.
Proof. unfold set_heap. simpl. by rewrite list_insert_insert_eq. Qed.

Lemma heap_insert_id (w : world) (df : ref) (d : DataFrame) :
  heap w !! df = Some d -> set_heap (<[df := d]> (heap w)) w = w.
Proof. intros H. rewrite list_insert_id by done. apply set_heap_id. Qed.

Lemma heap_insert_lookup (w : world) (df : ref) (d d' : DataFrame) :
  heap w !! df = Some d ->
  heap (set_heap (<[df := d']> (heap w)) w) !! df = Some d'.
Proof.
  intros H. simpl. apply list_lookup_insert_eq. by eapply lookup_lt_Some.
Qed.

Lemma serialize_run (json_cols : list string) (df : ref) (w : world)
    (d : DataFrame) :
  heap w !! df = Some d ->
  _serialize_json_cols df json_cols w
  = (set_heap (<[df := (columns_apply dumps (fun _ e => e) json_cols d).1]>
                 (heap w)) w,
     match (columns_apply dumps (fun _ e => e) json_cols d).2 with
     | None => Ret df
     | Some e => Raise e
     end).
Proof.
  revert w d. induction json_cols as [|c cols IH]; intros w d H.
  - simpl. by rewrite heap_insert_id.
  - cbn [_serialize_json_cols columns_apply]. unfold column_apply.
    run_unfold. rewrite H.
    destruct (dict_get c (columns d)) as [series|];
      [|by rewrite heap_insert_id].
    change (series_apply dumps series ≫= ?k)
      with (match series_apply dumps series with
            | Ret a => k a | Raise e => Raise e end).
    destruct (series_apply dumps series) as [series'|e];
      [|by rewrite heap_insert_id].
    rewrite H.
    erewrite IH by (by eapply heap_insert_lookup).
    by rewrite heap_insert_insert.
Qed.

Lemma deserialize_df_run (json_cols : list string) (df : ref) (w : world)
    (d : DataFrame) :
  heap w !! df = Some d ->
  _deserialize_json_cols df json_cols w
  = (set_heap (<[df := (columns_apply deserializer rethrow json_cols d).1]>
                 (heap w)) w,
     match (columns_apply deserializer rethrow json_cols d).2 with
     | None => Ret df
     | Some e => Raise e
     end).
Proof.
  revert w d. induction json_cols as [|c cols IH]; intros w d H.
  - simpl. by rewrite heap_insert_id.
  - cbn [_deserialize_json_cols columns_apply]. unfold column_apply.
    unfold deserialize_col, DataFrame_data.
    run_unfold. rewrite H.
    destruct (dict_get c (columns d)) as [series|];
      [|by rewrite heap_insert_id].
    change (series_apply deserializer series ≫= ?k)
      with (match series_apply deserializer series with
            | Ret a => k a | Raise e => Raise e end).
    destruct (series_apply deserializer series) as [series'|e].
    + rewrite H. erewrite IH by (by eapply heap_insert_lookup).
      by rewrite heap_insert_insert.
    + rewrite heap_insert_id by done. by destruct e.
Qed.

Lemma deserialize_mapping_run (json_cols : list string) (data : pydict)
    (w : world) :
  _deserialize_json_cols data json_cols w
  = (w, deserialize_mapping data json_cols).
Proof.
  revert data. induction json_cols as [|c cols IH]; intros data; [done|].
  cbn [_deserialize_json_cols deserialize_mapping].
  unfold deserialize_col, MutableMapping_data. run_unfold.
  destruct (dict_get c data) as [s|]; [|apply IH].
  destruct (deserializer s) as [v|e]; [apply IH|by destruct e].
Qed.

(** ** Dictionaries *)

Section dict.
Context {A : Type}.
  Implicit Types (d : list (string * A)) (k : string) (v : A).

Lemma dict_get_set k k' v d :
  dict_get k' (dict_set k v d)
  = if String.eqb k k' then Some v else dict_get k' d.
Proof.
  induction d as [|[k0 v0] d IH]; simpl.
  - by destruct (String.eqb k k').
  - destruct (String.eqb_spec k0 k) as [->|Hne]; simpl.
    + by destruct (String.eqb k k').
    + rewrite IH. destruct (String.eqb_spec k k') as [<-|]; [|done].
      by destruct (String.eqb_spec k0 k).
Qed.

Lemma dict_get_set_eq k v d : dict_get k (dict_set k v d) = Some v.
Proof. by rewrite dict_get_set, String.eqb_refl. Qed.

Lemma dict_get_set_ne k k' v d :
  k <> k' -> dict_get k' (dict_set k v d) = dict_get k' d.
Proof.
  intros H. rewrite dict_get_set. by destruct (String.eqb_spec k k').
Qed.

Lemma dict_set_set k v v' d :
  dict_set k v' (dict_set k v d) = dict_set k v' d.
Proof.
  induction d as [|[k0 v0] d IH]; simpl.
  - by rewrite String.eqb_refl.
  - destruct (String.eqb_spec k0 k) as [->|Hne]; simpl.
    + by rewrite String.eqb_refl.
    + destruct (String.eqb_spec k0 k); [done|]. by rewrite IH.
Qed.

Lemma dict_set_id k v d : dict_get k d = Some v -> dict_set k v d = d.
Proof.
  induction d as [|[k0 v0] d IH]; simpl; [done|].
  destruct (String.eqb_spec k0 k) as [->|Hne]; [by intros [= ->]|].
  intros H. by rewrite IH.
Qed.

Lemma dict_set_comm k k' v v' d :
  k <> k' -> is_Some (dict_get k d) -> is_Some (dict_get k' d) ->
  dict_set k v (dict_set k' v' d) = dict_set k' v' (dict_set k v d).
Proof.
  intros Hne. induction d as [|[k0 v0] d IH]; simpl.
  - by intros [? ?].
  - destruct (String.eqb k0 k) eqn:Ek; destruct (String.eqb k0 k') eqn:Ek';
      simpl; rewrite ?Ek, ?Ek'; try done.
    + apply String.eqb_eq in Ek, Ek'. congruence.
    + intros H1 H2. by rewrite IH.
Qed.

Lemma dict_get_pop_ne k k' d :
  k <> k' -> dict_get k' (dict_pop k d) = dict_get k' d.
Proof.
  intros Hne. induction d as [|[k0 v0] d IH]; simpl; [done|].
  destruct (String.eqb_spec k0 k) as [->|Hk]; simpl.
  - by destruct (String.eqb_spec k k').
  - by rewrite IH.
Qed.
End dict.

(** ** The loop over the columns *)

Lemma series_apply_Ret (f : pyval -> outcome pyval) (s s' : list pyval) :
  series_apply f s = Ret s' <-> Forall2 (fun v x => f v = Ret x) s s'.
Proof.
  revert s'. induction s as [|v s IH]; intros s'; simpl.
  - split; [intros [= <-]; constructor|by inversion 1].
  - destruct (f v) as [x|e] eqn:Hv; simpl.
    + destruct (series_apply f s) as [xs|e] eqn:Hs; simpl.
      * split.
        -- intros [= <-]. constructor; [done|]. by apply IH.
        -- inversion 1 as [|? ? ? ? Hx Hxs]; subst.
           apply IH in Hxs. congruence.
      * split; [done|]. inversion 1 as [|? ? ? ? Hx Hxs]; subst.
        by apply IH in Hxs.
    + split; [done|]. inversion 1; congruence.
Qed.

Lemma series_apply_Raise (f : pyval -> outcome pyval) (s : list pyval) (e : exn) :
  series_apply f s = Raise e -> exists v, v ∈ s /\ f v = Raise e.
Proof.
  induction s as [|v s IH]; simpl; [done|].
  destruct (f v) as [x|e'] eqn:Hv; simpl.
  - destruct (series_apply f s) as [xs|e'] eqn:Hs; simpl; [done|].
    intros [= ->]. destruct IH as (v' & ? & ?); [done|].
    exists v'. split; [by right|done].
  - intros [= ->]. exists v. split; [by left|done].
Qed.

Lemma series_apply_total (f : pyval -> outcome pyval) (s : list pyval) :
  Forall (fun v => exists x, f v = Ret x) s ->
  series_apply f s = Ret (map (total f) s).
Proof.
  intros H. apply series_apply_Ret. induction H as [|v s [x Hx] _ IH]; simpl.
  - constructor.
  - constructor; [|done]. unfold total. by rewrite Hx.
Qed.

Lemma columns_apply_spec (f : pyval -> outcome pyval)
    (handle : string -> exn -> exn) (cols : list string)
    (d d' : DataFrame) (o : option exn) :
  NoDup cols -> columns_apply f handle cols d = (d', o) ->
  index d' = index d /\
  (forall c, c ∉ cols -> dict_get c (columns d') = dict_get c (columns d)) /\
  match o with
  | None =>
      forall c, c ∈ cols ->
        exists s s', dict_get c (columns d) = Some s /\
                     series_apply f s = Ret s' /\
                     dict_get c (columns d') = Some s'
  | Some e =>
      exists c e0, c ∈ cols /\ e = handle c e0 /\
        match dict_get c (columns d) with
        | None => e0 = KeyError c
        | Some s => series_apply f s = Raise e0
        end
  end.
Proof.
  intros Hnd. revert d. induction Hnd as [|c cs Hc Hcs IH]; intros d Hrun.
  - injection Hrun as <- <-. split; [done|]. split; [done|].
    intros c Hc. by apply elem_of_nil in Hc.
  - cbn [columns_apply] in Hrun. unfold column_apply in Hrun.
    destruct (dict_get c (columns d)) as [s|] eqn:Hget.
    2:{ injection Hrun as <- <-. split; [done|]. split; [done|].
        exists c, (KeyError c). rewrite Hget. split; [by left|done]. }
    change (series_apply f s ≫= ?k)
      with (match series_apply f s with
            | Ret a => k a | Raise e => Raise e end) in Hrun.
    destruct (series_apply f s) as [s'|e0] eqn:Hs.
    2:{ injection Hrun as <- <-. split; [done|]. split; [done|].
        exists c, e0. rewrite Hget. split; [by left|done]. }
    destruct (IH _ Hrun) as (Hidx & Hother & Ho). clear IH. simpl in *.
    split; [done|]. split.
    { intros c0 Hc0. apply not_elem_of_cons in Hc0 as [Hne Hc0].
      rewrite Hother by done. by apply dict_get_set_ne. }
    destruct o as [e|].
    + destruct Ho as (c0 & e0 & Hin & -> & Hc0). exists c0, e0.
      split; [by right|]. split; [done|].
      rewrite dict_get_set_ne in Hc0; [done|]. by intros ->.
    + intros c0 Hc0. apply elem_of_cons in Hc0 as [->|Hc0].
      * exists s, s'. split; [done|]. split; [done|].
        rewrite Hother by done. apply dict_get_set_eq.
      * destruct (Ho _ Hc0) as (s0 & s0' & H1 & H2 & H3).
        exists s0, s0'. split; [|done].
        rewrite dict_get_set_ne in H1; [done|]. by intros ->.
Qed.

Section column_map.
  Implicit Types (f g : pyval -> outcome pyval) (c : string)
    (X : list (string * list pyval)).

Lemma dict_get_column_map f c c' X :
  dict_get c' (column_map f c X)
  = if String.eqb c c' then map (total f) <$> dict_get c X
    else dict_get c' X.
Proof.
  unfold column_map. destruct (dict_get c X) as [s|] eqn:Hs.
  - rewrite dict_get_set. by destruct (String.eqb c c').
  - destruct (String.eqb_spec c c') as [<-|]; [|done]. by rewrite Hs.
Qed.

Lemma column_map_comm f g c c' X :
  c <> c' ->
  column_map f c (column_map g c' X) = column_map g c' (column_map f c X).
Proof.
  intros Hne. unfold column_map at 1 3.
  rewrite !dict_get_column_map.
  destruct (String.eqb_spec c' c) as [?|_]; [congruence|].
  destruct (String.eqb_spec c c') as [?|_]; [congruence|].
  unfold column_map.
  destruct (dict_get c X) as [s|] eqn:Hs;
    destruct (dict_get c' X) as [s'|] eqn:Hs'; try done.
  by apply dict_set_comm.
Qed.

Lemma column_map_undo f g c X :
  (forall s, dict_get c X = Some s ->
             map (total g) (map (total f) s) = s) ->
  column_map g c (column_map f c X) = X.
Proof.
  intros H. unfold column_map at 1. rewrite dict_get_column_map.
  rewrite String.eqb_refl. unfold column_map.
  destruct (dict_get c X) as [s|] eqn:Hs; [|done]. simpl.
  rewrite dict_set_set, H by done. by apply dict_set_id.
Qed.

Lemma columns_map_comm f g c cols X :
  c ∉ cols ->
  column_map f c (columns_map g cols X) = columns_map g cols (column_map f c X).
Proof.
  revert X. induction cols as [|c' cols IH]; intros X Hc; [done|].
  apply not_elem_of_cons in Hc as [Hne Hc]. unfold columns_map in *.
  cbn [fold_left]. rewrite IH by done. by rewrite column_map_comm.
Qed.

Lemma dict_get_columns_map f c cols X :
  NoDup cols ->
  dict_get c (columns_map f cols X)
  = if bool_decide (c ∈ cols) then map (total f) <$> dict_get c X
    else dict_get c X.
Proof.
  intros Hnd. revert X. induction Hnd as [|c' cols Hc' Hnd IH]; intros X.
  - done.
  - unfold columns_map in *. cbn [fold_left]. rewrite IH.
    rewrite dict_get_column_map.
    destruct (String.eqb_spec c' c) as [->|Hne].
    + rewrite (bool_decide_eq_false_2 (c ∈ cols)) by done.
      by rewrite bool_decide_eq_true_2 by left.
    + case_bool_decide as Hin; case_bool_decide as Hin'; try done.
      * exfalso. apply Hin'. by right.
      * apply elem_of_cons in Hin' as [?|?]; [congruence|done].
Qed.

Lemma columns_map_undo f g cols X :
  NoDup cols ->
  (forall c s, c ∈ cols -> dict_get c X = Some s ->
               map (total g) (map (total f) s) = s) ->
  columns_map g cols (columns_map f cols X) = X.
Proof.
  intros Hnd. revert X. induction Hnd as [|c cols Hc Hnd IH]; intros X H.
  - done.
  - change (columns_map f (c :: cols) X)
      with (columns_map f cols (column_map f c X)).
    change (columns_map g (c :: cols) ?Y)
      with (columns_map g cols (column_map g c Y)).
    rewrite columns_map_comm by done.
    rewrite column_map_undo.
    + apply IH. intros c' s Hc' Hs. apply (H c'); [by right|done].
    + intros s Hs. apply (H c); [by left|done].
Qed.

Lemma columns_apply_ok f handle cols (d : DataFrame) :
  NoDup cols ->
  (forall c, c ∈ cols ->
     exists s, dict_get c (columns d) = Some s /\
               Forall (fun v => exists x, f v = Ret x) s) ->
  columns_apply f handle cols d
  = ({| index := index d; columns := columns_map f cols (columns d) |}, None).
Proof.
  intros Hnd. revert d. induction Hnd as [|c cols Hc Hnd IH]; intros d H.
  - by destruct d.
  - cbn [columns_apply]. unfold column_apply.
    destruct (H c) as (s & Hs & Hok); [by left|]. rewrite Hs.
    rewrite (series_apply_total _ _ Hok). cbn [mbind outcome_bind].
    rewrite IH; cbn [index columns].
    + unfold columns_map, column_map. cbn [fold_left]. by rewrite Hs.
    + intros c' Hc'. destruct (H c') as (s' & Hs' & Hok'); [by right|].
      exists s'. split; [|done].
      rewrite dict_get_set_ne; [done|]. by intros ->.
Qed.
End column_map.

(** ** Detection of the JSON columns *)

Lemma iterrows_head (d : DataFrame) :
  iterrows d = match index d with
               | [] => []
               | label :: labels =>
                   (label, row_at d 0) :: imap (fun i l => (l, row_at d (S i))) labels
               end.
Proof. unfold iterrows. by destruct (index d). Qed.

Lemma detect_run (df : ref) (w : world) (d : DataFrame) :
  heap w !! df = Some d ->
  _get_json_serializable_cols df w
  = (w, match index d with
        | [] => Raise StopIteration
        | _ :: _ =>
            Ret (map fst (filter (fun lv => is_json_value lv.2 = true)
                            (row_at d 0)))
        end).
Proof.
  intros H. unfold _get_json_serializable_cols. run_unfold. rewrite H.
  rewrite iterrows_head. by destruct (index d).
Qed.

(** C9. On a table with at least one row, detection returns, and a column
    is detected exactly when the first row's value for it is a mapping or a
    sequence and is not a [str], [bytes] or [bytearray]; the result is the
    same for any other table with the same first row. *)
Theorem detect_inspects_first_row (w : world) (df : ref) (d : DataFrame) :
  heap w !! df = Some d -> index d <> [] ->
  exists cols,
    _get_json_serializable_cols df w = (w, Ret cols) /\
    (forall c, c ∈ cols <->
       exists value, (c, value) ∈ row_at d 0 /\
         (is_Mapping value || is_Sequence value) = true /\
         is_str_bytes_bytearray value = false) /\
    (forall w' d', heap w' !! df = Some d' -> index d' <> [] ->
       row_at d' 0 = row_at d 0 ->
       _get_json_serializable_cols df w' = (w', Ret cols)).
Proof.
  intros H Hne. eexists. split; [|split].
  - rewrite (detect_run _ _ _ H). by destruct (index d).
  - intros c. rewrite list_elem_of_fmap. split.
    + intros ([c' v] & -> & Hin). apply list_elem_of_filter in Hin as [Hj Hin].
      exists v. split; [done|]. unfold is_json_value in Hj. simpl in Hj.
      apply andb_true_iff in Hj as [? ?]. split; [done|].
      by apply negb_true_iff.
    + intros (v & Hin & Hm & Hs). exists (c, v). split; [done|].
      apply list_elem_of_filter. split; [|done].
      unfold is_json_value. simpl. by rewrite Hm, Hs.
  - intros w' d' H' Hne' Hrow. rewrite (detect_run _ _ _ H'), Hrow.
    by destruct (index d').
Qed.

Lemma detect_inspects_first_row_witness :
  exists cols,
    _get_json_serializable_cols 0 (world_of table_a) = (world_of table_a, Ret cols) /\
    "tags" ∈ cols /\ "name" ∉ cols.
Proof.
  destruct (detect_inspects_first_row (world_of table_a) 0 table_a)
    as (cols & Hrun & Hiff & _); [reflexivity|discriminate|].
  exists cols. split; [exact Hrun|]. split.
  - apply Hiff. exists (PyList [PyStr "x"; PyStr "y"]).
    split; [|split; reflexivity]. simpl. left.
  - intros Hin. apply Hiff in Hin as (v & Hv & _ & Hs).
    simpl in Hv. apply elem_of_cons in Hv as [Hv|Hv]; [discriminate|].
    apply elem_of_cons in Hv as [Hv|Hv]; [|by apply elem_of_nil in Hv].
    injection Hv as ->. discriminate.
Defined.

(** ** Serialization works on the frame it is given *)

Lemma copy_run (df : ref) (w : world) (d : DataFrame) :
  heap w !! df = Some d ->
  copy df w = (set_heap (heap w ++ [d]) w, Ret (length (heap w))).
Proof. intros H. unfold copy. run_unfold. by rewrite H. Qed.

Lemma total_dumps (v : pyval) (text : string) :
  json_dumps false v = Some text -> total dumps v = PyStr text.
Proof. intros H. unfold total, dumps. by rewrite H. Qed.

Lemma encodable_dumps (v : pyval) :
  json_encodable v = true -> exists x, dumps v = Ret x.
Proof.
  unfold json_encodable, dumps. destruct (json_dumps false v); [eauto|done].
Qed.

Lemma serialize_copy_run (json_cols : list string) (df : ref) (w : world)
    (d : DataFrame) :
  heap w !! df = Some d ->
  (c ← copy df; _serialize_json_cols c json_cols) w
  = (set_heap
       (heap w ++ [(columns_apply dumps (fun _ e => e) json_cols d).1]) w,
     match (columns_apply dumps (fun _ e => e) json_cols d).2 with
     | None => Ret (length (heap w))
     | Some e => Raise e
     end).
Proof.
  intros H.
  change ((c ← copy df; _serialize_json_cols c json_cols) w)
    with (match copy df w with
          | (w', Ret c) => _serialize_json_cols c json_cols w'
          | (w', Raise e) => (w', Raise e)
          end).
  rewrite (copy_run _ _ _ H).
  rewrite (serialize_run _ _ _ d).
  - f_equal. unfold set_heap. simpl. f_equal.
    rewrite insert_app_r_alt by done. by rewrite Nat.sub_diag.
  - simpl. rewrite lookup_app_r by done. by rewrite Nat.sub_diag.
Qed.

(** C6. [_serialize_json_cols] updates the frame it is given and returns
    that same frame; [edit] gives it a copy, so after the serialize step the
    table of the session is what it was, whether or not the step raises.
    When the JSON columns are distinct columns of the table with encodable
    values, the copy holds, in every row, the text encoding of each value of
    a JSON column, and the other columns as they were. *)
Theorem serialize_keeps_snapshot (w : world) (self : DynamoDBTableEditor)
    (d : DataFrame) (json_cols : list string) :
  heap w !! df self = Some d ->
  let step := (c ← copy (df self); _serialize_json_cols c json_cols) in
  (forall r, (_serialize_json_cols (df self) json_cols w).2 = Ret r ->
             r = df self) /\
  heap (step w).1 !! df self = Some d /\
  session (step w).1 = session w /\
  trace (step w).1 = trace w /\
  (NoDup json_cols ->
   (forall c, c ∈ json_cols ->
      exists s, dict_get c (columns d) = Some s /\
                Forall (fun v => json_encodable v = true) s) ->
   exists d',
     step w = (set_heap (heap w ++ [d']) w, Ret (length (heap w))) /\
     _serialize_json_cols (df self) json_cols w
     = (set_heap (<[df self := d']> (heap w)) w, Ret (df self)) /\
     index d' = index d /\
     forall c s, dict_get c (columns d) = Some s ->
       if bool_decide (c ∈ json_cols) then
         exists s', dict_get c (columns d') = Some s' /\
           Forall2 (fun v x => exists text,
                      json_dumps false v = Some text /\ x = PyStr text) s s'
       else dict_get c (columns d') = Some s).
Proof.
  intros H step. subst step. rewrite (serialize_copy_run _ _ _ _ H).
  rewrite (serialize_run _ _ _ _ H). cbn [fst snd].
  split; [|split; [|split; [|split]]].
  - intros r. by destruct (columns_apply _ _ _ _).2; intros [= <-].
  - simpl. rewrite lookup_app_l; [done|]. by eapply lookup_lt_Some.
  - done.
  - done.
  - intros Hnd Henc.
    assert (forall c, c ∈ json_cols ->
              exists s, dict_get c (columns d) = Some s /\
                        Forall (fun v => exists x, dumps v = Ret x) s) as Hok.
    { intros c Hc. destruct (Henc c Hc) as (s & Hs & Hall). exists s.
      split; [done|]. eapply Forall_impl; [done|]. apply encodable_dumps. }
    rewrite (columns_apply_ok _ _ _ _ Hnd Hok). cbn [fst snd].
    eexists. split; [done|]. split; [done|]. split; [done|].
    intros c s Hs. cbn [columns]. rewrite dict_get_columns_map by done.
    rewrite Hs. case_bool_decide as Hc; [|done]. simpl.
    eexists. split; [done|]. destruct (Henc c Hc) as (s0 & Hs0 & Hall).
    assert (s0 = s) as -> by congruence.
    clear -Hall. induction Hall as [|v s Hv _ IH]; simpl; constructor; [|done].
    unfold json_encodable in Hv.
    destruct (json_dumps false v) as [text|] eqn:Ht; [|done].
    exists text. split; [done|]. by apply total_dumps.
Qed.

Lemma serialize_keeps_snapshot_witness :
  heap ((c ← copy 0%nat; _serialize_json_cols c ["tags"]) (world_of table_a)).1
    !! 0%nat = Some table_a.
Proof.
  apply (serialize_keeps_snapshot (world_of table_a) editor0 table_a ["tags"]).
  reflexivity.
Defined.

(** ** The round trip through the codec *)

Lemma deserializer_dumps (v : pyval) :
  wf_val v = true -> tuple_free v = true -> json_encodable v = true ->
  deserializer (total dumps v) = Ret v.
Proof.
  intros Hwf Htf Henc. unfold json_encodable in Henc.
  destruct (json_dumps false v) as [text|] eqn:Ht; [|done].
  rewrite (total_dumps _ _ Ht). simpl.
  by rewrite (json_loads_dumps _ _ Hwf Htf Ht).
Qed.

(** ** Deserialization *)

Lemma deserializer_raises (s : pyval) (e : exn) :
  deserializer s = Raise e ->
  match e with
  | JSONDecodeError => exists t, s = PyStr t /\ json_loads t = Malformed
  | TypeError | ValueError | OutsideModel => True
  | _ => False
  end.
Proof.
  destruct s; simpl; try (intros [= <-]; done).
  destruct (json_loads s) eqn:Hs; intros [= <-]; eauto.
Qed.

Lemma rethrow_JSONError (c : string) (e0 : exn) (s : pyval) (msg : string) :
  deserializer s = Raise e0 -> rethrow c e0 = JSONError msg ->
  msg = invalid_json c /\ exists t, s = PyStr t /\ json_loads t = Malformed.
Proof.
  intros Hs%deserializer_raises He. destruct e0; try done.
  by injection He as <-.
Qed.


(** ** Equality of values *)

Lemma pyval_beq_eq (a b : pyval) : pyval_beq a b = true <-> a = b.
Proof.
  revert b.
  induction a as [ | x | x | s | s | s | l IH | l IH | d IH] using pyval_ind';
    intros [ | y | y | t | t | t | m | m | e]; simpl; try (split; congruence).
  - rewrite Bool.eqb_true_iff. split; congruence.
  - rewrite Z.eqb_eq. split; congruence.
  - rewrite String.eqb_eq. split; congruence.
  - rewrite String.eqb_eq. split; congruence.
  - rewrite String.eqb_eq. split; congruence.
  - revert m. induction IH as [|x l Hx _ IHl]; intros [|y m];
      try (split; congruence).
    rewrite andb_true_iff, Hx, IHl. split; [intros [-> [= ->]]|intros [= -> ->]]; done.
  - revert m. induction IH as [|x l Hx _ IHl]; intros [|y m];
      try (split; congruence).
    rewrite andb_true_iff, Hx, IHl. split; [intros [-> [= ->]]|intros [= -> ->]]; done.
  - revert e. induction IH as [|[k x] d Hx _ IHd]; intros [|[k' y] e];
      try (split; congruence).
    cbn [snd] in Hx. rewrite !andb_true_iff, String.eqb_eq, Hx, IHd.
    split; [intros [[-> ->] [= ->]]|intros [= -> -> ->]]; done.
Qed.

(** Python's [==] holds between a value and itself. *)
Lemma py_eq_refl (v : pyval) : wf_val v = true -> py_eq v v = true.
Proof.
  induction v as [ | x | x | s | s | s | l IH | l IH | d IH] using pyval_ind';
    intros Hwf; simpl.
  - done.
  - by destruct x.
  - apply Z.eqb_refl.
  - apply String.eqb_refl.
  - apply String.eqb_refl.
  - apply String.eqb_refl.
  - apply wf_val_list in Hwf. induction IH as [|x l Hx _ IHl]; [done|].
    apply Forall_cons in Hwf as [Hwx Hwl]. by rewrite Hx, IHl.
  - apply (wf_val_list l) in Hwf. induction IH as [|x l Hx _ IHl]; [done|].
    apply Forall_cons in Hwf as [Hwx Hwl]. by rewrite Hx, IHl.
  - apply wf_val_dict in Hwf as [Hnd Hwf]. rewrite Nat.eqb_refl. simpl.
    assert (forall kv, kv ∈ d -> dict_get kv.1 d = Some kv.2) as Hget.
    { clear -Hnd. induction d as [|[k v] d IHd]; intros kv Hin.
      - by apply elem_of_nil in Hin.
      - cbn [map fst] in Hnd. apply NoDup_cons in Hnd as [Hk Hnd].
        simpl. apply elem_of_cons in Hin as [->|Hin].
        + simpl. by rewrite String.eqb_refl.
        + destruct (String.eqb_spec k kv.1) as [->|]; [|by apply IHd].
          exfalso. apply Hk. apply list_elem_of_fmap. by exists kv. }
    assert (forall kv, kv ∈ d -> py_eq kv.2 kv.2 = true) as Heq.
    { intros kv Hin. rewrite Forall_forall in IH, Hwf. by apply IH, Hwf. }
    cut (forall d0, (forall kv, kv ∈ d0 -> kv ∈ d) ->
      (fix items_eq (d1 : pydict) : bool :=
         match d1 with
         | [] => true
         | (k, v) :: d' =>
             match dict_get k d with
             | Some w => py_eq v w
             | None => false
             end && items_eq d'
         end) d0 = true).
    { intros Hcut. by apply Hcut. }
    induction d0 as [|[k v] d0 IHd0]; intros Hsub; [done|].
    pose proof (Hget (k, v) (Hsub _ (list_elem_of_here _ _))) as Hk.
    pose proof (Heq (k, v) (Hsub _ (list_elem_of_here _ _))) as Hv.
    cbn [fst snd] in Hk, Hv. rewrite Hk, Hv. simpl.
    apply IHd0. intros kv Hin. apply Hsub. by right.
Qed.

(** ** What the decoder returns is a well-formed value *)

Lemma scan_number_shape (negative : bool) (s : string) (v : pyval) (r : string) :
  scan_number false negative s = Parsed (v, r) -> exists z, v = PyInt z.
Proof.
  unfold scan_number. destruct (scan_digits s) as [d rest].
  destruct d; [done|..];
    (destruct (negb _); [done|]; destruct (scan_float rest); [done|];
     destruct (too_long _); [done|]; intros [= <- <-]; eauto).
Qed.

Lemma scan_once_shape (f : nat) (s : string) (v : pyval) (r : string) :
  scan_once false (S f) s = Parsed (v, r) ->
  match v with
  | PyList vs => vs = [] \/ exists s', JSONArray false f s' = Parsed (vs, r)
  | PyDict d =>
      d = [] \/ exists ps s',
        JSONObject false f s' = Parsed (ps, r) /\ d = dict_of_pairs ps
  | PyTuple _ | PyBytes _ | PyByteArray _ => False
  | _ => True
  end.
Proof.
  destruct s as [|c s]; [done|]. cbn [scan_once]. unfold float_constant.
  destruct (N_of_ascii c) as [|p].
  { intros (z & ->)%scan_number_shape. done. }
  repeat match goal with
         | |- context [match ?p with xI _ => _ | xO _ => _ | xH => _ end] =>
             destruct p
         end;
    try (intros (z & ->)%scan_number_shape; done);
    intros H; unfold mbind, parsed_bind in H;
    repeat match type of H with
           | context [match ?x with _ => _ end] => destruct x eqn:?
           end; simplify_eq/=; eauto;
    try (match goal with H : scan_number false _ _ = _ |- _ =>
           apply scan_number_shape in H as (z & ->) end; done).
Qed.

Lemma dict_set_keys {A : Type} (k : string) (v : A) (d : list (string * A)) :
  NoDup (map fst d) -> NoDup (map fst (dict_set k v d)).
Proof.
  induction d as [|[k0 v0] d IH]; simpl; intros Hnd.
  - apply NoDup_singleton.
  - apply NoDup_cons in Hnd as [Hk0 Hnd].
    destruct (String.eqb_spec k0 k) as [->|Hne]; simpl.
    + by apply NoDup_cons.
    + apply NoDup_cons. split; [|by apply IH].
      intros Hin. apply list_elem_of_fmap in Hin as ([k1 v1] & -> & Hin).
      apply Hk0. apply list_elem_of_fmap.
      clear -Hin Hne. induction d as [|[k2 v2] d IHd]; simpl in Hin.
      * apply list_elem_of_singleton in Hin. simpl in *. congruence.
      * destruct (String.eqb_spec k2 k) as [->|Hne2].
        -- apply elem_of_cons in Hin as [Hin|Hin].
           ++ simpl in *. congruence.
           ++ exists (k1, v1). split; [done|by right].
        -- apply elem_of_cons in Hin as [Hin|Hin].
           ++ exists (k2, v2). split; [by injection Hin as -> _|by left].
           ++ destruct (IHd Hin) as (kv & ? & ?). exists kv.
              split; [done|by right].
Qed.

Lemma dict_set_Forall {A : Type} (P : A -> Prop) (k : string) (v : A)
    (d : list (string * A)) :
  P v -> Forall (fun kv => P kv.2) d -> Forall (fun kv => P kv.2) (dict_set k v d).
Proof.
  intros Hv. induction 1 as [|[k0 v0] d H0 Hd IH]; simpl.
  - by constructor.
  - destruct (String.eqb k0 k); constructor; done.
Qed.

Lemma dict_of_pairs_wf (ps : pydict) :
  Forall (fun kv => wf_val kv.2 = true) ps ->
  wf_val (PyDict (dict_of_pairs ps)) = true.
Proof.
  intros Hps. apply wf_val_dict. unfold dict_of_pairs.
  cut (forall acc,
         NoDup (map fst acc) /\ Forall (fun kv => wf_val kv.2 = true) acc ->
         NoDup (map fst (fold_left (fun d kv => dict_set kv.1 kv.2 d) ps acc)) /\
         Forall (fun kv : string * pyval => wf_val kv.2 = true)
           (fold_left (fun d kv => dict_set kv.1 kv.2 d) ps acc)).
  { intros H. apply H. split; [apply NoDup_nil_2|constructor]. }
  induction Hps as [|[k v] ps Hv _ IH]; intros acc [Hnd Hall]; [done|].
  simpl. apply IH. split; [by apply dict_set_keys|].
  by apply (dict_set_Forall (fun x => wf_val x = true)).
Qed.

Lemma scan_once_wf (fuel : nat) :
  (forall s v r, scan_once false fuel s = Parsed (v, r) -> wf_val v = true) /\
  (forall s vs r, JSONArray false fuel s = Parsed (vs, r) ->
                  Forall (fun v => wf_val v = true) vs) /\
  (forall s ps r, JSONObject false fuel s = Parsed (ps, r) ->
                  Forall (fun kv : string * pyval => wf_val kv.2 = true) ps).
Proof.
  induction fuel as [|f (IHv & IHa & IHo)]; [by split; [|split]|].
  split; [|split].
  - intros s v r H. apply scan_once_shape in H.
    destruct v as [ | | | | | | vs | | d]; try done.
    + apply wf_val_list. destruct H as [->|(s' & H)]; [constructor|eauto].
    + destruct H as [->|(ps & s' & H & ->)]; [done|].
      apply dict_of_pairs_wf. eauto.
  - intros s vs r. rewrite JSONArray_eq. unfold mbind, parsed_bind.
    destruct (scan_once false f s) as [[v rest]| | | |] eqn:Hv; [|done..].
    apply IHv in Hv. intros H.
    repeat match type of H with
           | context [match ?x with _ => _ end] => destruct x eqn:?
           end; simplify_eq/=; eauto.
  - intros s ps r. destruct s as [|q s]; [done|].
    cbn [JSONObject]. unfold mbind, parsed_bind. intros H.
    destruct (negb (Ascii.eqb q c_quote)); [done|].
    destruct (scanstring false s) as [[key rest]| | | |]; [|done..].
    destruct (skip_ws rest) as [|c rest']; [done|].
    destruct (negb (Ascii.eqb c ":")); [done|].
    destruct (scan_once false f (skip_ws rest')) as [[v rest'']| | | |] eqn:Hv;
      [|done..].
    apply IHv in Hv.
    repeat match type of H with
           | context [match ?x with _ => _ end] => destruct x eqn:?
           end; simplify_eq/=; eauto.
Qed.

Lemma json_loads_wf (s : string) (v : pyval) :
  json_loads s = Parsed v -> wf_val v = true.
Proof.
  intros Hl.
  assert (decode false s = Parsed v) as Hd.
  { unfold json_loads in Hl.
    destruct (decode false s); try done. by destruct (decode true s). }
  unfold decode, mbind, parsed_bind in Hd.
  destruct (scan_once false _ _) as [[obj rest]| | | |] eqn:H; [|done..].
  destruct (skip_ws rest); [|done]. injection Hd as <-.
  by eapply scan_once_wf.
Qed.

Lemma deserializer_wf (s v : pyval) : deserializer s = Ret v -> wf_val v = true.
Proof.
  destruct s; simpl; try (intros [= <-]; done); try done.
  destruct (json_loads s) eqn:H; intros [= <-]. by eapply json_loads_wf.
Qed.

Lemma deserialize_mapping_wf (cols : list string) (data data' : pydict) :
  wf_val (PyDict data) = true -> deserialize_mapping data cols = Ret data' ->
  wf_val (PyDict data') = true.
Proof.
  revert data. induction cols as [|c cols IH]; intros data Hwf; simpl.
  - by intros [= <-].
  - destruct (dict_get c data) as [s|]; [|by apply IH].
    destruct (deserializer s) as [v|e] eqn:Hs; [|done].
    apply IH. apply wf_val_dict in Hwf as [Hnd Hall]. apply wf_val_dict.
    split; [by apply dict_set_keys|].
    apply (dict_set_Forall (fun x => wf_val x = true)); [|done].
    by eapply deserializer_wf.
Qed.



(** ** The three loops of [process_edits], one entry at a time *)

Section bodies.
Variable responds : list event -> event -> bool.

Lemma process_edited_row_run (self : DynamoDBTableEditor)
    (json_cols : list string) (idx : nat) (edited_row : pydict) (w : world)
    (d : DataFrame) :
  heap w !! df self = Some d ->
  process_edited_row responds self json_cols (idx, edited_row) w
  = match index d !! idx with
    | None => (w, Raise IndexError)
    | Some index_val =>
        match deserialize_mapping edited_row json_cols with
        | Raise e => (w, Raise e)
        | Ret edited_row =>
            if already_edited (the_processed w) idx edited_row
            then (w, Ret tt)
            else call_outcome responds (modify_item index_val edited_row)
                   (with_edited idx edited_row (the_processed w)) w
        end
    end.
Proof.
  intros H. unfold process_edited_row, call_outcome, connection.
  run_unfold. rewrite H.
  destruct (index d !! idx) as [index_val|]; [|done].
  rewrite deserialize_mapping_run.
  destruct (deserialize_mapping edited_row json_cols) as [row|e]; [|done].
  destruct (already_edited (the_processed w) idx row); [done|].
  by destruct (responds (trace w) (modify_item index_val row)).
Qed.

Lemma process_added_row_run (json_cols : list string) (added_row : pydict)
    (w : world) :
  process_added_row responds json_cols added_row w
  = match deserialize_mapping added_row json_cols with
    | Raise e => (w, Raise e)
    | Ret added_row =>
        match dict_get "_index" added_row with
        | None => (w, Raise (KeyError "_index"))
        | Some keys =>
            let added_row := dict_pop "_index" added_row in
            match json_dumps true (PyDict added_row) with
            | None => (w, Raise (dumps_exception true (PyDict added_row)))
            | Some added_row_repr =>
                if bool_decide
                     (added_row_repr ∈ processed_added_rows (the_processed w))
                then (w, Ret tt)
                else call_outcome responds (put_item keys added_row)
                       (with_added added_row_repr (the_processed w)) w
            end
        end
    end.
Proof.
  unfold process_added_row, call_outcome, connection. run_unfold.
  rewrite deserialize_mapping_run.
  destruct (deserialize_mapping added_row json_cols) as [row|e]; [|done].
  destruct (dict_get "_index" row) as [keys|]; [|done].
  cbv zeta.
  destruct (json_dumps true (PyDict (dict_pop "_index" row))) as [repr|];
    [|done].
  case_bool_decide; [done|].
  by destruct (responds (trace w) _).
Qed.

Lemma process_deleted_row_run (self : DynamoDBTableEditor) (idx : nat)
    (w : world) (d : DataFrame) :
  heap w !! df self = Some d ->
  process_deleted_row responds self idx w
  = match index d !! idx with
    | None => (w, Raise IndexError)
    | Some index_val =>
        if py_in index_val (processed_deleted_rows (the_processed w))
        then (w, Ret tt)
        else call_outcome responds (del_item index_val)
               (with_deleted index_val (the_processed w)) w
    end.
Proof.
  intros H. unfold process_deleted_row, call_outcome, connection.
  run_unfold. rewrite H.
  destruct (index d !! idx) as [index_val|]; [|done].
  destruct (py_in index_val _); [done|].
  by destruct (responds (trace w) _).
Qed.
End bodies.

(** ** Loops *)

Lemma for_each_cons {A : Type} (x : A) (xs : list A) (body : A -> M unit)
    (w : world) :
  for_each (x :: xs) body w
  = match body x w with
    | (w', Ret _) => for_each xs body w'
    | (w', Raise e) => (w', Raise e)
    end.
Proof. reflexivity. Qed.

Lemma for_each_app {A : Type} (xs ys : list A) (body : A -> M unit) (w : world) :
  for_each (xs ++ ys) body w
  = match for_each xs body w with
    | (w', Ret _) => for_each ys body w'
    | (w', Raise e) => (w', Raise e)
    end.
Proof.
  revert w. induction xs as [|x xs IH]; intros w; [done|].
  rewrite <- app_comm_cons, !for_each_cons.
  destruct (body x w) as [w' [[]|e]]; [apply IH|done].
Qed.

Lemma for_each_holds {A : Type} (P R : world -> Prop) (xs : list A)
    (body : A -> M unit) :
  (forall x w, x ∈ xs -> P w -> holds P R (body x w)) ->
  forall w, P w -> holds P R (for_each xs body w).
Proof.
  induction xs as [|x xs IH]; intros Hbody w Hw; [done|].
  rewrite for_each_cons.
  pose proof (Hbody x w (list_elem_of_here _ _) Hw) as Hx.
  destruct (body x w) as [w' [[]|e]]; [|done].
  apply IH; [|done]. intros y w'' Hy. apply Hbody. by right.
Qed.

Lemma processed_edits_run (w : world) :
  (processed_edits w).1 = ensure_processed w /\
  exists p, (processed_edits w).2 = Ret p.
Proof.
  unfold processed_edits, ensure_processed. run_unfold.
  destruct (data_editor_processed (session w)); simpl; eauto.
Qed.

Lemma edit_info_run (w : world) (info : EditInfo) :
  data_editor_widget (session w) = Some info -> edit_info w = (w, Ret info).
Proof. intros H. unfold edit_info. run_unfold. by rewrite H. Qed.

Lemma process_edits_holds (responds : list event -> event -> bool)
    (P R : world -> Prop) (self : DynamoDBTableEditor)
    (json_cols : list string) (w : world) (info : EditInfo) :
  data_editor_widget (session w) = Some info ->
  (forall w, P w -> P (ensure_processed w)) ->
  (forall entry w, entry ∈ edited_rows info -> P w ->
     holds P R (process_edited_row responds self json_cols entry w)) ->
  (forall added_row w, added_row ∈ added_rows info -> P w ->
     holds P R (process_added_row responds json_cols added_row w)) ->
  (forall idx w, idx ∈ deleted_rows info -> P w ->
     holds P R (process_deleted_row responds self idx w)) ->
  P w -> holds P R (process_edits responds self json_cols w).
Proof.
  intros Hinfo Hens Hed Hadd Hdel Hw. unfold process_edits.
  change ((edit_info ≫= ?k) w)
    with (match edit_info w with
          | (w', Ret info) => k info w'
          | (w', Raise e) => (w', Raise e)
          end).
  rewrite (edit_info_run _ _ Hinfo).
  assert (forall (k : M unit) w, P w ->
            (forall w', P w' -> holds P R (k w')) ->
            holds P R ((processed_edits;; k) w)) as Hstep.
  { intros k w0 Hw0 Hk. destruct (processed_edits_run w0) as [Hw1 [p Hp]].
    change ((processed_edits;; k) w0)
      with (match processed_edits w0 with
            | (w', Ret _) => k w'
            | (w', Raise e) => (w', Raise e)
            end).
    destruct (processed_edits w0) as [w1 o]. simpl in Hw1, Hp. subst.
    apply Hk. by apply Hens. }
  assert (forall {A} xs (body : A -> M unit) (k : M unit) w,
            P w -> (forall x w, x ∈ xs -> P w -> holds P R (body x w)) ->
            (forall w', P w' -> holds P R (k w')) ->
            holds P R ((for_each xs body;; k) w)) as Hloop.
  { intros A xs body k w0 Hw0 Hbody Hk.
    pose proof (for_each_holds P R xs body Hbody w0 Hw0) as Hfe.
    change ((for_each xs body;; k) w0)
      with (match for_each xs body w0 with
            | (w', Ret _) => k w'
            | (w', Raise e) => (w', Raise e)
            end).
    destruct (for_each xs body w0) as [w1 [[]|e]]; [by apply Hk|done]. }
  apply Hstep; [done|]. intros w1 Hw1.
  apply Hloop; [done|done|]. intros w2 Hw2.
  apply Hstep; [done|]. intros w3 Hw3.
  apply Hloop; [done|done|]. intros w4 Hw4.
  apply Hstep; [done|]. intros w5 Hw5.
  by apply for_each_holds.
Qed.

(** ** [edit] up to [process_edits] *)

Lemma st_data_editor_run (grid : DataFrame -> DataFrame * EditInfo)
    (df : ref) (w : world) (d : DataFrame) :
  heap w !! df = Some d ->
  st_data_editor grid df w
  = (set_heap (heap w ++ [(grid d).1])
       (set_widget (Some (grid d).2) (log (data_editor d) w)),
     Ret (length (heap w))).
Proof. intros H. unfold st_data_editor. run_unfold. by rewrite H. Qed.

Lemma show_table_run (self : DynamoDBTableEditor)
    (grid : DataFrame -> DataFrame * EditInfo) (w : world) (d : DataFrame) :
  heap w !! df self = Some d ->
  show_table self grid w
  = match index d with
    | [] => (w, Raise StopIteration)
    | _ :: _ =>
        let cols := json_cols_of d in
        let shown := (columns_apply dumps (fun _ e => e) cols d).1 in
        match (columns_apply dumps (fun _ e => e) cols d).2 with
        | Some e => (set_heap (heap w ++ [shown]) w, Raise e)
        | None =>
            let w2 :=
              set_heap (heap w ++ [shown])
                (set_widget (Some (grid shown).2) (log (data_editor shown) w)) in
            let edited :=
              (columns_apply deserializer rethrow cols (grid shown).1).1 in
            let w3 := set_heap (heap w2 ++ [edited]) w2 in
            match (columns_apply deserializer rethrow cols (grid shown).1).2 with
            | None => (w3, Ret (cols, S (length (heap w))))
            | Some (JSONError msg) => (log (st_error msg) w3, Raise StopException)
            | Some e => (w3, Raise e)
            end
        end
    end.
Proof.
  intros H. unfold show_table. rewrite bind_run, (detect_run _ _ _ H).
  destruct (index d) as [|label labels]; [done|].
  fold (json_cols_of d). set (cols := json_cols_of d). cbv zeta.
  rewrite bind_run, (serialize_copy_run _ _ _ _ H).
  destruct (columns_apply dumps (fun _ e => e) cols d) as [shown o1].
  cbn [fst snd]. destruct o1 as [e|]; [done|].
  rewrite bind_run.
  rewrite (st_data_editor_run grid _ _ shown).
  2:{ simpl. rewrite lookup_app_r by done. by rewrite Nat.sub_diag. }
  rewrite bind_run. unfold try_except.
  rewrite (deserialize_df_run _ _ _ (grid shown).1).
  2:{ simpl. rewrite lookup_app_r; rewrite length_app; simpl; [|lia].
      by replace (length (heap w) + 1 - (length (heap w) + 1))%nat with 0%nat by lia. }
  destruct (columns_apply deserializer rethrow cols (grid shown).1) as [edited o3].
  cbn [fst snd].
  cbn [heap set_heap set_widget set_session log] in *.
  rewrite !length_app. simpl length.
  replace (length (heap w) + 1)%nat with (S (length (heap w))) by lia.
  rewrite insert_app_r_alt by (rewrite length_app; simpl; lia).
  rewrite length_app. simpl length.
  replace (S (length (heap w)) - (length (heap w) + 1))%nat with 0%nat by lia.
  simpl. destruct o3 as [e|]; [|done]. by destruct e.
Qed.

Lemma edit_eq (responds : list event -> event -> bool)
    (self : DynamoDBTableEditor) (grid : DataFrame -> DataFrame * EditInfo)
    (w : world) :
  edit responds self grid w
  = match show_table self grid w with
    | (w1, Ret (json_cols, edited_df)) =>
        match process_edits responds self json_cols w1 with
        | (w2, Ret _) => (w2, Ret edited_df)
        | (w2, Raise e) => (w2, Raise e)
        end
    | (w1, Raise e) => (w1, Raise e)
    end.
Proof.
  unfold edit, show_table. unfold mbind, M_bind, mret, M_ret.
  destruct (_get_json_serializable_cols (df self) w) as [w1 [cols|e]]; [|done].
  destruct (copy (df self) w1) as [w1' [c|e]]; [|done].
  destruct (_serialize_json_cols c cols w1') as [w2 [r|e]]; [|done].
  destruct (st_data_editor grid r w2) as [w3 [r'|e]]; [|done].
  destruct (try_except _ _ w3) as [w4 [r''|e]]; [|done].
  by destruct (process_edits responds self cols w4) as [w5 [[]|e]].
Qed.

Lemma show_table_quiet (self : DynamoDBTableEditor)
    (grid : DataFrame -> DataFrame * EditInfo) (w : world) (d : DataFrame) :
  heap w !! df self = Some d -> quiet w (show_table self grid w).1.
Proof.
  intros H. rewrite (show_table_run _ _ _ _ H). unfold quiet.
  destruct (index d); cbn [fst].
  { split; [exists []; by rewrite app_nil_r|].
    split; [done|]. split; [done|]. exists []. by rewrite app_nil_r. }
  cbv zeta. destruct (columns_apply dumps _ _ d) as [shown [e|]]; cbn [fst snd].
  { split; [by eexists|]. split; [done|]. split; [done|].
    exists []. by rewrite app_nil_r. }
  destruct (columns_apply deserializer _ _ _) as [edited [e|]]; cbn [fst snd].
  - assert (quiet w
      (set_heap (heap w ++ [shown] ++ [edited])
         (set_widget (Some (grid shown).2) (log (data_editor shown) w)))) as Hq.
    { split; [by eexists|]. split; [done|]. split; [done|].
      exists [data_editor shown]. split; [done|]. by repeat constructor. }
    destruct e; simpl; try (by rewrite <- app_assoc).
    split; [rewrite <- app_assoc; by eexists|]. split; [done|]. split; [done|].
    exists [data_editor shown; st_error msg]. rewrite <- app_assoc.
    split; [done|]. by repeat constructor.
  - simpl. split; [rewrite <- app_assoc; by eexists|]. split; [done|].
    split; [done|]. exists [data_editor shown]. split; [done|].
    by repeat constructor.
Qed.

Lemma show_table_returns (self : DynamoDBTableEditor)
    (grid : DataFrame -> DataFrame * EditInfo) (w w1 : world) (d : DataFrame)
    (json_cols : list string) (edited_df : ref) :
  heap w !! df self = Some d ->
  show_table self grid w = (w1, Ret (json_cols, edited_df)) ->
  json_cols = json_cols_of d /\
  data_editor_widget (session w1) = Some (grid (display d)).2.
Proof.
  intros H. rewrite (show_table_run _ _ _ _ H). unfold display.
  destruct (index d); [done|]. cbv zeta.
  destruct (columns_apply dumps _ _ d) as [shown [e|]]; cbn [fst snd]; [done|].
  destruct (columns_apply deserializer _ _ _) as [edited [e|]]; cbn [fst snd].
  - by destruct e.
  - by intros [= <- <- <-].
Qed.

Lemma quiet_heap (w w' : world) (r : ref) (d : DataFrame) :
  quiet w w' -> heap w !! r = Some d -> heap w' !! r = Some d.
Proof.
  intros ([ext ->] & _) H. rewrite lookup_app_l; [done|].
  by eapply lookup_lt_Some.
Qed.

Lemma ensure_processed_quiet (w : world) : quiet w (ensure_processed w).
Proof.
  unfold ensure_processed.
  destruct (data_editor_processed (session w));
    (split; [exists []; by rewrite app_nil_r|]); (split; [done|]);
    (split; [done|]); exists []; by rewrite app_nil_r.
Qed.

Lemma same_call_eq (c e : event) :
  same_call c e = true <-> is_store_call c = true /\ e = c.
Proof.
  destruct c, e; cbn [same_call is_store_call];
    try (split; [done|intros [? ?]; congruence]);
    rewrite ?andb_true_iff, !pyval_beq_eq.
  - split; [intros [-> [= ->]]; done|intros [_ [= -> ->]]; done].
  - split; [intros [-> [= ->]]; done|intros [_ [= -> ->]]; done].
  - split; [intros ->; done|intros [_ [= ->]]; done].
Qed.

(** ** Counting the calls of a trace *)

Lemma calls_of_app (sel : event -> bool) (tr evs : list event) :
  calls_of sel (tr ++ evs) = (calls_of sel tr + calls_of sel evs)%nat.
Proof. unfold calls_of. by rewrite filter_app, length_app. Qed.

Lemma calls_of_snoc (sel : event -> bool) (e : event) (tr : list event) :
  calls_of sel (tr ++ [e])
  = (calls_of sel tr + if sel e then 1 else 0)%nat.
Proof.
  rewrite calls_of_app. f_equal. unfold calls_of.
  destruct (sel e) eqn:E.
  - by rewrite filter_cons_True.
  - rewrite filter_cons_False; [done|congruence].
Qed.

Lemma accepted_from_app (responds : list event -> event -> bool)
    (sel : event -> bool) (pre tr tr' : list event) :
  accepted_from responds sel pre (tr ++ tr')
  = (accepted_from responds sel pre tr
     + accepted_from responds sel (pre ++ tr) tr')%nat.
Proof.
  revert pre. induction tr as [|e tr IH]; intros pre; simpl.
  - by rewrite app_nil_r.
  - rewrite IH, <- app_assoc. simpl. lia.
Qed.

Lemma accepted_snoc (responds : list event -> event -> bool)
    (sel : event -> bool) (e : event) (tr : list event) :
  accepted responds sel (tr ++ [e])
  = (accepted responds sel tr
     + if sel e && responds tr e then 1 else 0)%nat.
Proof. unfold accepted. rewrite accepted_from_app. simpl. lia. Qed.

(** A store that never refuses a selected call accepted each of them. *)
Lemma accepted_calls_of (responds : list event -> event -> bool)
    (sel : event -> bool) (tr : list event) :
  (forall tr e, sel e = true -> responds tr e = true) ->
  accepted responds sel tr = calls_of sel tr.
Proof.
  intros Hok. unfold accepted. generalize (@nil event) as pre.
  induction tr as [|e tr IH]; intros pre; [done|].
  simpl. rewrite IH. unfold calls_of.
  destruct (sel e) eqn:E.
  - rewrite (Hok _ _ E). by rewrite filter_cons_True.
  - rewrite filter_cons_False by congruence. done.
Qed.

(** ** The discipline bounds the calls *)

Section discipline.
Variable responds : list event -> event -> bool.
Variable sel : event -> bool.
Variable recorded : ProcessedEdits -> Prop.
Hypothesis sel_store_call : forall e, sel e = true -> is_store_call e = true.

Lemma calls_of_quiet (w w' : world) :
  quiet w w' -> calls_of sel (trace w') = calls_of sel (trace w).
Proof.
  intros (_ & _ & _ & evs & -> & Hevs). rewrite calls_of_app.
  assert (calls_of sel evs = 0%nat) as ->; [|lia].
  unfold calls_of. induction Hevs as [|e evs He _ IH]; [done|].
  rewrite filter_cons_False; [done|].
  intros Hsel%sel_store_call. congruence.
Qed.

Lemma accepted_quiet (w w' : world) :
  quiet w w' ->
  accepted responds sel (trace w') = accepted responds sel (trace w).
Proof.
  intros (_ & _ & _ & evs & -> & Hevs). unfold accepted.
  rewrite accepted_from_app.
  assert (forall pre, accepted_from responds sel pre evs = 0%nat) as ->;
    [|lia].
  induction Hevs as [|e evs He _ IH]; intros pre; [done|].
  simpl. rewrite IH. destruct (sel e) eqn:E; [|done].
  apply sel_store_call in E. congruence.
Qed.

Lemma once_quiet (n0 : nat) (w w' : world) :
  once responds sel recorded n0 w -> quiet w w' ->
  once responds sel recorded n0 w'.
Proof.
  intros [Hn Hr] Hq. unfold once. rewrite (accepted_quiet _ _ Hq).
  destruct Hq as (_ & _ & -> & _). done.
Qed.

Lemma asked_quiet (m0 : nat) (w w' : world) :
  asked sel recorded m0 w -> quiet w w' -> asked sel recorded m0 w'.
Proof.
  intros [Hn Hr] Hq. unfold asked. rewrite (calls_of_quiet _ _ Hq).
  destruct Hq as (_ & _ & -> & _). done.
Qed.

Lemma call_outcome_heap (c : event) (p : ProcessedEdits) (w : world) :
  heap (call_outcome responds c p w).1 = heap w.
Proof. unfold call_outcome. by destruct (responds _ _). Qed.

Lemma guarded_heap (step : M unit) (w : world) :
  guarded responds sel recorded step w -> heap (step w).1 = heap w.
Proof.
  intros [[o ->]|(c & p & -> & _)]; [done|apply call_outcome_heap].
Qed.

(** A step of the discipline keeps the number of accepted calls within
    one of [n0], whether it returns or raises. *)
Lemma guarded_once (n0 : nat) (step : M unit) (w : world) :
  guarded responds sel recorded step w ->
  once responds sel recorded n0 w ->
  holds (once responds sel recorded n0) (once responds sel recorded n0)
    (step w).
Proof.
  intros [[o ->]|(c & p & -> & Hsel)] [Hn Hr].
  { by destruct o. }
  unfold call_outcome, holds, once. destruct (sel c) eqn:Esel.
  - destruct Hsel as [Hnot Hp].
    assert (accepted responds sel (trace w) = n0) as Hacc.
    { destruct (Nat.eq_dec (accepted responds sel (trace w)) (n0 + 1)%nat)
        as [E|E]; [by apply Hr in E|lia]. }
    destruct (responds (trace w) c) eqn:Hresp;
      cbn [trace set_processed set_session log];
      rewrite accepted_snoc, Esel, Hresp, Hacc; simpl.
    + split; [lia|done].
    + split; [lia|]. intros E. lia.
  - assert (accepted responds sel (trace w ++ [c])
            = accepted responds sel (trace w)) as Hc.
    { rewrite accepted_snoc, Esel. simpl. lia. }
    destruct (responds (trace w) c);
      cbn [trace set_processed set_session log]; rewrite Hc;
      (split; [done|]); intros E; [apply Hsel|]; auto.
Qed.

(** A step of the discipline that returns keeps the number of calls within
    one of [m0], the entry recorded if the call was made; a step that raises
    leaves at most one call more than [m0]. *)
Lemma guarded_asked (m0 : nat) (step : M unit) (w : world) :
  guarded responds sel recorded step w ->
  asked sel recorded m0 w ->
  holds (asked sel recorded m0) (bounded sel m0) (step w).
Proof.
  intros [[o ->]|(c & p & -> & Hsel)] [Hn Hr].
  { destruct o; [done|exact Hn]. }
  unfold call_outcome, holds, asked, bounded. destruct (sel c) eqn:Esel.
  - destruct Hsel as [Hnot Hp].
    assert (calls_of sel (trace w) = m0) as Hm.
    { destruct (Nat.eq_dec (calls_of sel (trace w)) (m0 + 1)%nat)
        as [E|E]; [by apply Hr in E|lia]. }
    destruct (responds (trace w) c);
      cbn [trace set_processed set_session log];
      rewrite calls_of_snoc, Esel, Hm.
    + split; [lia|done].
    + lia.
  - assert (calls_of sel (trace w ++ [c]) = calls_of sel (trace w)) as Hc.
    { rewrite calls_of_snoc, Esel. lia. }
    destruct (responds (trace w) c);
      cbn [trace set_processed set_session log]; rewrite Hc; [|done].
    split; [done|]. intros E. apply Hsel. auto.
Qed.

(** One render: what the steps keep holds when [edit] returns, and what
    they leave when they raise holds when [edit] raises. *)
Lemma render_holds (P R : world -> Prop) (self : DynamoDBTableEditor)
    (d : DataFrame) (grid : DataFrame -> DataFrame * EditInfo) (w : world) :
  (forall w w', P w -> quiet w w' -> P w') ->
  (forall w, P w -> R w) ->
  (forall step w, guarded responds sel recorded step w -> P w ->
     holds P R (step w)) ->
  disciplined responds sel recorded self d (grid (display d)).2 ->
  heap w !! df self = Some d -> P w ->
  holds (fun w' => heap w' !! df self = Some d /\ P w')
    (fun w' => heap w' !! df self = Some d /\ R w')
    (edit responds self grid w).
Proof.
  intros Hquiet HPR Hstep Hdisc H Hw. rewrite edit_eq.
  pose proof (show_table_quiet self grid w d H) as Hq.
  pose proof (show_table_returns self grid w) as Hret.
  destruct (show_table self grid w) as [w1 [[cols r]|e]]; cbn [fst] in Hq.
  2:{ split; [by eapply quiet_heap|]. apply HPR. by eapply Hquiet. }
  destruct (Hret w1 d cols r H eq_refl) as [-> Hwidget]. clear Hret.
  set (P' := fun w' => heap w' !! df self = Some d /\ P w').
  set (R' := fun w' => heap w' !! df self = Some d /\ R w').
  assert (forall step w', guarded responds sel recorded step w' -> P' w' ->
            holds P' R' (step w')) as Hstep'.
  { intros step w' Hg [H' Hw'].
    pose proof (guarded_heap step w' Hg) as Hh.
    pose proof (Hstep step w' Hg Hw') as Hs.
    destruct (step w') as [w'' [[]|e]]; cbn [fst] in Hh;
      (split; [by rewrite Hh|done]). }
  assert (holds P' R' (process_edits responds self (json_cols_of d) w1))
    as Hfinal.
  { apply (process_edits_holds responds P' R' self _ w1 _ Hwidget).
    - intros w' [H' Hw']. split.
      + eapply quiet_heap; [apply ensure_processed_quiet|done].
      + eapply Hquiet; [done|apply ensure_processed_quiet].
    - intros entry w' Hin HP'. apply Hstep'; [|done].
      destruct HP' as [H' _]. by apply (Hdisc w' H').
    - intros row w' Hin HP'. apply Hstep'; [|done].
      destruct HP' as [H' _]. by apply (Hdisc w' H').
    - intros idx w' Hin HP'. apply Hstep'; [|done].
      destruct HP' as [H' _]. by apply (Hdisc w' H').
    - split; [by eapply quiet_heap|by eapply Hquiet]. }
  by destruct (process_edits responds self (json_cols_of d) w1)
    as [w2 [[]|e]].
Qed.

Lemma render_once (n0 : nat) (self : DynamoDBTableEditor) (d : DataFrame)
    (grid : DataFrame -> DataFrame * EditInfo) (w : world) :
  disciplined responds sel recorded self d (grid (display d)).2 ->
  heap w !! df self = Some d -> once responds sel recorded n0 w ->
  heap (edit responds self grid w).1 !! df self = Some d /\
  once responds sel recorded n0 (edit responds self grid w).1.
Proof.
  intros Hdisc H Hw.
  pose proof (render_holds (once responds sel recorded n0)
                (once responds sel recorded n0) self d grid w
                (once_quiet n0) (fun _ Hw => Hw) (guarded_once n0)
                Hdisc H Hw) as Hr.
  by destruct (edit responds self grid w) as [w' [r|e]].
Qed.

Lemma render_asked (m0 : nat) (self : DynamoDBTableEditor) (d : DataFrame)
    (grid : DataFrame -> DataFrame * EditInfo) (w : world) :
  disciplined responds sel recorded self d (grid (display d)).2 ->
  heap w !! df self = Some d -> asked sel recorded m0 w ->
  bounded sel m0 (edit responds self grid w).1.
Proof.
  intros Hdisc H Hw.
  assert (forall w, asked sel recorded m0 w -> bounded sel m0 w) as Hb.
  { by intros w0 [Hn _]. }
  pose proof (render_holds (asked sel recorded m0) (bounded sel m0)
                self d grid w (asked_quiet m0) Hb (guarded_asked m0)
                Hdisc H Hw) as Hr.
  destruct (edit responds self grid w) as [w' [r|e]];
    cbn [holds fst] in *; [apply Hb|]; tauto.
Qed.

(** Over one render a selected call is made at most once, whatever the
    store answers; over two renders the store accepts at most one selected
    call, so that it is asked at most once when it never refuses one. *)
Lemma at_most_once (self : DynamoDBTableEditor) (d : DataFrame)
    (grid1 grid2 : DataFrame -> DataFrame * EditInfo) (w : world) :
  heap w !! df self = Some d ->
  disciplined responds sel recorded self d (grid1 (display d)).2 ->
  disciplined responds sel recorded self d (grid2 (display d)).2 ->
  (calls_of sel (trace (edit responds self grid1 w).1)
   <= calls_of sel (trace w) + 1)%nat /\
  (accepted responds sel
     (trace (edit responds self grid2 (edit responds self grid1 w).1).1)
   <= accepted responds sel (trace w) + 1)%nat /\
  ((forall tr e, sel e = true -> responds tr e = true) ->
   (calls_of sel
      (trace (edit responds self grid2 (edit responds self grid1 w).1).1)
    <= calls_of sel (trace w) + 1)%nat).
Proof.
  intros H H1 H2.
  assert (accepted responds sel
            (trace (edit responds self grid2
                      (edit responds self grid1 w).1).1)
          <= accepted responds sel (trace w) + 1)%nat as Hacc.
  { assert (once responds sel recorded (accepted responds sel (trace w)) w)
      as H0.
    { split; [lia|]. intros E. lia. }
    destruct (render_once _ self d grid1 w H1 H H0) as [H' H0'].
    destruct (render_once _ self d grid2 _ H2 H' H0') as [_ [Hn _]]. lia. }
  split; [|split; [exact Hacc|]].
  - assert (asked sel recorded (calls_of sel (trace w)) w) as H0.
    { split; [lia|]. intros E. lia. }
    pose proof (render_asked _ self d grid1 w H1 H H0) as Hb.
    unfold bounded in Hb. lia.
  - intros Hok. by rewrite <- !(accepted_calls_of responds sel).
Qed.
End discipline.

(** ** The three loops follow the discipline *)

Lemma py_in_app (x : pyval) (xs ys : list pyval) :
  py_in x (xs ++ ys) = py_in x xs || py_in x ys.
Proof. unfold py_in. apply existsb_app. Qed.

Lemma NoDup_fst_unique {A B : Type} (l : list (A * B)) (a : A) (b b' : B) :
  NoDup (map fst l) -> (a, b) ∈ l -> (a, b') ∈ l -> b = b'.
Proof.
  induction l as [|[a0 b0] l IH]; simpl; intros Hnd H1 H2.
  - by apply elem_of_nil in H1.
  - apply NoDup_cons in Hnd as [Ha Hnd].
    apply elem_of_cons in H1 as [[= -> ->]|H1];
      apply elem_of_cons in H2 as [[= ->]|H2]; try done.
    + exfalso. apply Ha. apply list_elem_of_fmap. by exists (a0, b').
    + subst. exfalso. apply Ha. apply list_elem_of_fmap. by exists (a0, b).
    + by apply IH.
Qed.

(** A loop whose calls are not selected follows the discipline when what it
    records keeps the entry recorded. *)
Section other_loops.
Variable responds : list event -> event -> bool.
Variable sel : event -> bool.
Variable recorded : ProcessedEdits -> Prop.

Lemma edited_row_guarded (self : DynamoDBTableEditor) (d : DataFrame)
    (json_cols : list string) (entry : nat * pydict) (w : world) :
  heap w !! df self = Some d ->
  (forall k r, sel (modify_item k r) = false) ->
  (forall p i r, recorded p -> recorded (with_edited i r p)) ->
  guarded responds sel recorded
    (process_edited_row responds self json_cols entry) w.
Proof.
  intros H Hsel Hrec. destruct entry as [idx row]. unfold guarded.
  rewrite (process_edited_row_run _ _ _ _ _ _ _ H).
  repeat case_match; try (left; by eexists).
  right. do 2 eexists. split; [done|]. rewrite Hsel. apply Hrec.
Qed.

Lemma added_row_guarded (json_cols : list string) (added_row : pydict)
    (w : world) :
  (forall k r, sel (put_item k r) = false) ->
  (forall p s, recorded p -> recorded (with_added s p)) ->
  guarded responds sel recorded
    (process_added_row responds json_cols added_row) w.
Proof.
  intros Hsel Hrec. unfold guarded. rewrite process_added_row_run. cbv zeta.
  repeat case_match; try (left; by eexists).
  right. do 2 eexists. split; [done|]. rewrite Hsel. apply Hrec.
Qed.

End other_loops.

Lemma same_call_refl (c : event) :
  is_store_call c = true -> same_call c c = true.
Proof. intros H. by apply same_call_eq. Qed.

Lemma same_call_ne (c e : event) : e <> c -> same_call c e = false.
Proof.
  intros Hne. destruct (same_call c e) eqn:E; [|done].
  apply same_call_eq in E as [_ ->]. done.
Qed.

Lemma same_call_store_call (c e : event) :
  same_call c e = true -> is_store_call e = true.
Proof. by intros [H ->]%same_call_eq. Qed.


(** Deleted rows. *)
Lemma delete_disciplined (responds : list event -> event -> bool)
    (self : DynamoDBTableEditor) (d : DataFrame) (index_val : pyval)
    (info : EditInfo) :
  wf_val index_val = true ->
  disciplined responds (same_call (del_item index_val))
    (fun p => py_in index_val (processed_deleted_rows p) = true)
    self d info.
Proof.
  intros Hwf w H. split; [|split].
  - intros entry _. by eapply edited_row_guarded.
  - intros row _. by eapply added_row_guarded.
  - intros idx _. unfold guarded.
    rewrite (process_deleted_row_run _ _ _ _ _ H).
    destruct (index d !! idx) as [k|]; [|left; by eexists].
    destruct (py_in k _) eqn:Hin; [left; by eexists|].
    right. do 2 eexists. split; [done|].
    cbn [with_deleted processed_deleted_rows]. rewrite py_in_app.
    destruct (same_call (del_item index_val) (del_item k)) eqn:E.
    + apply same_call_eq in E as [_ [= ->]]. split; [congruence|].
      simpl. rewrite py_eq_refl by done. by rewrite orb_true_r.
    + by intros ->.
Qed.


(** ** The representation of an added row does not depend on key order *)








(** ** Edits are applied at most once *)

(** ** Exceptions leave the loops, [process_edits] and [edit] *)

Lemma for_each_raises {A : Type} (xs ys : list A) (x : A) (body : A -> M unit)
    (w w1 w2 : world) (e : exn) :
  for_each xs body w = (w1, Ret tt) -> body x w1 = (w2, Raise e) ->
  for_each (xs ++ x :: ys) body w = (w2, Raise e).
Proof.
  intros Hxs Hx. rewrite for_each_app, Hxs, for_each_cons. by rewrite Hx.
Qed.

Lemma process_edits_run (responds : list event -> event -> bool)
    (self : DynamoDBTableEditor) (json_cols : list string) (w : world)
    (info : EditInfo) :
  data_editor_widget (session w) = Some info ->
  process_edits responds self json_cols w
  = match for_each (edited_rows info)
            (process_edited_row responds self json_cols) (ensure_processed w)
    with
    | (w1, Raise e) => (w1, Raise e)
    | (w1, Ret _) =>
        match for_each (added_rows info)
                (process_added_row responds json_cols) (ensure_processed w1)
        with
        | (w2, Raise e) => (w2, Raise e)
        | (w2, Ret _) =>
            for_each (deleted_rows info)
              (process_deleted_row responds self) (ensure_processed w2)
        end
    end.
Proof.
  intros Hinfo. unfold process_edits.
  change ((edit_info ≫= ?k) w)
    with (match edit_info w with
          | (w', Ret info) => k info w'
          | (w', Raise e) => (w', Raise e)
          end).
  rewrite (edit_info_run _ _ Hinfo).
  assert (forall (k : M unit) w0,
            (processed_edits;; k) w0 = k (ensure_processed w0)) as Hstep.
  { intros k w0. destruct (processed_edits_run w0) as [Hw1 [p Hp]].
    change ((processed_edits;; k) w0)
      with (match processed_edits w0 with
            | (w', Ret _) => k w'
            | (w', Raise e) => (w', Raise e)
            end).
    destruct (processed_edits w0) as [w1 o]. simpl in Hw1, Hp. by subst. }
  cbv beta. rewrite Hstep.
  change ((for_each ?xs ?body;; ?k) ?w0)
    with (match for_each xs body w0 with
          | (w', Ret _) => k w'
          | (w', Raise e) => (w', Raise e)
          end).
  destruct (for_each (edited_rows info) _ _) as [w1 [[]|e]]; [|done].
  rewrite Hstep.
  change ((for_each ?xs ?body;; ?k) ?w0)
    with (match for_each xs body w0 with
          | (w', Ret _) => k w'
          | (w', Raise e) => (w', Raise e)
          end).
  destruct (for_each (added_rows info) _ _) as [w2 [[]|e]]; [|done].
  by rewrite Hstep.
Qed.

Lemma call_outcome_fails (responds : list event -> event -> bool) (c : event)
    (p : ProcessedEdits) (w : world) :
  responds (trace w) c = false ->
  call_outcome responds c p w = (log c w, Raise ClientError).
Proof. intros H. unfold call_outcome. by rewrite H. Qed.

(** C8. When the store refuses the call made for a diff entry, each of the
    three loops raises the store's exception after that one call, with the
    applied-edits record as it was; the exception ends the loop, leaves
    [process_edits] and leaves [edit], where nothing handles it. *)
Theorem store_failure_propagates (responds : list event -> event -> bool)
    (self : DynamoDBTableEditor) (d : DataFrame) (json_cols : list string)
    (w : world) :
  heap w !! df self = Some d ->
  (forall idx edited_row index_val decoded_row,
     index d !! idx = Some index_val ->
     deserialize_mapping edited_row json_cols = Ret decoded_row ->
     already_edited (the_processed w) idx decoded_row = false ->
     responds (trace w) (modify_item index_val decoded_row) = false ->
     process_edited_row responds self json_cols (idx, edited_row) w
     = (log (modify_item index_val decoded_row) w, Raise ClientError)) /\
  (forall added_row decoded_row keys added_row_repr,
     deserialize_mapping added_row json_cols = Ret decoded_row ->
     dict_get "_index" decoded_row = Some keys ->
     json_dumps true (PyDict (dict_pop "_index" decoded_row))
     = Some added_row_repr ->
     added_row_repr ∉ processed_added_rows (the_processed w) ->
     responds (trace w) (put_item keys (dict_pop "_index" decoded_row)) = false ->
     process_added_row responds json_cols added_row w
     = (log (put_item keys (dict_pop "_index" decoded_row)) w,
        Raise ClientError)) /\
  (forall idx index_val,
     index d !! idx = Some index_val ->
     py_in index_val (processed_deleted_rows (the_processed w)) = false ->
     responds (trace w) (del_item index_val) = false ->
     process_deleted_row responds self idx w
     = (log (del_item index_val) w, Raise ClientError)) /\
  (forall c, the_processed (log c w) = the_processed w /\
             trace (log c w) = trace w ++ [c]) /\
  (forall (A : Type) (xs ys : list A) (x : A) (body : A -> M unit) w0 w1 w2 e,
     for_each xs body w0 = (w1, Ret tt) -> body x w1 = (w2, Raise e) ->
     for_each (xs ++ x :: ys) body w0 = (w2, Raise e)) /\
  (forall w0 w1 e info,
     data_editor_widget (session w0) = Some info ->
     (for_each (edited_rows info) (process_edited_row responds self json_cols)
        (ensure_processed w0) = (w1, Raise e) ->
      process_edits responds self json_cols w0 = (w1, Raise e)) /\
     (forall w', for_each (edited_rows info)
                   (process_edited_row responds self json_cols)
                   (ensure_processed w0) = (w', Ret tt) ->
        (for_each (added_rows info) (process_added_row responds json_cols)
           (ensure_processed w') = (w1, Raise e) ->
         process_edits responds self json_cols w0 = (w1, Raise e)) /\
        (forall w'', for_each (added_rows info)
                       (process_added_row responds json_cols)
                       (ensure_processed w') = (w'', Ret tt) ->
           for_each (deleted_rows info) (process_deleted_row responds self)
             (ensure_processed w'') = (w1, Raise e) ->
           process_edits responds self json_cols w0 = (w1, Raise e)))) /\
  (forall grid w0 w1 w2 cols edited_df e,
     show_table self grid w0 = (w1, Ret (cols, edited_df)) ->
     process_edits responds self cols w1 = (w2, Raise e) ->
     edit responds self grid w0 = (w2, Raise e)).
Proof.
  intros H. split; [|split; [|split; [|split; [|split; [|split]]]]].
  - intros idx row index_val row' Hidx Hdec Halready Hfail.
    rewrite (process_edited_row_run _ _ _ _ _ _ _ H), Hidx, Hdec, Halready.
    by apply call_outcome_fails.
  - intros row row' keys repr Hdec Hkeys Hrepr Hnew Hfail.
    rewrite process_added_row_run, Hdec, Hkeys. cbv zeta. rewrite Hrepr.
    rewrite bool_decide_eq_false_2 by done. by apply call_outcome_fails.
  - intros idx index_val Hidx Hnew Hfail.
    rewrite (process_deleted_row_run _ _ _ _ _ H), Hidx, Hnew.
    by apply call_outcome_fails.
  - done.
  - intros A xs ys x body w0 w1 w2 e. apply for_each_raises.
  - intros w0 w1 e info Hinfo. split.
    { intros Hloop. rewrite (process_edits_run _ _ _ _ _ Hinfo).
      by rewrite Hloop. }
    intros w' Hedited. split.
    { intros Hloop. rewrite (process_edits_run _ _ _ _ _ Hinfo).
      by rewrite Hedited, Hloop. }
    intros w'' Hadded Hloop. rewrite (process_edits_run _ _ _ _ _ Hinfo).
    by rewrite Hedited, Hadded, Hloop.
  - intros grid w0 w1 w2 cols r e Hshow Hproc.
    by rewrite edit_eq, Hshow, Hproc.
Qed.



(** ** The empty table *)

(** C10. On a table with no row, detection raises [StopIteration] when it
    takes the first row, and so does [edit], before it shows the grid: the
    world is as it was, with no event, no object and no session key more. *)
Theorem empty_table_stops (responds : list event -> event -> bool)
    (self : DynamoDBTableEditor) (grid : DataFrame -> DataFrame * EditInfo)
    (w : world) (d : DataFrame) :
  heap w !! df self = Some d -> index d = [] ->
  _get_json_serializable_cols (df self) w = (w, Raise StopIteration) /\
  edit responds self grid w = (w, Raise StopIteration).
Proof.
  intros H Hempty. split.
  - by rewrite (detect_run _ _ _ H), Hempty.
  - by rewrite edit_eq, (show_table_run _ _ _ _ H), Hempty.
Qed.

Lemma empty_table_stops_witness :
  edit accepts editor0 grid_ok (world_of table_empty)
  = (world_of table_empty, Raise StopIteration).
Proof.
  apply (empty_table_stops accepts editor0 grid_ok (world_of table_empty)
           table_empty); reflexivity.
Defined.

(** ** Malformed text *)

(** Malformed text in the frame the grid gives back: [edit] shows the
    message of the [JSONError] and stops the script, before any store
    call. *)
Lemma edit_stops_on_bad_copy (responds : list event -> event -> bool)
    (self : DynamoDBTableEditor) (grid : DataFrame -> DataFrame * EditInfo)
    (w : world) (d : DataFrame) (msg : string) :
  heap w !! df self = Some d -> index d <> [] ->
  (columns_apply dumps (fun _ e => e) (json_cols_of d) d).2 = None ->
  (columns_apply deserializer rethrow (json_cols_of d) (grid (display d)).1).2
  = Some (JSONError msg) ->
  exists w',
    edit responds self grid w = (w', Raise StopException) /\
    trace w' = trace w ++ [data_editor (display d); st_error msg] /\
    the_processed w' = the_processed w.
Proof.
  intros H Hne Hser Hdes. rewrite edit_eq, (show_table_run _ _ _ _ H).
  destruct (index d); [done|]. cbv zeta. fold (display d).
  rewrite Hser, Hdes. eexists. split; [done|]. split; [|done].
  simpl. by rewrite <- app_assoc.
Qed.

(** ** The theorems on a sample session *)

Lemma NoDup_one {A : Type} (x : A) : NoDup [x].
Proof. apply NoDup_singleton. Qed.

Lemma NoDup_labels_ab : NoDup (map fst (columns table_ab)).
Proof.
  apply NoDup_cons. split; [|apply NoDup_one].
  intros Hin. apply list_elem_of_singleton in Hin. discriminate.
Qed.

Lemma store_failure_propagates_witness :
  process_deleted_row refuses editor0 1 (world_of table_ab)
  = (log (del_item (PyStr "b")) (world_of table_ab), Raise ClientError).
Proof.
  apply (store_failure_propagates refuses editor0 table_ab ["tags"]
           (world_of table_ab)); reflexivity.
Defined.

(** The sample session, run: the three calls of the first render are not
    made again by the second. *)
Example two_renders_trace :
  trace (edit accepts editor0 grid_ok
           (edit accepts editor0 grid_ok (world_of table_ab)).1).1
  = [data_editor (display table_ab);
     modify_item (PyStr "a") [("tags", PyList [PyInt 1; PyInt 2])];
     put_item (PyStr "c") [("n", PyInt 3)];
     del_item (PyStr "b");
     data_editor (display table_ab)].
Proof. vm_compute. reflexivity. Qed.

(** A row added twice, the second time with its columns in another order,
    is put once. *)
Example added_twice_trace :
  trace (edit accepts editor0 grid_twice (world_of table_ab)).1
  = [data_editor (display table_ab);
     put_item (PyStr "c") [("n", PyInt 3); ("m", PyInt 4)]].
Proof. vm_compute. reflexivity. Qed.

(** * Properties of a whole render *)

(** ** The steps of the three loops *)

Section entry_steps.
Variable responds : list event -> event -> bool.
Variable self : DynamoDBTableEditor.
Variable d : DataFrame.
Variable info : EditInfo.

Lemma edited_entry_step (entry : nat * pydict) (w : world) :
  heap w !! df self = Some d -> entry ∈ edited_rows info ->
  entry_step responds d info
    (process_edited_row responds self (json_cols_of d) entry) w.
Proof.
  intros H Hin. destruct entry as [idx row]. unfold entry_step.
  rewrite (process_edited_row_run _ _ _ _ _ _ _ H).
  destruct (index d !! idx) as [k|] eqn:Hk; [|left; by eexists].
  destruct (deserialize_mapping row (json_cols_of d)) as [r|] eqn:Hr;
    [|left; by eexists].
  destruct (already_edited _ _ _); [left; by eexists|].
  right. exists (modify_item k r), (with_edited idx r (the_processed w)).
  split; [done|]. split; [done|]. split; [by exists idx, row|by exists idx].
Qed.

Lemma added_entry_step (added_row : pydict) (w : world) :
  added_row ∈ added_rows info ->
  entry_step responds d info
    (process_added_row responds (json_cols_of d) added_row) w.
Proof.
  intros Hin. unfold entry_step. rewrite process_added_row_run. cbv zeta.
  destruct (deserialize_mapping added_row (json_cols_of d)) as [dec|] eqn:Hd;
    [|left; by eexists].
  destruct (dict_get "_index" dec) as [k|] eqn:Hk; [|left; by eexists].
  destruct (json_dumps true (PyDict (dict_pop "_index" dec)))
    as [r|] eqn:Hr; [|left; by eexists].
  case_bool_decide; [left; by eexists|].
  right. exists (put_item k (dict_pop "_index" dec)),
           (with_added r (the_processed w)).
  split; [done|]. split; [done|].
  split; [by exists added_row, dec|by exists r].
Qed.

Lemma deleted_entry_step (idx : nat) (w : world) :
  heap w !! df self = Some d -> idx ∈ deleted_rows info ->
  entry_step responds d info (process_deleted_row responds self idx) w.
Proof.
  intros H Hin. unfold entry_step.
  rewrite (process_deleted_row_run _ _ _ _ _ H).
  destruct (index d !! idx) as [k|] eqn:Hk; [|left; by eexists].
  destruct (py_in k _); [left; by eexists|].
  right. exists (del_item k), (with_deleted k (the_processed w)).
  split; [done|]. split; [done|]. split; [by exists idx|done].
Qed.

Lemma entry_step_frame (step : M unit) (w : world) :
  entry_step responds d info step w ->
  heap (step w).1 = heap w /\ session (step w).1 = session w.
Proof.
  intros [[o ->]|(c & p & -> & _)]; [done|].
  unfold call_outcome. by destruct (responds _ _).
Qed.
End entry_steps.

(** One render: what the steps keep holds when [edit] returns, and what they
    leave when they raise holds when [edit] raises. *)
Lemma render_steps (responds : list event -> event -> bool)
    (P R : world -> Prop) (self : DynamoDBTableEditor) (d : DataFrame)
    (grid : DataFrame -> DataFrame * EditInfo) (w : world) :
  (forall w w', P w -> quiet w w' -> P w') ->
  (forall w, P w -> R w) ->
  (forall step w, entry_step responds d (grid (display d)).2 step w ->
     P w -> holds P R (step w)) ->
  heap w !! df self = Some d -> P w ->
  holds (fun w' => heap w' !! df self = Some d /\ P w')
    (fun w' => heap w' !! df self = Some d /\ R w')
    (edit responds self grid w).
Proof.
  intros Hquiet HPR Hstep H Hw. rewrite edit_eq.
  pose proof (show_table_quiet self grid w d H) as Hq.
  pose proof (show_table_returns self grid w) as Hret.
  destruct (show_table self grid w) as [w1 [[cols r]|e]]; cbn [fst] in Hq.
  2:{ split; [by eapply quiet_heap|]. apply HPR. by eapply Hquiet. }
  destruct (Hret w1 d cols r H eq_refl) as [-> Hwidget]. clear Hret.
  set (info := (grid (display d)).2) in *.
  set (P' := fun w' => heap w' !! df self = Some d /\ P w').
  set (R' := fun w' => heap w' !! df self = Some d /\ R w').
  assert (forall step w', entry_step responds d info step w' -> P' w' ->
            holds P' R' (step w')) as Hstep'.
  { intros step w' Hg [H' Hw'].
    destruct (entry_step_frame _ _ _ _ _ Hg) as [Hh _].
    pose proof (Hstep step w' Hg Hw') as Hs.
    destruct (step w') as [w'' [[]|e]]; cbn [fst] in Hh;
      (split; [by rewrite Hh|done]). }
  assert (holds P' R' (process_edits responds self (json_cols_of d) w1))
    as Hfinal.
  { apply (process_edits_holds responds P' R' self _ w1 _ Hwidget).
    - intros w' [H' Hw']. split.
      + eapply quiet_heap; [apply ensure_processed_quiet|done].
      + eapply Hquiet; [done|apply ensure_processed_quiet].
    - intros entry w' Hin HP'. apply Hstep'; [|done].
      destruct HP' as [H' _]. by apply (edited_entry_step _ self).
    - intros row w' Hin HP'. apply Hstep'; [|done].
      by apply added_entry_step.
    - intros idx w' Hin HP'. apply Hstep'; [|done].
      destruct HP' as [H' _]. by apply (deleted_entry_step _ self).
    - split; [by eapply quiet_heap|by eapply Hquiet]. }
  by destruct (process_edits responds self (json_cols_of d) w1)
    as [w2 [[]|e]].
Qed.

(** The same, for a property that holds however the render ends. *)
Lemma render_keeps (responds : list event -> event -> bool)
    (P : world -> Prop) (self : DynamoDBTableEditor) (d : DataFrame)
    (grid : DataFrame -> DataFrame * EditInfo) (w : world) :
  (forall w w', P w -> quiet w w' -> P w') ->
  (forall c p w, is_store_call c = true ->
     from_diff d (grid (display d)).2 c -> records c (the_processed w) p ->
     P w -> P (call_outcome responds c p w).1) ->
  heap w !! df self = Some d -> P w ->
  heap (edit responds self grid w).1 !! df self = Some d /\
  P (edit responds self grid w).1.
Proof.
  intros Hquiet Hcall H Hw.
  pose proof (render_steps responds P P self d grid w Hquiet
                (fun _ Hw => Hw)) as Hr.
  assert (forall step w,
            entry_step responds d (grid (display d)).2 step w -> P w ->
            holds P P (step w)) as Hstep.
  { intros step w0 [[o ->]|(c & p & -> & Hc & Hd & Hp)] Hw0.
    - by destruct o.
    - pose proof (Hcall c p w0 Hc Hd Hp Hw0) as Hout.
      by destruct (call_outcome responds c p w0) as [w1 [[]|e]]. }
  specialize (Hr Hstep H Hw).
  by destruct (edit responds self grid w) as [w' [r|e]].
Qed.

(** ** Store calls come from the diff *)

Lemma not_store_call_from_diff (d : DataFrame) (info : EditInfo) (e : event) :
  is_store_call e = false -> from_diff d info e.
Proof. by destruct e. Qed.

Lemma call_outcome_trace (responds : list event -> event -> bool) (c : event)
    (p : ProcessedEdits) (w : world) :
  trace (call_outcome responds c p w).1 = trace w ++ [c].
Proof. unfold call_outcome. by destruct (responds _ _). Qed.

(** X1. Whatever the grid reports and whatever the store answers, every
    store call that a render makes applies an entry of the diff: a
    [modify_item] has the row key at the position of an edited-rows entry
    and its decoded columns, a [put_item] has the key and the other columns
    of a decoded added row, a [del_item] has the row key at a deleted
    position. A render whose diff is empty makes no store call. *)
Theorem calls_come_from_diff (responds : list event -> event -> bool)
    (self : DynamoDBTableEditor) (d : DataFrame)
    (grid : DataFrame -> DataFrame * EditInfo) (w : world) :
  heap w !! df self = Some d ->
  exists evs,
    trace (edit responds self grid w).1 = trace w ++ evs /\
    Forall (from_diff d (grid (display d)).2) evs /\
    ((grid (display d)).2 = _DEFAULT_EDIT_INFO ->
     Forall (fun e => is_store_call e = false) evs).
Proof.
  intros H.
  set (info := (grid (display d)).2).
  set (P := fun w1 : world =>
         exists evs, trace w1 = trace w ++ evs /\
                     Forall (from_diff d info) evs).
  destruct (render_keeps responds P self d grid w) as [_ (evs & Htr & Hall)];
    [| |done|by exists []; rewrite app_nil_r|].
  - intros w1 w2 (evs & Htr & Hall) (_ & _ & _ & evs' & Htr' & Hq).
    exists (evs ++ evs'). split; [by rewrite Htr', Htr, app_assoc|].
    apply Forall_app. split; [done|].
    eapply Forall_impl; [done|]. apply not_store_call_from_diff.
  - intros c p w1 _ Hd _ (evs & Htr & Hall). exists (evs ++ [c]).
    split; [by rewrite call_outcome_trace, Htr, app_assoc|].
    apply Forall_app. split; [done|]. by constructor.
  - exists evs. split; [done|]. split; [done|].
    intros Hempty. eapply Forall_impl; [done|].
    intros e He. subst info. rewrite Hempty in He.
    destruct e; try done; simpl in He.
    + destruct He as (? & ? & Hin & _). by apply elem_of_nil in Hin.
    + destruct He as (? & ? & Hin & _). by apply elem_of_nil in Hin.
    + destruct He as (? & Hin & _). by apply elem_of_nil in Hin.
Qed.

(** ** The applied-edits record follows the calls that the store accepted *)

Lemma extends_refl (p : ProcessedEdits) : extends p p.
Proof. by split; [|split]. Qed.

Lemma extends_trans (p q r : ProcessedEdits) :
  extends p q -> extends q r -> extends p r.
Proof.
  intros (He & Ha & Hd) (He' & Ha' & Hd').
  split; [auto|]. split; by etrans.
Qed.

Lemma records_extends (c : event) (p0 p : ProcessedEdits) :
  records c p0 p -> extends p0 p.
Proof.
  destruct c as [k r|k r|k| |]; simpl; try done.
  - intros [idx ->]. split; [|done]. intros i Hi. simpl.
    destruct (decide (i = idx)) as [->|Hne].
    + rewrite lookup_insert_eq. by eexists.
    + by rewrite lookup_insert_ne.
  - intros (repr & _ & ->). split; [done|]. split; [|done].
    by apply prefix_app_r.
  - intros ->. split; [done|]. split; [done|]. by apply prefix_app_r.
Qed.

(** X2. Over a render the applied-edits record only grows: a position of
    the edited rows stays recorded, and the recorded added rows and deleted
    keys stay, in their order, at the head of the lists. The record changes
    only when the store accepts a call: a render in which no call was
    accepted leaves it as it was. *)
Theorem record_follows_accepted_calls
    (responds : list event -> event -> bool) (self : DynamoDBTableEditor)
    (d : DataFrame) (grid : DataFrame -> DataFrame * EditInfo) (w : world) :
  heap w !! df self = Some d ->
  extends (the_processed w) (the_processed (edit responds self grid w).1) /\
  (accepted responds is_store_call (trace w)
   <= accepted responds is_store_call (trace (edit responds self grid w).1))%nat /\
  (accepted responds is_store_call (trace (edit responds self grid w).1)
   = accepted responds is_store_call (trace w) ->
   the_processed (edit responds self grid w).1 = the_processed w).
Proof.
  intros H.
  set (P := fun w1 : world =>
         extends (the_processed w) (the_processed w1) /\
         (accepted responds is_store_call (trace w)
          <= accepted responds is_store_call (trace w1))%nat /\
         (accepted responds is_store_call (trace w1)
          = accepted responds is_store_call (trace w) ->
          the_processed w1 = the_processed w)).
  destruct (render_keeps responds P self d grid w) as [_ HP]; try done.
  - intros w1 w2 (He & Hle & Heq) Hq. unfold P.
    rewrite (accepted_quiet responds is_store_call (fun _ E => E) _ _ Hq).
    destruct Hq as (_ & _ & Hp & _). by rewrite Hp.
  - intros c p w1 Hc _ Hp (He & Hle & Heq). unfold P, call_outcome.
    destruct (responds (trace w1) c) eqn:Hr;
      cbn [fst trace log set_processed the_processed default_edit_info];
      rewrite accepted_snoc, Hc, Hr; simpl.
    + split; [|split; [lia|intros E; lia]].
      eapply extends_trans; [done|]. by apply (records_extends c).
    + rewrite Nat.add_0_r. done.
Qed.

(** ** The frames and the table of the session *)

Lemma edit_frame (responds : list event -> event -> bool)
    (self : DynamoDBTableEditor) (d : DataFrame)
    (grid : DataFrame -> DataFrame * EditInfo) (w : world) :
  heap w !! df self = Some d ->
  (exists new, heap (edit responds self grid w).1 = heap w ++ new) /\
  data_editor_data (session (edit responds self grid w).1)
  = data_editor_data (session w).
Proof.
  intros H.
  set (P := fun w1 : world =>
         (exists new, heap w1 = heap w ++ new) /\
         data_editor_data (session w1) = data_editor_data (session w)).
  destruct (render_keeps responds P self d grid w) as [Hd [Hh Hs]];
    try done.
  - intros w1 w2 ([new Hn] & Hs) ([ext He] & Hdata & _). split.
    + exists (new ++ ext). by rewrite He, Hn, app_assoc.
    + by rewrite Hdata.
  - intros c p w1 _ _ _ Hw1. unfold P, call_outcome.
    by destruct (responds (trace w1) c).
  - split; [exists []; by rewrite app_nil_r|done].
Qed.

(** X3. A render changes no DataFrame object that existed before it, and
    leaves the session's table key as it was: the frames it makes are new
    objects, so the table of the session is the one that was fetched,
    whatever edits were applied to the store. *)
Theorem edit_keeps_frames (responds : list event -> event -> bool)
    (self : DynamoDBTableEditor) (d : DataFrame)
    (grid : DataFrame -> DataFrame * EditInfo) (w : world) :
  heap w !! df self = Some d ->
  (forall r d0, heap w !! r = Some d0 ->
     heap (edit responds self grid w).1 !! r = Some d0) /\
  heap (edit responds self grid w).1 !! df self = Some d /\
  data_editor_data (session (edit responds self grid w).1)
  = data_editor_data (session w).
Proof.
  intros H. destruct (edit_frame responds self d grid w H) as [[new Hn] Hs].
  assert (forall r d0, heap w !! r = Some d0 ->
            heap (edit responds self grid w).1 !! r = Some d0) as Hold.
  { intros r d0 Hr. rewrite Hn. by apply lookup_app_l_Some. }
  auto.
Qed.

(** ** One call per entry at most *)

Lemma store_calls_snoc (e : event) (tr : list event) :
  store_calls (tr ++ [e])
  = (store_calls tr + if is_store_call e then 1 else 0)%nat.
Proof. apply calls_of_snoc. Qed.

Lemma entry_step_calls (responds : list event -> event -> bool)
    (d : DataFrame) (info : EditInfo) (step : M unit) (w : world) :
  entry_step responds d info step w ->
  (store_calls (trace (step w).1) <= store_calls (trace w) + 1)%nat.
Proof.
  intros [[o ->]|(c & p & -> & Hc & _)]; [simpl; lia|].
  rewrite call_outcome_trace, store_calls_snoc, Hc. lia.
Qed.

Lemma for_each_calls {A : Type} (I : world -> Prop) (xs : list A)
    (body : A -> M unit) :
  (forall x w, x ∈ xs -> I w ->
     I (body x w).1 /\
     (store_calls (trace (body x w).1) <= store_calls (trace w) + 1)%nat) ->
  forall w, I w ->
    I (for_each xs body w).1 /\
    (store_calls (trace (for_each xs body w).1)
     <= store_calls (trace w) + length xs)%nat.
Proof.
  induction xs as [|x xs IH]; intros Hbody w Hw.
  - simpl. split; [done|lia].
  - rewrite for_each_cons.
    destruct (Hbody x w (list_elem_of_here _ _) Hw) as [Hx Hle].
    destruct (body x w) as [w' [[]|e]]; cbn [fst] in *.
    + destruct (IH (fun y w0 Hy => Hbody y w0 (list_elem_of_further _ _ _ Hy))
                  w' Hx) as [HI Hle'].
      split; [done|]. simpl. lia.
    + split; [done|]. simpl. lia.
Qed.

(** X4. A render makes at most one store call for each entry of the diff:
    the number of store calls is at most the number of edited, added and
    deleted rows that the grid reports. *)
Theorem one_call_per_entry (responds : list event -> event -> bool)
    (self : DynamoDBTableEditor) (d : DataFrame)
    (grid : DataFrame -> DataFrame * EditInfo) (w : world) :
  heap w !! df self = Some d ->
  (store_calls (trace (edit responds self grid w).1)
   <= store_calls (trace w)
      + length (edited_rows (grid (display d)).2)
      + length (added_rows (grid (display d)).2)
      + length (deleted_rows (grid (display d)).2))%nat.
Proof.
  intros H. rewrite edit_eq.
  pose proof (show_table_quiet self grid w d H) as Hq.
  pose proof (show_table_returns self grid w) as Hret.
  pose proof (calls_of_quiet is_store_call (fun _ E => E) _ _ Hq) as Hcalls.
  fold (store_calls (trace (show_table self grid w).1)) in Hcalls.
  fold (store_calls (trace w)) in Hcalls.
  destruct (show_table self grid w) as [w1 [[cols r]|e]]; cbn [fst] in *.
  2:{ lia. }
  destruct (Hret w1 d cols r H eq_refl) as [-> Hwidget]. clear Hret.
  set (info := (grid (display d)).2) in *.
  assert (heap w1 !! df self = Some d) as H1 by (by eapply quiet_heap).
  set (I := fun w0 : world => heap w0 !! df self = Some d).
  assert (forall w0, I w0 ->
            I (ensure_processed w0) /\
            store_calls (trace (ensure_processed w0)) = store_calls (trace w0))
    as Hens.
  { intros w0 H0. unfold I, ensure_processed.
    by destruct (data_editor_processed (session w0)). }
  assert (forall step w0, entry_step responds d info step w0 -> I w0 ->
            I (step w0).1 /\
            (store_calls (trace (step w0).1)
             <= store_calls (trace w0) + 1)%nat) as Hstep.
  { intros step w0 Hs H0. split; [|by eapply entry_step_calls].
    destruct (entry_step_frame _ _ _ _ _ Hs) as [Hh _]. unfold I.
    by rewrite Hh. }
  rewrite (process_edits_run _ _ _ _ _ Hwidget).
  destruct (Hens w1 H1) as [Ha Hca].
  destruct (for_each_calls I (edited_rows info)
              (process_edited_row responds self (json_cols_of d))
              (fun x w0 Hx H0 =>
                 Hstep _ w0 (edited_entry_step responds self d info x w0 H0 Hx)
                   H0)
              _ Ha) as [Hb Hcb].
  destruct (for_each (edited_rows info) _ (ensure_processed w1))
    as [w2 [[]|e]]; cbn [fst] in *; [|lia].
  destruct (Hens w2 Hb) as [Hc Hcc].
  destruct (for_each_calls I (added_rows info)
              (process_added_row responds (json_cols_of d))
              (fun x w0 Hx H0 =>
                 Hstep _ w0 (added_entry_step responds d info x w0 Hx) H0)
              _ Hc) as [Hd Hcd].
  destruct (for_each (added_rows info) _ (ensure_processed w2))
    as [w3 [[]|e]]; cbn [fst] in *; [|lia].
  destruct (Hens w3 Hd) as [He Hce].
  destruct (for_each_calls I (deleted_rows info)
              (process_deleted_row responds self)
              (fun x w0 Hx H0 =>
                 Hstep _ w0 (deleted_entry_step responds self d info x w0 H0 Hx)
                   H0)
              _ He) as [Hf Hcf].
  destruct (for_each (deleted_rows info) _ (ensure_processed w3))
    as [w4 [[]|e]]; cbn [fst] in *; lia.
Qed.

(** ** A render that returned is not applied again *)

Lemma for_each_skips {A : Type} (xs : list A) (body : A -> M unit)
    (w : world) :
  (forall x, x ∈ xs -> body x w = (w, Ret tt)) ->
  for_each xs body w = (w, Ret tt).
Proof.
  induction xs as [|x xs IH]; intros Hbody; [done|].
  rewrite for_each_cons, (Hbody x) by left.
  apply IH. intros y Hy. apply Hbody. by right.
Qed.

Lemma ensure_processed_twice (w : world) :
  ensure_processed (ensure_processed w) = ensure_processed w.
Proof.
  unfold ensure_processed.
  by destruct (data_editor_processed (session w)) eqn:E; simpl; rewrite ?E.
Qed.

Lemma ensure_processed_frame (w : world) :
  heap (ensure_processed w) = heap w /\
  the_processed (ensure_processed w) = the_processed w /\
  trace (ensure_processed w) = trace w.
Proof.
  unfold ensure_processed. by destruct (data_editor_processed (session w)).
Qed.

(** The loops on a diff whose entries are all recorded make no call. *)
Lemma process_edits_settled (responds : list event -> event -> bool)
    (self : DynamoDBTableEditor) (d : DataFrame) (info : EditInfo)
    (w : world) :
  heap w !! df self = Some d ->
  data_editor_widget (session w) = Some info ->
  settled d info (the_processed w) ->
  process_edits responds self (json_cols_of d) w
  = (ensure_processed w, Ret tt).
Proof.
  intros H Hinfo (Hed & Hadd & Hdel).
  destruct (ensure_processed_frame w) as (Hh & Hp & _).
  rewrite (process_edits_run _ _ _ _ _ Hinfo).
  rewrite for_each_skips.
  2:{ intros [idx row] Hin.
      rewrite (process_edited_row_run _ _ _ _ _ _ d) by (by rewrite Hh).
      rewrite Forall_forall in Hed.
      destruct (Hed _ Hin) as (k & r & Hk & Hr & Hal). simpl in *.
      by rewrite Hk, Hr, Hp, Hal. }
  rewrite ensure_processed_twice, for_each_skips.
  2:{ intros row Hin. rewrite process_added_row_run.
      rewrite Forall_forall in Hadd.
      destruct (Hadd _ Hin) as (dec & k & repr & Hd & Hk & Hr & Hrec).
      rewrite Hd, Hk. cbv zeta. rewrite Hr, Hp.
      by rewrite bool_decide_eq_true_2. }
  rewrite ensure_processed_twice, for_each_skips; [done|].
  intros idx Hin.
  rewrite (process_deleted_row_run _ _ _ _ d) by (by rewrite Hh).
  rewrite Forall_forall in Hdel.
  destruct (Hdel _ Hin) as (k & Hk & Hrec). by rewrite Hk, Hp, Hrec.
Qed.

Lemma py_in_prefix (x : pyval) (l l' : list pyval) :
  l `prefix_of` l' -> py_in x l = true -> py_in x l' = true.
Proof. intros [k ->] H. by rewrite py_in_app, H. Qed.

Section settling.
Variable responds : list event -> event -> bool.
Variable self : DynamoDBTableEditor.
Variable d : DataFrame.

(** What a loop that returned leaves: the frames as they were, its entries
    recorded, and the parts of the record that earlier loops rely on. *)
Lemma edited_loop_settles (entries : list (nat * pydict)) (w w' : world) :
  heap w !! df self = Some d ->
  NoDup (map fst entries) ->
  Forall (fun entry => wf_val (PyDict entry.2) = true) entries ->
  for_each entries (process_edited_row responds self (json_cols_of d)) w
  = (w', Ret tt) ->
  heap w' = heap w /\
  Forall (edited_settled d (the_processed w')) entries /\
  forall idx, idx ∉ map fst entries ->
    processed_edited_rows (the_processed w') !! idx
    = processed_edited_rows (the_processed w) !! idx.
Proof.
  revert w. induction entries as [|[idx row] entries IH];
    intros w H Hnd Hwf Hrun.
  - injection Hrun as <-. done.
  - rewrite for_each_cons in Hrun.
    change (map fst ((idx, row) :: entries)) with (idx :: map fst entries)
      in *.
    apply NoDup_cons in Hnd as [Hidx Hnd].
    apply Forall_cons in Hwf as [Hrow Hwf]. cbn [snd] in Hrow.
    rewrite (process_edited_row_run _ _ _ _ _ _ _ H) in Hrun.
    destruct (index d !! idx) as [k|] eqn:Hk; [|done].
    destruct (deserialize_mapping row (json_cols_of d)) as [r|] eqn:Hr;
      [|done].
    assert (exists w1,
              for_each entries
                (process_edited_row responds self (json_cols_of d)) w1
              = (w', Ret tt) /\
              heap w1 = heap w /\
              already_edited (the_processed w1) idx r = true /\
              forall i, i <> idx ->
                processed_edited_rows (the_processed w1) !! i
                = processed_edited_rows (the_processed w) !! i)
      as (w1 & Hrun1 & Hh1 & Hal1 & Hother1).
    { destruct (already_edited (the_processed w) idx r) eqn:Hal.
      - by exists w.
      - unfold call_outcome in Hrun.
        destruct (responds (trace w) (modify_item k r)); [|done].
        eexists. split; [exact Hrun|]. split; [done|]. split.
        + unfold already_edited.
          cbn [the_processed default_edit_info set_processed with_edited
               processed_edited_rows].
          rewrite lookup_insert_eq.
          apply py_eq_refl. by eapply deserialize_mapping_wf.
        + intros i Hi.
          cbn [the_processed default_edit_info set_processed with_edited
               processed_edited_rows log].
          by rewrite lookup_insert_ne. }
    destruct (IH w1) as (Hh & Hall & Hother); try done.
    { by rewrite Hh1. }
    split; [by rewrite Hh, Hh1|]. split.
    + constructor; [|done]. exists k, r. cbn [fst snd].
      split; [done|]. split; [done|].
      unfold already_edited in *. by rewrite Hother.
    + intros i Hi. apply not_elem_of_cons in Hi as [Hne Hi].
      rewrite Hother by done. by apply Hother1.
Qed.

Lemma added_loop_settles (rows : list pydict) (w w' : world) :
  for_each rows (process_added_row responds (json_cols_of d)) w
  = (w', Ret tt) ->
  heap w' = heap w /\
  Forall (added_settled d (the_processed w')) rows /\
  processed_edited_rows (the_processed w')
  = processed_edited_rows (the_processed w) /\
  processed_added_rows (the_processed w)
    `prefix_of` processed_added_rows (the_processed w').
Proof.
  revert w. induction rows as [|row rows IH]; intros w Hrun.
  - injection Hrun as <-. done.
  - rewrite for_each_cons, process_added_row_run in Hrun.
    destruct (deserialize_mapping row (json_cols_of d)) as [dec|] eqn:Hd;
      [|done].
    destruct (dict_get "_index" dec) as [k|] eqn:Hk; [|done].
    cbv zeta in Hrun.
    destruct (json_dumps true (PyDict (dict_pop "_index" dec)))
      as [repr|] eqn:Hr; [|done].
    assert (exists w1,
              for_each rows (process_added_row responds (json_cols_of d)) w1
              = (w', Ret tt) /\
              heap w1 = heap w /\
              repr ∈ processed_added_rows (the_processed w1) /\
              processed_edited_rows (the_processed w1)
              = processed_edited_rows (the_processed w) /\
              processed_added_rows (the_processed w)
                `prefix_of` processed_added_rows (the_processed w1))
      as (w1 & Hrun1 & Hh1 & Hin1 & He1 & Hp1).
    { case_bool_decide as Hin.
      - by exists w.
      - unfold call_outcome in Hrun.
        destruct (responds (trace w) _); [|done].
        eexists. split; [exact Hrun|]. split; [done|]. simpl.
        split; [apply elem_of_app; right; left|].
        split; [done|]. by apply prefix_app_r. }
    destruct (IH w1 Hrun1) as (Hh & Hall & He & Hp).
    split; [by rewrite Hh, Hh1|]. split; [|split].
    + constructor; [|done]. exists dec, k, repr.
      split; [done|]. split; [done|]. split; [done|].
      destruct Hp as [l ->]. apply elem_of_app. by left.
    + by rewrite He.
    + by etrans.
Qed.

Lemma deleted_loop_settles (positions : list nat) (w w' : world) :
  heap w !! df self = Some d ->
  Forall (fun index_val => wf_val index_val = true) (index d) ->
  for_each positions (process_deleted_row responds self) w = (w', Ret tt) ->
  heap w' = heap w /\
  Forall (deleted_settled d (the_processed w')) positions /\
  processed_edited_rows (the_processed w')
  = processed_edited_rows (the_processed w) /\
  processed_added_rows (the_processed w')
  = processed_added_rows (the_processed w) /\
  processed_deleted_rows (the_processed w)
    `prefix_of` processed_deleted_rows (the_processed w').
Proof.
  intros H Hwf. revert w H.
  induction positions as [|idx positions IH]; intros w H Hrun.
  - injection Hrun as <-. done.
  - rewrite for_each_cons, (process_deleted_row_run _ _ _ _ _ H) in Hrun.
    destruct (index d !! idx) as [k|] eqn:Hk; [|done].
    assert (wf_val k = true) as Hwfk.
    { rewrite Forall_forall in Hwf. apply Hwf.
      by eapply list_elem_of_lookup_2. }
    assert (exists w1,
              for_each positions (process_deleted_row responds self) w1
              = (w', Ret tt) /\
              heap w1 = heap w /\
              py_in k (processed_deleted_rows (the_processed w1)) = true /\
              processed_edited_rows (the_processed w1)
              = processed_edited_rows (the_processed w) /\
              processed_added_rows (the_processed w1)
              = processed_added_rows (the_processed w) /\
              processed_deleted_rows (the_processed w)
                `prefix_of` processed_deleted_rows (the_processed w1))
      as (w1 & Hrun1 & Hh1 & Hin1 & He1 & Ha1 & Hp1).
    { destruct (py_in k (processed_deleted_rows (the_processed w))) eqn:Hin.
      - by exists w.
      - unfold call_outcome in Hrun.
        destruct (responds (trace w) _); [|done].
        eexists. split; [exact Hrun|]. split; [done|]. simpl.
        split.
        { rewrite py_in_app. simpl. rewrite py_eq_refl by done.
          by rewrite orb_true_r. }
        split; [done|]. split; [done|]. by apply prefix_app_r. }
    destruct (IH w1) as (Hh & Hall & He & Ha & Hp); [by rewrite Hh1|done|].
    split; [by rewrite Hh, Hh1|]. split; [|split; [|split]].
    + constructor; [|done]. exists k. split; [done|].
      by eapply py_in_prefix.
    + by rewrite He.
    + by rewrite Ha.
    + by etrans.
Qed.

Lemma edited_settled_keeps (p p' : ProcessedEdits) (entry : nat * pydict) :
  processed_edited_rows p' = processed_edited_rows p ->
  edited_settled d p entry -> edited_settled d p' entry.
Proof.
  intros He (k & r & Hk & Hr & Hal). exists k, r.
  split; [done|]. split; [done|]. unfold already_edited in *.
  by rewrite He.
Qed.

Lemma added_settled_keeps (p p' : ProcessedEdits) (row : pydict) :
  processed_added_rows p' = processed_added_rows p ->
  added_settled d p row -> added_settled d p' row.
Proof.
  intros Ha (dec & k & repr & ? & ? & ? & Hin). exists dec, k, repr.
  by rewrite Ha.
Qed.

(** The loops that returned leave every entry of the diff recorded. *)
Lemma process_edits_settles (info : EditInfo) (w w' : world) :
  heap w !! df self = Some d ->
  data_editor_widget (session w) = Some info ->
  NoDup (map fst (edited_rows info)) ->
  Forall (fun entry => wf_val (PyDict entry.2) = true) (edited_rows info) ->
  Forall (fun index_val => wf_val index_val = true) (index d) ->
  process_edits responds self (json_cols_of d) w = (w', Ret tt) ->
  settled d info (the_processed w').
Proof.
  intros H Hinfo Hnd Hwf Hwfi. rewrite (process_edits_run _ _ _ _ _ Hinfo).
  destruct (for_each (edited_rows info) _ (ensure_processed w))
    as [w1 [[]|e]] eqn:H1; [|done].
  destruct (for_each (added_rows info) _ (ensure_processed w1))
    as [w2 [[]|e]] eqn:H2; [|done].
  intros H3.
  destruct (ensure_processed_frame w) as (Hh0 & _ & _).
  destruct (edited_loop_settles _ _ _ ltac:(by rewrite Hh0) Hnd Hwf H1)
    as (Hh1 & Hed & _).
  destruct (ensure_processed_frame w1) as (Hh1' & Hp1 & _).
  destruct (added_loop_settles _ _ _ H2) as (Hh2 & Hadd & He2 & _).
  destruct (ensure_processed_frame w2) as (Hh2' & Hp2 & _).
  destruct (deleted_loop_settles _ _ _
              ltac:(by rewrite Hh2', Hh2, Hh1', Hh1, Hh0) Hwfi H3)
    as (_ & Hdel & He3 & Ha3 & _).
  split; [|split; [|done]].
  - eapply Forall_impl; [exact Hed|]. intros entry.
    apply edited_settled_keeps.
    by rewrite He3, Hp2, He2, Hp1.
  - eapply Forall_impl; [exact Hadd|]. intros row.
    apply added_settled_keeps. by rewrite Ha3, Hp2.
Qed.
End settling.

Lemma settled_incl (d : DataFrame) (info info' : EditInfo)
    (p : ProcessedEdits) :
  edited_rows info' ⊆ edited_rows info ->
  added_rows info' ⊆ added_rows info ->
  deleted_rows info' ⊆ deleted_rows info ->
  settled d info p -> settled d info' p.
Proof.
  intros He Ha Hd (H1 & H2 & H3). unfold settled.
  rewrite !Forall_forall in *.
  split; [|split]; intros x Hx; [apply H1|apply H2|apply H3]; auto.
Qed.

(** X5. Applying a diff is idempotent: when a render has returned, a render
    that follows it and reports entries of the same diff makes no store
    call and leaves the applied-edits record as it is, whatever the store
    would answer. The positions of the edited rows are distinct, as the
    keys of a dictionary are. *)
Theorem rerender_makes_no_call (responds : list event -> event -> bool)
    (self : DynamoDBTableEditor) (d : DataFrame)
    (grid1 grid2 : DataFrame -> DataFrame * EditInfo) (w w1 : world)
    (edited_df : ref) :
  heap w !! df self = Some d ->
  NoDup (map fst (edited_rows (grid1 (display d)).2)) ->
  Forall (fun entry => wf_val (PyDict entry.2) = true)
    (edited_rows (grid1 (display d)).2) ->
  Forall (fun index_val => wf_val index_val = true) (index d) ->
  edit responds self grid1 w = (w1, Ret edited_df) ->
  edited_rows (grid2 (display d)).2 ⊆ edited_rows (grid1 (display d)).2 ->
  added_rows (grid2 (display d)).2 ⊆ added_rows (grid1 (display d)).2 ->
  deleted_rows (grid2 (display d)).2 ⊆ deleted_rows (grid1 (display d)).2 ->
  (exists evs,
     trace (edit responds self grid2 w1).1 = trace w1 ++ evs /\
     Forall (fun e => is_store_call e = false) evs) /\
  the_processed (edit responds self grid2 w1).1 = the_processed w1.
Proof.
  intros H Hnd Hwf Hwfi Hrun He Ha Hd.
  assert (heap w1 !! df self = Some d /\
          settled d (grid1 (display d)).2 (the_processed w1)) as [H1 Hset].
  { rewrite edit_eq in Hrun.
    pose proof (show_table_quiet self grid1 w d H) as Hq.
    pose proof (show_table_returns self grid1 w) as Hret.
    destruct (show_table self grid1 w) as [w0 [[cols r]|e]]; [|done].
    destruct (Hret w0 d cols r H eq_refl) as [-> Hwidget]. clear Hret.
    cbn [fst] in Hq. pose proof (quiet_heap _ _ _ _ Hq H) as H0.
    destruct (process_edits responds self (json_cols_of d) w0)
      as [w' [[]|e]] eqn:Hp; [|done].
    injection Hrun as -> _.
    pose proof (process_edits_holds responds
                  (fun w' => heap w' !! df self = Some d)
                  (fun w' => heap w' !! df self = Some d)
                  self (json_cols_of d) w0 _ Hwidget) as Hheap.
    rewrite Hp in Hheap. split.
    - apply Hheap; try done.
      + intros w' H'. eapply quiet_heap; [apply ensure_processed_quiet|done].
      + intros entry w' Hin H'.
        pose proof (entry_step_frame _ _ _ _ _
                      (edited_entry_step responds self d _ entry w' H' Hin))
          as [Hh _].
        destruct (process_edited_row _ _ _ _ w') as [w'' [[]|e]];
          simpl in *; by rewrite Hh.
      + intros row w' Hin H'.
        pose proof (entry_step_frame _ _ _ _ _
                      (added_entry_step responds d _ row w' Hin))
          as [Hh _].
        destruct (process_added_row _ _ _ w') as [w'' [[]|e]];
          simpl in *; by rewrite Hh.
      + intros idx w' Hin H'.
        pose proof (entry_step_frame _ _ _ _ _
                      (deleted_entry_step responds self d _ idx w' H' Hin))
          as [Hh _].
        destruct (process_deleted_row _ _ _ w') as [w'' [[]|e]];
          simpl in *; by rewrite Hh.
    - by eapply process_edits_settles. }
  rewrite edit_eq.
  pose proof (show_table_quiet self grid2 w1 d H1) as Hq.
  pose proof (show_table_returns self grid2 w1) as Hret.
  destruct (show_table self grid2 w1) as [w2 [[cols r]|e]]; cbn [fst] in Hq.
  2:{ destruct Hq as (_ & _ & Hp & evs & Htr & Hev). by eauto. }
  destruct (Hret w2 d cols r H1 eq_refl) as [-> Hwidget]. clear Hret.
  rewrite (process_edits_settled responds self d (grid2 (display d)).2 w2);
    cbn [fst].
  - destruct (ensure_processed_frame w2) as (_ & Hp2 & Htr2).
    destruct Hq as (_ & _ & Hp & evs & Htr & Hev).
    rewrite Htr2, Hp2. by eauto.
  - by eapply quiet_heap.
  - done.
  - destruct Hq as (_ & _ & Hp & _). rewrite Hp.
    by eapply settled_incl.
Qed.

(** ** The table of the session is fetched once *)

Lemma init_run (items : DataFrame) (w : world) :
  __init__ items w
  = match data_editor_data (session w) with
    | Some r => (w, Ret {| df := r |})
    | None =>
        (set_data (length (heap w)) (set_heap (heap w ++ [items]) w),
         Ret {| df := length (heap w) |})
    end.
Proof.
  unfold __init__. run_unfold.
  by destruct (data_editor_data (session w)).
Qed.

Lemma editable_demo_eq (responds : list event -> event -> bool)
    (items : DataFrame) (grid : DataFrame -> DataFrame * EditInfo)
    (w : world) :
  (editable_demo responds items grid w).1
  = match __init__ items w with
    | (w1, Ret table_editor) => (edit responds table_editor grid w1).1
    | (w1, Raise _) => w1
    end.
Proof.
  unfold editable_demo. unfold mbind, M_bind, mret, M_ret.
  destruct (__init__ items w) as [w1 [ed|e]]; [|done].
  by destruct (edit responds ed grid w1) as [w2 [r|e]].
Qed.

(** A run of the page in a session that holds its table keeps it. *)
Lemma editable_demo_keeps_table (responds : list event -> event -> bool)
    (items : DataFrame) (grid : DataFrame -> DataFrame * EditInfo)
    (w : world) (r : ref) (d : DataFrame) :
  data_editor_data (session w) = Some r -> heap w !! r = Some d ->
  data_editor_data (session (editable_demo responds items grid w).1) = Some r /\
  heap (editable_demo responds items grid w).1 !! r = Some d.
Proof.
  intros Hkey Hr. rewrite editable_demo_eq, init_run, Hkey.
  destruct (edit_frame responds {| df := r |} d grid w Hr) as [[new Hn] Hs].
  split; [by rewrite Hs|]. rewrite Hn. by apply lookup_app_l_Some.
Qed.

Lemma renders_keep_table (responds : list event -> event -> bool)
    (runs : list (DataFrame * (DataFrame -> DataFrame * EditInfo)))
    (w : world) (r : ref) (d : DataFrame) :
  data_editor_data (session w) = Some r -> heap w !! r = Some d ->
  data_editor_data (session (renders responds runs w)) = Some r /\
  heap (renders responds runs w) !! r = Some d.
Proof.
  revert w. induction runs as [|[items grid] runs IH]; intros w Hkey Hr.
  - done.
  - destruct (editable_demo_keeps_table responds items grid w r d Hkey Hr)
      as [Hkey' Hr'].
    cbn [renders fold_left fst snd]. by apply IH.
Qed.

(** X6. The table is fetched at the first run of a session and never
    again: [__init__] stores the items under the session's key when the key
    is not set, and takes the stored table otherwise, and no run changes
    the stored table. So after any number of runs the table of the session
    is the one fetched by the first, whatever the store holds since and
    whatever edits were applied. *)
Theorem table_fetched_once (responds : list event -> event -> bool)
    (items : DataFrame) (grid : DataFrame -> DataFrame * EditInfo)
    (runs : list (DataFrame * (DataFrame -> DataFrame * EditInfo)))
    (w : world) :
  data_editor_data (session w) = None ->
  data_editor_data (session (renders responds ((items, grid) :: runs) w))
  = Some (length (heap w)) /\
  heap (renders responds ((items, grid) :: runs) w) !! length (heap w)
  = Some items /\
  forall items',
    __init__ items' (renders responds ((items, grid) :: runs) w)
    = (renders responds ((items, grid) :: runs) w,
       Ret {| df := length (heap w) |}).
Proof.
  intros Hkey.
  assert (data_editor_data
            (session (renders responds ((items, grid) :: runs) w))
          = Some (length (heap w)) /\
          heap (renders responds ((items, grid) :: runs) w) !! length (heap w)
          = Some items) as [Hk Hh].
  { cbn [renders fold_left fst snd]. apply renders_keep_table.
    - rewrite editable_demo_eq, init_run, Hkey.
      destruct (edit_frame responds {| df := length (heap w) |} items grid
                  (set_data (length (heap w))
                     (set_heap (heap w ++ [items]) w))) as [_ Hs].
      { simpl. by rewrite lookup_app_r, Nat.sub_diag. }
      by rewrite Hs.
    - rewrite editable_demo_eq, init_run, Hkey.
      destruct (edit_frame responds {| df := length (heap w) |} items grid
                  (set_data (length (heap w))
                     (set_heap (heap w ++ [items]) w))) as [[new Hn] _].
      { simpl. by rewrite lookup_app_r, Nat.sub_diag. }
      rewrite Hn. simpl. rewrite <- app_assoc.
      by rewrite lookup_app_r, Nat.sub_diag. }
  split; [done|]. split; [done|].
  intros items'. by rewrite init_run, Hk.
Qed.

(** * Further properties of the codec *)

(** ** The codec keeps the shape of what it is given *)

Lemma dict_set_present {A : Type} (k : string) (v : A)
    (X : list (string * A)) :
  is_Some (dict_get k X) -> map fst (dict_set k v X) = map fst X.
Proof.
  induction X as [|[k0 v0] X IH]; simpl; [by intros [? ?]|].
  destruct (String.eqb k0 k); [done|]. intros H. simpl. by rewrite IH.
Qed.

Lemma dict_get_labels {A : Type} (k : string) (X : list (string * A)) :
  is_Some (dict_get k X) <-> k ∈ map fst X.
Proof.
  induction X as [|[k0 v0] X IH]; simpl.
  - split; [by intros [? ?]|by intros ?%elem_of_nil].
  - destruct (String.eqb_spec k0 k) as [->|Hne].
    + split; [left|by eexists].
    + rewrite IH. split; [by right|].
      intros [?|?]%elem_of_cons; [congruence|done].
Qed.

Lemma dict_get_elem_of {A : Type} (k : string) (v : A)
    (X : list (string * A)) :
  NoDup (map fst X) -> (k, v) ∈ X -> dict_get k X = Some v.
Proof.
  induction X as [|[k0 v0] X IH]; simpl; intros Hnd Hin.
  - by apply elem_of_nil in Hin.
  - apply NoDup_cons in Hnd as [Hk0 Hnd].
    apply elem_of_cons in Hin as [[= -> ->]|Hin].
    + by rewrite String.eqb_refl.
    + destruct (String.eqb_spec k0 k) as [->|Hne]; [|by apply IH].
      exfalso. apply Hk0. apply list_elem_of_fmap. by exists (k, v).
Qed.

Lemma series_apply_length (f : pyval -> outcome pyval) (s s' : list pyval) :
  series_apply f s = Ret s' -> length s' = length s.
Proof.
  intros H%series_apply_Ret. symmetry. by eapply Forall2_length.
Qed.

Lemma columns_apply_shape (f : pyval -> outcome pyval)
    (handle : string -> exn -> exn) (cols : list string) (d : DataFrame) :
  index (columns_apply f handle cols d).1 = index d /\
  map fst (columns (columns_apply f handle cols d).1) = map fst (columns d) /\
  (forall c, c ∉ cols ->
     dict_get c (columns (columns_apply f handle cols d).1)
     = dict_get c (columns d)) /\
  (forall c s, dict_get c (columns d) = Some s ->
     exists s', dict_get c (columns (columns_apply f handle cols d).1)
                = Some s' /\ length s' = length s).
Proof.
  revert d. induction cols as [|c cols IH]; intros d.
  - simpl. split; [done|]. split; [done|]. split; [done|]. eauto.
  - cbn [columns_apply]. unfold column_apply.
    destruct (dict_get c (columns d)) as [s|] eqn:Hget.
    2:{ simpl. split; [done|]. split; [done|]. split; [done|]. eauto. }
    change (series_apply f s ≫= ?k)
      with (match series_apply f s with
            | Ret a => k a | Raise e => Raise e end).
    destruct (series_apply f s) as [s'|e0] eqn:Hs.
    2:{ simpl. split; [done|]. split; [done|]. split; [done|]. eauto. }
    destruct (IH {| index := index d; columns := dict_set c s' (columns d) |})
      as (Hidx & Hkeys & Hother & Hlen). cbn [index columns] in *.
    split; [done|]. split; [|split].
    + rewrite Hkeys. apply dict_set_present. by rewrite Hget.
    + intros c0 [Hne Hc0]%not_elem_of_cons.
      rewrite Hother by done. by apply dict_get_set_ne.
    + intros c0 s0 Hc0. destruct (String.eqb_spec c c0) as [<-|Hne].
      * destruct (Hlen c s') as (s1 & Hs1 & Hl1); [apply dict_get_set_eq|].
        exists s1. split; [done|]. rewrite Hl1.
        assert (s0 = s) as -> by congruence. by eapply series_apply_length.
      * apply Hlen. by rewrite dict_get_set_ne.
Qed.

Lemma deserialize_mapping_shape (cols : list string) (data data' : pydict) :
  deserialize_mapping data cols = Ret data' ->
  map fst data' = map fst data /\
  forall k, k ∉ cols -> dict_get k data' = dict_get k data.
Proof.
  revert data. induction cols as [|c cols IH]; intros data; simpl.
  - by intros [= <-].
  - destruct (dict_get c data) as [s|] eqn:Hget.
    + destruct (deserializer s) as [v|e]; [|done]. intros H.
      destruct (IH _ H) as [Hk Ho]. split.
      * rewrite Hk. apply dict_set_present. by rewrite Hget.
      * intros k [Hne Hk']%not_elem_of_cons. rewrite Ho by done.
        by apply dict_get_set_ne.
    + intros H. destruct (IH _ H) as [Hk Ho]. split; [done|].
      intros k [Hne Hk']%not_elem_of_cons. by apply Ho.
Qed.

(** X7. Serialization and deserialization keep the shape of the frame they
    work on, whether they return or raise: the same rows, the same columns
    in the same order, every column as long as it was, and the columns
    that are not JSON columns untouched; nothing else in the world changes.
    On a mapping, deserialization that returns keeps the keys in their
    order and the values at the other keys, and changes no state. *)
Theorem codec_keeps_shape (w : world) (df : ref) (d : DataFrame)
    (data : pydict) (json_cols : list string) :
  heap w !! df = Some d ->
  (forall step : M ref,
     step = _serialize_json_cols df json_cols \/
     step = _deserialize_json_cols df json_cols ->
     exists d',
       (step w).1 = set_heap (<[df := d']> (heap w)) w /\
       index d' = index d /\
       map fst (columns d') = map fst (columns d) /\
       (forall c, c ∉ json_cols ->
          dict_get c (columns d') = dict_get c (columns d)) /\
       (forall c s, dict_get c (columns d) = Some s ->
          exists s', dict_get c (columns d') = Some s' /\
                     length s' = length s)) /\
  (forall w' data',
     _deserialize_json_cols data json_cols w = (w', Ret data') ->
     w' = w /\ map fst data' = map fst data /\
     forall k, k ∉ json_cols -> dict_get k data' = dict_get k data).
Proof.
  intros H. split.
  - intros step [->| ->].
    + rewrite (serialize_run _ _ _ _ H). cbn [fst]. eexists.
      split; [done|]. apply columns_apply_shape.
    + rewrite (deserialize_df_run _ _ _ _ H). cbn [fst]. eexists.
      split; [done|]. apply columns_apply_shape.
  - intros w' data'. rewrite deserialize_mapping_run.
    intros [= <- Hd]. split; [done|]. by apply deserialize_mapping_shape.
Qed.

(** ** Serialization that fails *)


Lemma insert_item_elem {A : Type} (kv x : string * A) (l : list (string * A)) :
  x ∈ insert_item kv l <-> x = kv \/ x ∈ l.
Proof.
  induction l as [|kv' l IH]; simpl.
  - rewrite list_elem_of_singleton, elem_of_nil. tauto.
  - destruct (String.leb kv.1 kv'.1).
    + by rewrite elem_of_cons.
    + rewrite !elem_of_cons, IH. tauto.
Qed.

Lemma sort_items_elem {A : Type} (x : string * A) (l : list (string * A)) :
  x ∈ sort_items l <-> x ∈ l.
Proof.
  induction l as [|kv l IH]; simpl; [done|].
  by rewrite insert_item_elem, elem_of_cons, IH.
Qed.

Lemma first_error_eq (sort_keys : bool) (l : list pyval) :
  (fix first_error (l : list pyval) {struct l} : option exn :=
     match l with
     | [] => None
     | x :: l' =>
         match dumps_error sort_keys x with
         | Some e => Some e
         | None => first_error l'
         end
     end) l
  = list_find is_Some (map (dumps_error sort_keys) l) ≫= snd.
Proof.
  induction l as [|x l IH]; [done|]. cbn [map list_find].
  destruct (dumps_error sort_keys x) as [e|] eqn:Hx.
  - rewrite decide_True by done. done.
  - rewrite decide_False by (by intros []). rewrite IH.
    by destruct (list_find is_Some (map (dumps_error sort_keys) l)) as [[]|].
Qed.

Lemma errors_eq (sort_keys : bool) (d : pydict) :
  (fix errors (d : pydict) {struct d} : list (string * option exn) :=
     match d with
     | [] => []
     | (k, v) :: d' => (k, dumps_error sort_keys v) :: errors d'
     end) d
  = map (fun kv => (kv.1, dumps_error sort_keys kv.2)) d.
Proof. induction d as [|[k v] d IH]; [done|]. simpl. by rewrite IH. Qed.


Lemma find_error_None (l : list (option exn)) :
  list_find is_Some l ≫= snd = None <-> Forall (fun x => x = None) l.
Proof.
  destruct (list_find is_Some l) as [[i x]|] eqn:Hf; simpl.
  - apply list_find_Some in Hf as (Hi & [e ->] & _). split; [done|].
    intros Hall. rewrite Forall_forall in Hall.
    by apply Hall, (list_elem_of_lookup_2 _ i).
  - split; [|done]. intros _. apply list_find_None in Hf.
    eapply Forall_impl; [done|]. intros [e|] Hx; [|done].
    by destruct Hx.
Qed.


Lemma mapM_Some_Forall {A B : Type} (f : A -> option B) (l : list A) :
  is_Some (mapM f l) <-> Forall (fun x => is_Some (f x)) l.
Proof. apply mapM_is_Some. Qed.

Lemma is_Some_bind_Some {A B : Type} (m : option A) (f : A -> B) :
  is_Some (x ← m; Some (f x)) <-> is_Some m.
Proof. destruct m; simpl; split; eauto; by intros []. Qed.

(** [json.dumps] raises where [dumps_error] finds an exception. *)
Lemma dumps_error_None (sort_keys : bool) (o : pyval) :
  dumps_error sort_keys o = None <-> is_Some (json_dumps sort_keys o).
Proof.
  assert (forall l : list pyval,
            is_Some (json_dumps sort_keys (PyList l))
            <-> Forall (fun x => is_Some (json_dumps sort_keys x)) l) as Hlist.
  { intros l. by rewrite json_dumps_list, is_Some_bind_Some, mapM_Some_Forall. }
  induction o as [ | b | z | t | t | t | l IH | l IH | d IH] using pyval_ind';
    cbn [dumps_error].
  - by split.
  - split; [|done]. by destruct b.
  - cbn [json_dumps]. destruct (int_too_long z); [|by split].
    split; [done|]. by intros [].
  - by split.
  - cbn [json_dumps]. split; [done|]. by intros [].
  - cbn [json_dumps]. split; [done|]. by intros [].
  - rewrite first_error_eq, find_error_None, Hlist, Forall_fmap.
    rewrite !Forall_forall in *. split; intros H x Hx; by apply IH, H.
  - rewrite first_error_eq, find_error_None, json_dumps_tuple, Hlist,
      Forall_fmap.
    rewrite !Forall_forall in *. split; intros H x Hx; by apply IH, H.
  - rewrite errors_eq. cbv zeta. rewrite find_error_None, json_dumps_dict.
    assert (Forall (fun x : option exn => x = None)
              (map snd (if sort_keys
                        then sort_items (map (fun kv : string * pyval =>
                               (kv.1, dumps_error sort_keys kv.2)) d)
                        else map (fun kv : string * pyval =>
                               (kv.1, dumps_error sort_keys kv.2)) d))
            <-> Forall (fun kv : string * pyval =>
                          dumps_error sort_keys kv.2 = None) d) as ->.
    { rewrite !Forall_forall. split.
      - intros H [k v] Hin. apply (H (dumps_error sort_keys v)).
        apply list_elem_of_fmap. exists (k, dumps_error sort_keys v).
        split; [done|].
        assert ((k, dumps_error sort_keys v)
                  ∈ map (fun kv : string * pyval =>
                           (kv.1, dumps_error sort_keys kv.2)) d) as Hm.
        { apply list_elem_of_fmap. by exists (k, v). }
        destruct sort_keys; [by apply sort_items_elem|done].
      - intros H x Hx. apply list_elem_of_fmap in Hx as ([k x'] & -> & Hin).
        assert ((k, x') ∈ map (fun kv : string * pyval =>
                                 (kv.1, dumps_error sort_keys kv.2)) d) as Hm.
        { destruct sort_keys; [by apply sort_items_elem|done]. }
        apply list_elem_of_fmap in Hm as ([k' v] & [= -> ->] & Hv).
        by apply (H (k', v)). }
    assert (is_Some (items ← mapM (dumps_item sort_keys) d;
                     Some ("{" +:+ String.concat ", "
                       (map render_item
                          (if sort_keys then sort_items items else items))
                       +:+ "}"))
            <-> Forall (fun kv : string * pyval =>
                          is_Some (json_dumps sort_keys kv.2)) d) as ->.
    { rewrite (is_Some_bind_Some _
                 (fun items => "{" +:+ String.concat ", "
                    (map render_item
                       (if sort_keys then sort_items items else items))
                    +:+ "}")), mapM_Some_Forall.
      apply Forall_iff. intros [k v]. unfold dumps_item. cbn [fst snd].
      apply (is_Some_bind_Some _ (fun c => (k, c))). }
    rewrite !Forall_forall in *. split; intros H x Hx; by apply IH, H.
Qed.



(** ** Detection and the codec *)

Lemma json_cols_sublist (d : DataFrame) :
  json_cols_of d `sublist_of` map fst (columns d).
Proof.
  unfold json_cols_of, row_at.
  induction (columns d) as [|[c s] X IH]; simpl; [done|].
  rewrite filter_cons. simpl.
  destruct (decide (is_json_value (default PyNone (s !! 0%nat)) = true)).
  - simpl. by apply sublist_skip.
  - by apply sublist_cons.
Qed.

Lemma json_cols_first_cell (d : DataFrame) (c : string) :
  c ∈ json_cols_of d ->
  exists v s, (c, v :: s) ∈ columns d /\ is_json_value v = true.
Proof.
  unfold json_cols_of, row_at. intros Hin.
  apply list_elem_of_fmap in Hin as ([c' v] & -> & Hin).
  apply list_elem_of_filter in Hin as [Hv Hin]. simpl in Hv.
  apply list_elem_of_fmap in Hin as ([c0 s] & [= -> ->] & Hin).
  destruct s as [|v s]; [done|]. by exists v, s.
Qed.


(** * Further properties of [edit] *)

Lemma process_edits_heap (responds : list event -> event -> bool)
    (self : DynamoDBTableEditor) (d : DataFrame) (info : EditInfo)
    (w : world) :
  heap w !! df self = Some d ->
  data_editor_widget (session w) = Some info ->
  heap (process_edits responds self (json_cols_of d) w).1 = heap w.
Proof.
  intros H Hinfo.
  pose proof (process_edits_holds responds
                (fun w' => heap w' = heap w) (fun w' => heap w' = heap w)
                self (json_cols_of d) w info Hinfo) as Hheap.
  assert (forall step w', entry_step responds d info step w' ->
            heap w' = heap w ->
            holds (fun w' => heap w' = heap w) (fun w' => heap w' = heap w)
              (step w')) as Hstep.
  { intros step w' Hs Hw'. destruct (entry_step_frame _ _ _ _ _ Hs) as [Hh _].
    destruct (step w') as [w'' [[]|e]]; simpl in *; congruence. }
  destruct (process_edits responds self (json_cols_of d) w) as [w' [[]|e]];
    apply Hheap; try done.
  all: try (intros w0 H0; destruct (ensure_processed_frame w0) as [Hh _];
            congruence).
  all: try (intros x w0 Hin H0; apply Hstep; [|done]).
  all: try (apply (edited_entry_step _ self); [by rewrite H0|done]).
  all: try (by apply added_entry_step).
  all: try (apply (deleted_entry_step _ self); [by rewrite H0|done]).
Qed.

Lemma display_ok (d : DataFrame) :
  (forall c s, c ∈ json_cols_of d -> dict_get c (columns d) = Some s ->
     Forall (fun v => json_encodable v = true) s) ->
  NoDup (map fst (columns d)) ->
  columns_apply dumps (fun _ e => e) (json_cols_of d) d
  = ({| index := index d;
        columns := columns_map dumps (json_cols_of d) (columns d) |}, None).
Proof.
  intros Henc Hnd. apply columns_apply_ok.
  - exact (sublist_NoDup _ _ Hnd (json_cols_sublist d)).
  - intros c Hc.
    assert (is_Some (dict_get c (columns d))) as [s Hs].
    { apply dict_get_labels.
      eapply elem_of_sublist; [done|apply json_cols_sublist]. }
    exists s. split; [done|]. eapply Forall_impl; [by eapply Henc|].
    intros v. apply encodable_dumps.
Qed.

(** * Entries that fail, and entries that are applied *)

(** ** A diff that resolves is applied when the store accepts the calls *)





(** * Deserialization, cell by cell *)



Lemma deserializer_Ret (x v : pyval) :
  deserializer x = Ret v <->
  match x with PyNone => v = PyNone | _ => loads x = Ret v end.
Proof. destruct x; simpl; try done. split; [by intros [= <-]|by intros ->]. Qed.


Lemma deserializer_decodes (x : pyval) :
  (exists v, deserializer x = Ret v) <-> decodes x.
Proof.
  unfold decodes. destruct x; simpl;
    try (split; [intros [v H]; right; by exists v|intros [?|H]; done]).
  split; [by left|by exists PyNone].
Qed.






(** ** The round trip, on values that come back as they went *)




(** * The message of a [JSONError] *)











(** * Each entry is applied once *)

Section exactness.
Variable responds : list event -> event -> bool.
Variable sel : event -> bool.
Variable recorded : ProcessedEdits -> Prop.
Hypothesis sel_store_call : forall e, sel e = true -> is_store_call e = true.

Lemma strict_guarded (step : M unit) (w : world) :
  strict responds sel recorded step w -> guarded responds sel recorded step w.
Proof.
  intros [?|(c & p & Hrun & Hsel)]; [by left|]. right. exists c, p.
  split; [done|]. destruct (sel c); [done|]. apply Hsel.
Qed.

Lemma strictly_disciplined_disciplined (self : DynamoDBTableEditor)
    (d : DataFrame) (info : EditInfo) :
  strictly_disciplined responds sel recorded self d info ->
  disciplined responds sel recorded self d info.
Proof.
  intros Hs w H. destruct (Hs w H) as (H1 & H2 & H3).
  split; [|split]; intros x Hx; apply strict_guarded; auto.
Qed.

Lemma traced_refl (w : world) : traced responds sel recorded w w.
Proof. unfold traced. repeat split; try lia; auto. Qed.

Lemma traced_quiet (w0 w w' : world) :
  traced responds sel recorded w0 w -> quiet w w' ->
  traced responds sel recorded w0 w'.
Proof.
  intros Ht Hq. unfold traced.
  rewrite (calls_of_quiet sel sel_store_call _ _ Hq).
  rewrite (accepted_quiet responds sel sel_store_call _ _ Hq).
  destruct Hq as (_ & _ & -> & _). done.
Qed.

Lemma strict_traced (w0 : world) (step : M unit) (w : world) :
  strict responds sel recorded step w ->
  traced responds sel recorded w0 w ->
  holds (traced responds sel recorded w0) (traced responds sel recorded w0)
    (step w).
Proof.
  intros [[o ->]|(c & p & -> & Hsel)] Ht.
  { by destruct o. }
  destruct Ht as (Hn & Ha & Hle & Hrec & Hwas).
  unfold call_outcome, holds, traced.
  destruct (sel c) eqn:Esel.
  - destruct Hsel as [Hnot Hp].
    assert (~ recorded (the_processed w0)) as Hnot0.
    { intros H0. by apply Hwas in H0 as [? _]. }
    destruct (responds (trace w) c) eqn:Hresp;
      cbn [trace the_processed default_edit_info set_processed log];
      rewrite calls_of_snoc, accepted_snoc, Esel, Hresp; simpl.
    + split; [lia|]. split; [lia|]. split; [lia|].
      split; [intros _; right; lia|done].
    + split; [lia|]. split; [lia|]. split; [lia|]. by split.
  - assert (calls_of sel (trace w ++ [c]) = calls_of sel (trace w)) as Hc.
    { rewrite calls_of_snoc, Esel. lia. }
    assert (accepted responds sel (trace w ++ [c])
            = accepted responds sel (trace w)) as Hc'.
    { rewrite accepted_snoc, Esel. simpl. lia. }
    destruct (responds (trace w) c);
      cbn [trace the_processed default_edit_info set_processed log];
      rewrite Hc, Hc'; [|done].
    split; [lia|]. split; [lia|]. split; [lia|]. split.
    + intros Hr. apply Hrec. by apply Hsel.
    + intros H0. split; [apply Hsel|]; by apply Hwas.
Qed.

(** One render keeps what the strict steps keep. *)
Lemma render_holds_strict (P R : world -> Prop) (self : DynamoDBTableEditor)
    (d : DataFrame) (grid : DataFrame -> DataFrame * EditInfo) (w : world) :
  (forall w w', P w -> quiet w w' -> P w') ->
  (forall w, P w -> R w) ->
  (forall step w, strict responds sel recorded step w -> P w ->
     holds P R (step w)) ->
  strictly_disciplined responds sel recorded self d (grid (display d)).2 ->
  heap w !! df self = Some d -> P w ->
  holds (fun w' => heap w' !! df self = Some d /\ P w')
    (fun w' => heap w' !! df self = Some d /\ R w')
    (edit responds self grid w).
Proof.
  intros Hquiet HPR Hstep Hdisc H Hw. rewrite edit_eq.
  pose proof (show_table_quiet self grid w d H) as Hq.
  pose proof (show_table_returns self grid w) as Hret.
  destruct (show_table self grid w) as [w1 [[cols r]|e]]; cbn [fst] in Hq.
  2:{ split; [by eapply quiet_heap|]. apply HPR. by eapply Hquiet. }
  destruct (Hret w1 d cols r H eq_refl) as [-> Hwidget]. clear Hret.
  set (P' := fun w' => heap w' !! df self = Some d /\ P w').
  set (R' := fun w' => heap w' !! df self = Some d /\ R w').
  assert (forall step w', strict responds sel recorded step w' -> P' w' ->
            holds P' R' (step w')) as Hstep'.
  { intros step w' Hg [H' Hw'].
    pose proof (guarded_heap responds sel recorded step w'
                  (strict_guarded _ _ Hg)) as Hh.
    pose proof (Hstep step w' Hg Hw') as Hs.
    destruct (step w') as [w'' [[]|e]]; cbn [fst] in Hh;
      (split; [by rewrite Hh|done]). }
  assert (holds P' R' (process_edits responds self (json_cols_of d) w1))
    as Hfinal.
  { apply (process_edits_holds responds P' R' self _ w1 _ Hwidget).
    - intros w' [H' Hw']. split.
      + eapply quiet_heap; [apply ensure_processed_quiet|done].
      + eapply Hquiet; [done|apply ensure_processed_quiet].
    - intros entry w' Hin HP'. apply Hstep'; [|done].
      destruct HP' as [H' _]. by apply (Hdisc w' H').
    - intros row w' Hin HP'. apply Hstep'; [|done].
      destruct HP' as [H' _]. by apply (Hdisc w' H').
    - intros idx w' Hin HP'. apply Hstep'; [|done].
      destruct HP' as [H' _]. by apply (Hdisc w' H').
    - split; [by eapply quiet_heap|by eapply Hquiet]. }
  by destruct (process_edits responds self (json_cols_of d) w1)
    as [w2 [[]|e]].
Qed.

Lemma render_traced (self : DynamoDBTableEditor) (d : DataFrame)
    (grid : DataFrame -> DataFrame * EditInfo) (w : world) :
  strictly_disciplined responds sel recorded self d (grid (display d)).2 ->
  heap w !! df self = Some d ->
  heap (edit responds self grid w).1 !! df self = Some d /\
  traced responds sel recorded w (edit responds self grid w).1.
Proof.
  intros Hdisc H.
  pose proof (render_holds_strict (traced responds sel recorded w)
                (traced responds sel recorded w) self d grid w
                (traced_quiet w) (fun _ Hw => Hw) (strict_traced w)
                Hdisc H (traced_refl w)) as Hr.
  by destruct (edit responds self grid w) as [w' [r|e]].
Qed.

(** A loop that returns leaves recorded the entry that one of its steps
    records. *)
Lemma loop_records {A : Type} (xs : list A) (body : A -> M unit) (x : A)
    (self : DynamoDBTableEditor) (d : DataFrame) (w w' : world) :
  x ∈ xs -> heap w !! df self = Some d ->
  (forall y w0, y ∈ xs -> heap w0 !! df self = Some d ->
     guarded responds sel recorded (body y) w0) ->
  (forall w0 w1, heap w0 !! df self = Some d -> body x w0 = (w1, Ret tt) ->
     recorded (the_processed w1)) ->
  for_each xs body w = (w', Ret tt) ->
  heap w' !! df self = Some d /\ recorded (the_processed w').
Proof.
  intros Hx H Hg Hrec Hrun.
  apply list_elem_of_split in Hx as (pre & post & ->).
  rewrite for_each_app in Hrun.
  assert (forall ys w0,
            (forall y, y ∈ ys -> y ∈ pre ++ x :: post) ->
            heap w0 !! df self = Some d ->
            holds (fun w1 => heap w1 !! df self = Some d) (fun _ => True)
              (for_each ys body w0)) as Hheap.
  { intros ys w0 Hys.
    apply (for_each_holds (fun w1 => heap w1 !! df self = Some d)
             (fun _ => True)).
    intros y w1 Hy H1.
    pose proof (guarded_heap responds sel recorded _ _ (Hg y w1 (Hys y Hy) H1))
      as Hh.
    destruct (body y w1) as [w2 [[]|e]]; [|done]. cbn [fst holds] in *.
    by rewrite Hh. }
  pose proof (Hheap pre w ltac:(intros y Hy; apply elem_of_app; by left) H)
    as Hpre.
  destruct (for_each pre body w) as [w1 [[]|e]]; [|done]. cbn [holds] in Hpre.
  rewrite for_each_cons in Hrun.
  pose proof (Hrec w1) as Hrec1.
  pose proof (guarded_heap responds sel recorded _ _
                (Hg x w1 ltac:(apply elem_of_app; right; by left) Hpre)) as Hh.
  destruct (body x w1) as [w2 [[]|e]]; [|done]. cbn [fst] in Hh.
  specialize (Hrec1 w2 Hpre eq_refl).
  assert (holds (fun w3 => heap w3 !! df self = Some d /\
                           recorded (the_processed w3)) (fun _ => True)
            (for_each post body w2)) as Hpost.
  { apply (for_each_holds
             (fun w3 => heap w3 !! df self = Some d /\
                        recorded (the_processed w3)) (fun _ => True));
      [|by rewrite Hh].
    intros y w3 Hy [H3 Hr3].
    assert (y ∈ pre ++ x :: post) as Hy'.
    { apply elem_of_app. right. by right. }
    pose proof (Hg y w3 Hy' H3) as Hstep.
    pose proof (guarded_heap responds sel recorded _ _ Hstep) as Hh3.
    destruct Hstep as [[o Ho]|(c & p & Ho & Hsel)]; rewrite Ho in *.
    - by destruct o.
    - unfold call_outcome in *. destruct (responds (trace w3) c); [|done].
      cbn [holds fst] in *. split; [by rewrite Hh3|].
      cbn [the_processed default_edit_info set_processed].
      destruct (sel c); [apply Hsel|by apply Hsel]. }
  rewrite Hrun in Hpost. exact Hpost.
Qed.

Lemma loop_keeps {A : Type} (xs : list A) (body : A -> M unit)
    (self : DynamoDBTableEditor) (d : DataFrame) (w w' : world) :
  heap w !! df self = Some d -> recorded (the_processed w) ->
  (forall y w0, y ∈ xs -> heap w0 !! df self = Some d ->
     guarded responds sel recorded (body y) w0) ->
  for_each xs body w = (w', Ret tt) ->
  heap w' !! df self = Some d /\ recorded (the_processed w').
Proof.
  intros H Hr Hg Hrun.
  assert (holds (fun w3 => heap w3 !! df self = Some d /\
                           recorded (the_processed w3)) (fun _ => True)
            (for_each xs body w)) as Hpost.
  { apply (for_each_holds
             (fun w3 => heap w3 !! df self = Some d /\
                        recorded (the_processed w3)) (fun _ => True));
      [|done].
    intros y w3 Hy [H3 Hr3].
    pose proof (Hg y w3 Hy H3) as Hstep.
    pose proof (guarded_heap responds sel recorded _ _ Hstep) as Hh3.
    destruct Hstep as [[o Ho]|(c & p & Ho & Hsel)]; rewrite Ho in *.
    - by destruct o.
    - unfold call_outcome in *. destruct (responds (trace w3) c); [|done].
      cbn [holds fst] in *. split; [by rewrite Hh3|].
      cbn [the_processed default_edit_info set_processed].
      destruct (sel c); [apply Hsel|by apply Hsel]. }
  rewrite Hrun in Hpost. exact Hpost.
Qed.

Lemma loop_heap {A : Type} (xs : list A) (body : A -> M unit)
    (self : DynamoDBTableEditor) (d : DataFrame) (w w' : world) :
  heap w !! df self = Some d ->
  (forall y w0, y ∈ xs -> heap w0 !! df self = Some d ->
     guarded responds sel recorded (body y) w0) ->
  for_each xs body w = (w', Ret tt) ->
  heap w' !! df self = Some d.
Proof.
  intros H Hg Hrun.
  assert (holds (fun w3 => heap w3 !! df self = Some d) (fun _ => True)
            (for_each xs body w)) as Hpost.
  { apply (for_each_holds (fun w3 => heap w3 !! df self = Some d)
             (fun _ => True)); [|done].
    intros y w3 Hy H3.
    pose proof (guarded_heap responds sel recorded _ _ (Hg y w3 Hy H3)) as Hh3.
    destruct (body y w3) as [w4 [[]|e]]; [|done]. cbn [holds fst] in *.
    by rewrite Hh3. }
  rewrite Hrun in Hpost. exact Hpost.
Qed.

(** A render that returns leaves recorded the entry that its diff
    reports. *)
Lemma render_records (self : DynamoDBTableEditor) (d : DataFrame)
    (grid : DataFrame -> DataFrame * EditInfo) (w w' : world) (r : ref) :
  disciplined responds sel recorded self d (grid (display d)).2 ->
  reports responds recorded self d (grid (display d)).2 ->
  heap w !! df self = Some d ->
  edit responds self grid w = (w', Ret r) ->
  recorded (the_processed w').
Proof.
  intros Hdisc Hrep H. rewrite edit_eq.
  pose proof (show_table_quiet self grid w d H) as Hq.
  pose proof (show_table_returns self grid w) as Hret.
  destruct (show_table self grid w) as [w1 [[cols r1]|e]]; [|done].
  cbn [fst] in Hq.
  destruct (Hret w1 d cols r1 H eq_refl) as [-> Hwidget]. clear Hret.
  pose proof (quiet_heap _ _ _ _ Hq H) as H1.
  rewrite (process_edits_run _ _ _ _ _ Hwidget).
  set (info := (grid (display d)).2) in *.
  assert (forall w0, heap w0 !! df self = Some d ->
            heap (ensure_processed w0) !! df self = Some d) as Hens.
  { intros w0. by destruct (ensure_processed_frame w0) as (-> & _). }
  assert (forall w0, the_processed (ensure_processed w0) = the_processed w0)
    as Hensp.
  { intros w0. by destruct (ensure_processed_frame w0) as (_ & -> & _). }
  destruct (for_each (edited_rows info) _ (ensure_processed w1))
    as [w2 [[]|e]] eqn:Hl1; [|done].
  destruct (for_each (added_rows info) _ (ensure_processed w2))
    as [w3 [[]|e]] eqn:Hl2; [|done].
  destruct (for_each (deleted_rows info) _ (ensure_processed w3))
    as [w4 [[]|e]] eqn:Hl3; [|done].
  intros [= <- _].
  assert (forall y w0, y ∈ edited_rows info -> heap w0 !! df self = Some d ->
            guarded responds sel recorded
              (process_edited_row responds self (json_cols_of d) y) w0) as G1.
  { intros y w0 Hy H0. by apply (Hdisc w0 H0). }
  assert (forall y w0, y ∈ added_rows info -> heap w0 !! df self = Some d ->
            guarded responds sel recorded
              (process_added_row responds (json_cols_of d) y) w0) as G2.
  { intros y w0 Hy H0. by apply (Hdisc w0 H0). }
  assert (forall y w0, y ∈ deleted_rows info -> heap w0 !! df self = Some d ->
            guarded responds sel recorded
              (process_deleted_row responds self y) w0) as G3.
  { intros y w0 Hy H0. by apply (Hdisc w0 H0). }
  destruct Hrep as [(x & Hx & Hrec)|[(x & Hx & Hrec)|(x & Hx & Hrec)]].
  - destruct (loop_records _ _ x self d _ _ Hx (Hens _ H1) G1 Hrec Hl1)
      as [H2 Hr2].
    destruct (loop_keeps _ _ self d _ _ (Hens _ H2)
                ltac:(by rewrite Hensp) G2 Hl2) as [H3 Hr3].
    by destruct (loop_keeps _ _ self d _ _ (Hens _ H3)
                   ltac:(by rewrite Hensp) G3 Hl3).
  - pose proof (loop_heap _ _ self d _ _ (Hens _ H1) G1 Hl1) as H2.
    destruct (loop_records _ _ x self d _ _ Hx (Hens _ H2) G2 Hrec Hl2)
      as [H3 Hr3].
    by destruct (loop_keeps _ _ self d _ _ (Hens _ H3)
                   ltac:(by rewrite Hensp) G3 Hl3).
  - pose proof (loop_heap _ _ self d _ _ (Hens _ H1) G1 Hl1) as H2.
    pose proof (loop_heap _ _ self d _ _ (Hens _ H2) G2 Hl2) as H3.
    by destruct (loop_records _ _ x self d _ _ Hx (Hens _ H3) G3 Hrec Hl3).
Qed.

(** The entry and its call over one render and over the next: the entry is
    recorded only if it was or if the store accepted its call; an entry that
    was recorded is the object of no call; a render that reports the entry
    and returns leaves it recorded, after exactly one call if it was not
    recorded; and a call that the store did not accept is made again by the
    next render that reports the entry and returns. *)
Lemma exactly_once (self : DynamoDBTableEditor) (d : DataFrame)
    (grid1 grid2 : DataFrame -> DataFrame * EditInfo) (w : world) :
  heap w !! df self = Some d ->
  strictly_disciplined responds sel recorded self d (grid1 (display d)).2 ->
  strictly_disciplined responds sel recorded self d (grid2 (display d)).2 ->
  let w1 := (edit responds self grid1 w).1 in
  let w2 := (edit responds self grid2 w1).1 in
  (recorded (the_processed w1) ->
   recorded (the_processed w) \/
   accepted responds sel (trace w1)
   = (accepted responds sel (trace w) + 1)%nat) /\
  (recorded (the_processed w) ->
   calls_of sel (trace w1) = calls_of sel (trace w)) /\
  (reports responds recorded self d (grid1 (display d)).2 ->
   forall r, (edit responds self grid1 w).2 = Ret r ->
     recorded (the_processed w1) /\
     (~ recorded (the_processed w) ->
      calls_of sel (trace w1) = (calls_of sel (trace w) + 1)%nat /\
      accepted responds sel (trace w1)
      = (accepted responds sel (trace w) + 1)%nat)) /\
  (calls_of sel (trace w1) = (calls_of sel (trace w) + 1)%nat ->
   accepted responds sel (trace w1) = accepted responds sel (trace w) ->
   ~ recorded (the_processed w1) /\
   (reports responds recorded self d (grid2 (display d)).2 ->
    forall r, (edit responds self grid2 w1).2 = Ret r ->
      calls_of sel (trace w2) = (calls_of sel (trace w1) + 1)%nat /\
      recorded (the_processed w2))).
Proof.
  intros H H1 H2 w1 w2.
  pose proof (strictly_disciplined_disciplined _ _ _ H1) as D1.
  pose proof (strictly_disciplined_disciplined _ _ _ H2) as D2.
  destruct (render_traced self d grid1 w H1 H) as [H' Ht1]. fold w1 in H', Ht1.
  destruct (render_traced self d grid2 w1 H2 H') as [_ Ht2]. fold w2 in Ht2.
  assert (forall grid w0,
            disciplined responds sel recorded self d (grid (display d)).2 ->
            heap w0 !! df self = Some d ->
            (calls_of sel (trace (edit responds self grid w0).1)
             <= calls_of sel (trace w0) + 1)%nat /\
            (accepted responds sel (trace (edit responds self grid w0).1)
             <= accepted responds sel (trace w0) + 1)%nat) as Hbound.
  { intros grid w0 D0 H0.
    assert (asked sel recorded (calls_of sel (trace w0)) w0) as Ha.
    { split; [lia|]. intros E. lia. }
    assert (once responds sel recorded (accepted responds sel (trace w0)) w0)
      as Ho.
    { split; [lia|]. intros E. lia. }
    pose proof (render_asked responds sel recorded sel_store_call _ self d
                  grid w0 D0 H0 Ha) as Hb.
    destruct (render_once responds sel recorded sel_store_call _ self d
                grid w0 D0 H0 Ho) as [_ [Hn _]].
    unfold bounded in Hb. lia. }
  destruct (Hbound grid1 w D1 H) as [Hc1 Ha1]. fold w1 in Hc1, Ha1.
  destruct (Hbound grid2 w1 D2 H') as [Hc2 Ha2]. fold w2 in Hc2, Ha2.
  destruct Ht1 as (Hn1 & Hacc1 & Hle1 & Hrec1 & Hwas1).
  destruct Ht2 as (Hn2 & Hacc2 & Hle2 & Hrec2 & Hwas2).
  assert (forall grid w0 r,
            disciplined responds sel recorded self d (grid (display d)).2 ->
            reports responds recorded self d (grid (display d)).2 ->
            heap w0 !! df self = Some d ->
            (edit responds self grid w0).2 = Ret r ->
            recorded (the_processed (edit responds self grid w0).1)) as Hret.
  { intros grid w0 r D0 Hrep H0 Hr.
    destruct (edit responds self grid w0) as [w' o] eqn:Hrun.
    cbn [fst snd] in *. subst o.
    by eapply render_records. }
  split; [|split; [|split]].
  - intros Hr. destruct (Hrec1 Hr) as [?|?]; [by left|right; lia].
  - intros Hr. by apply Hwas1.
  - intros Hrep r Hr. pose proof (Hret grid1 w r D1 Hrep H Hr) as Hend.
    fold w1 in Hend. split; [done|]. intros Hnot.
    destruct (Hrec1 Hend) as [?|?]; [done|]. lia.
  - intros Hcall Hacc.
    assert (~ recorded (the_processed w1)) as Hnot.
    { intros Hr. destruct (Hrec1 Hr) as [Hr0|?]; [|lia].
      apply Hwas1 in Hr0 as [_ ?]. lia. }
    split; [done|]. intros Hrep r Hr.
    pose proof (Hret grid2 w1 r D2 Hrep H' Hr) as Hend. fold w2 in Hend.
    split; [|done]. destruct (Hrec2 Hend) as [?|?]; [done|]. lia.
Qed.
End exactness.

(** A loop whose calls are not selected follows the strict discipline when
    what it records leaves the entry as it was. *)
Section other_loops_strict.
Variable responds : list event -> event -> bool.
Variable sel : event -> bool.
Variable recorded : ProcessedEdits -> Prop.

Lemma edited_row_strict (self : DynamoDBTableEditor) (d : DataFrame)
    (json_cols : list string) (entry : nat * pydict) (w : world) :
  heap w !! df self = Some d ->
  (forall k r, sel (modify_item k r) = false) ->
  (forall p i r, recorded (with_edited i r p) <-> recorded p) ->
  strict responds sel recorded
    (process_edited_row responds self json_cols entry) w.
Proof.
  intros H Hsel Hrec. destruct entry as [idx row]. unfold strict.
  rewrite (process_edited_row_run _ _ _ _ _ _ _ H).
  repeat case_match; try (left; by eexists).
  right. do 2 eexists. split; [done|]. rewrite Hsel. apply Hrec.
Qed.

Lemma added_row_strict (json_cols : list string) (added_row : pydict)
    (w : world) :
  (forall k r, sel (put_item k r) = false) ->
  (forall p s, recorded (with_added s p) <-> recorded p) ->
  strict responds sel recorded
    (process_added_row responds json_cols added_row) w.
Proof.
  intros Hsel Hrec. unfold strict. rewrite process_added_row_run. cbv zeta.
  repeat case_match; try (left; by eexists).
  right. do 2 eexists. split; [done|]. rewrite Hsel. apply Hrec.
Qed.

Lemma deleted_row_strict (self : DynamoDBTableEditor) (d : DataFrame)
    (idx : nat) (w : world) :
  heap w !! df self = Some d ->
  (forall k, sel (del_item k) = false) ->
  (forall p k, recorded (with_deleted k p) <-> recorded p) ->
  strict responds sel recorded (process_deleted_row responds self idx) w.
Proof.
  intros H Hsel Hrec. unfold strict.
  rewrite (process_deleted_row_run _ _ _ _ _ H).
  repeat case_match; try (left; by eexists).
  right. do 2 eexists. split; [done|]. rewrite Hsel. apply Hrec.
Qed.
End other_loops_strict.

(** Deleted rows: no other key of the table compares equal to the key. *)
Lemma delete_strict (responds : list event -> event -> bool)
    (self : DynamoDBTableEditor) (d : DataFrame) (index_val : pyval)
    (info : EditInfo) :
  wf_val index_val = true ->
  (forall k, k ∈ index d -> py_eq index_val k = true -> k = index_val) ->
  strictly_disciplined responds (same_call (del_item index_val))
    (fun p => py_in index_val (processed_deleted_rows p) = true)
    self d info.
Proof.
  intros Hwf Hkeys w H. split; [|split].
  - intros entry _. by eapply edited_row_strict.
  - intros row _. by eapply added_row_strict.
  - intros idx _. unfold strict.
    rewrite (process_deleted_row_run _ _ _ _ _ H).
    destruct (index d !! idx) as [k|] eqn:Hk; [|left; by eexists].
    destruct (py_in k _) eqn:Hin; [left; by eexists|].
    right. do 2 eexists. split; [done|].
    cbn [with_deleted processed_deleted_rows]. rewrite py_in_app.
    destruct (same_call (del_item index_val) (del_item k)) eqn:E.
    + apply same_call_eq in E as [_ [= ->]]. split; [congruence|].
      simpl. rewrite py_eq_refl by done. by rewrite orb_true_r.
    + assert (py_eq index_val k = false) as Hne.
      { destruct (py_eq index_val k) eqn:Heq; [|done].
        apply Hkeys in Heq; [|by eapply list_elem_of_lookup_2]. subst k.
        rewrite same_call_refl in E; done. }
      simpl. rewrite Hne. simpl. by rewrite orb_false_r.
Qed.


(** Edited rows: the rows of the table have distinct keys, and the diff
    reports the entry, at one position once. *)
Lemma edit_strict (responds : list event -> event -> bool)
    (self : DynamoDBTableEditor) (d : DataFrame) (idx : nat)
    (edited_row decoded_row : pydict) (index_val : pyval) (info : EditInfo) :
  index d !! idx = Some index_val -> NoDup (index d) ->
  wf_val (PyDict edited_row) = true ->
  deserialize_mapping edited_row (json_cols_of d) = Ret decoded_row ->
  NoDup (map fst (edited_rows info)) ->
  (idx, edited_row) ∈ edited_rows info ->
  strictly_disciplined responds (same_call (modify_item index_val decoded_row))
    (fun p => already_edited p idx decoded_row = true) self d info.
Proof.
  intros Hidx Hnd Hwf Hdec Hndg Hing w H. split; [|split].
  - intros [i r] Hin. unfold strict.
    rewrite (process_edited_row_run _ _ _ _ _ _ _ H).
    destruct (index d !! i) as [l|] eqn:Hl; [|left; by eexists].
    destruct (deserialize_mapping r (json_cols_of d)) as [r'|] eqn:Hr;
      [|left; by eexists].
    destruct (already_edited (the_processed w) i r') eqn:Halready;
      [left; by eexists|].
    right. do 2 eexists. split; [done|].
    unfold already_edited. cbn [with_edited processed_edited_rows].
    destruct (same_call _ (modify_item l r')) eqn:E.
    + apply same_call_eq in E as [_ [= -> ->]].
      assert (i = idx) as -> by exact (NoDup_lookup _ _ _ _ Hnd Hl Hidx).
      split.
      * unfold already_edited in Halready. by rewrite Halready.
      * rewrite lookup_insert_eq. apply py_eq_refl.
        by eapply deserialize_mapping_wf.
    + rewrite lookup_insert_ne; [done|]. intros ->.
      assert (r = edited_row) as ->
        by exact (NoDup_fst_unique _ _ _ _ Hndg Hin Hing).
      assert (l = index_val) as -> by congruence.
      assert (r' = decoded_row) as -> by congruence.
      rewrite same_call_refl in E; done.
  - intros row _. by eapply added_row_strict.
  - intros i _. by eapply deleted_row_strict.
Qed.

(** ** Edits are applied once *)

(** C7, as amended. For a position of the deleted rows, the editor looks the
    row key up in the index of the session's table; a key that compares
    equal to one already recorded makes no store call, any other key makes
    the one call [del_item(keys=index_val)] and is recorded when the call
    returns. So a render asks the store at most once to delete a given key,
    whatever the store answers; over two consecutive renders, whatever the
    grids report, the store accepts at most one call that deletes the key,
    and it is asked at most once when it does not refuse the call. When no
    other key of the table compares equal to the key: the key is recorded
    only if it was or if the store accepted the call; a key that was
    recorded is the object of no call; a render that reports a position of
    the key and returns has the key recorded, after exactly one call,
    accepted, if it was not recorded; and after a render whose call the
    store did not accept the key is not recorded, and the next render that
    reports it and returns makes the one call again. *)
Theorem delete_at_most_once (responds : list event -> event -> bool)
    (self : DynamoDBTableEditor) (d : DataFrame)
    (grid1 grid2 : DataFrame -> DataFrame * EditInfo) (w : world)
    (index_val : pyval) :
  heap w !! df self = Some d -> wf_val index_val = true ->
  (forall idx w', heap w' !! df self = Some d ->
     process_deleted_row responds self idx w'
     = match index d !! idx with
       | None => (w', Raise IndexError)
       | Some index_val =>
           if py_in index_val (processed_deleted_rows (the_processed w'))
           then (w', Ret tt)
           else call_outcome responds (del_item index_val)
                  (with_deleted index_val (the_processed w')) w'
       end) /\
  (calls (del_item index_val) (trace (edit responds self grid1 w).1)
   <= calls (del_item index_val) (trace w) + 1)%nat /\
  (accepted responds (same_call (del_item index_val))
     (trace (edit responds self grid2 (edit responds self grid1 w).1).1)
   <= accepted responds (same_call (del_item index_val)) (trace w) + 1)%nat /\
  ((forall tr, responds tr (del_item index_val) = true) ->
   (calls (del_item index_val)
      (trace (edit responds self grid2 (edit responds self grid1 w).1).1)
    <= calls (del_item index_val) (trace w) + 1)%nat) /\
  ((forall k, k ∈ index d -> py_eq index_val k = true -> k = index_val) ->
   (py_in index_val
      (processed_deleted_rows (the_processed (edit responds self grid1 w).1))
    = true ->
    py_in index_val (processed_deleted_rows (the_processed w)) = true \/
    accepted responds (same_call (del_item index_val))
      (trace (edit responds self grid1 w).1)
    = (accepted responds (same_call (del_item index_val)) (trace w) + 1)%nat) /\
   (py_in index_val (processed_deleted_rows (the_processed w)) = true ->
    calls (del_item index_val) (trace (edit responds self grid1 w).1)
    = calls (del_item index_val) (trace w)) /\
   (forall idx r,
      idx ∈ deleted_rows (grid1 (display d)).2 ->
      index d !! idx = Some index_val ->
      (edit responds self grid1 w).2 = Ret r ->
      py_in index_val
        (processed_deleted_rows (the_processed (edit responds self grid1 w).1))
      = true /\
      (py_in index_val (processed_deleted_rows (the_processed w)) = false ->
       calls (del_item index_val) (trace (edit responds self grid1 w).1)
       = (calls (del_item index_val) (trace w) + 1)%nat /\
       accepted responds (same_call (del_item index_val))
         (trace (edit responds self grid1 w).1)
       = (accepted responds (same_call (del_item index_val)) (trace w) + 1)%nat)) /\
   (calls (del_item index_val) (trace (edit responds self grid1 w).1)
    = (calls (del_item index_val) (trace w) + 1)%nat ->
    accepted responds (same_call (del_item index_val))
      (trace (edit responds self grid1 w).1)
    = accepted responds (same_call (del_item index_val)) (trace w) ->
    py_in index_val
      (processed_deleted_rows (the_processed (edit responds self grid1 w).1))
    = false /\
    forall idx r,
      idx ∈ deleted_rows (grid2 (display d)).2 ->
      index d !! idx = Some index_val ->
      (edit responds self grid2 (edit responds self grid1 w).1).2 = Ret r ->
      calls (del_item index_val)
        (trace (edit responds self grid2 (edit responds self grid1 w).1).1)
      = (calls (del_item index_val) (trace (edit responds self grid1 w).1) + 1)%nat /\
      py_in index_val
        (processed_deleted_rows
           (the_processed
              (edit responds self grid2 (edit responds self grid1 w).1).1))
      = true)).
Proof.
  intros H Hwf. split.
  { intros idx w' H'. by apply process_deleted_row_run. }
  destruct (at_most_once responds (same_call (del_item index_val)) _
              (same_call_store_call _) self d grid1 grid2 w H
              (delete_disciplined responds self d index_val _ Hwf)
              (delete_disciplined responds self d index_val _ Hwf))
    as (Hone & Hacc & Hcalls).
  split; [exact Hone|]. split; [exact Hacc|]. split.
  { intros Hok. apply Hcalls. intros tr e [_ ->]%same_call_eq. apply Hok. }
  intros Hkeys.
  destruct (exactly_once responds (same_call (del_item index_val)) _
              (same_call_store_call _) self d grid1 grid2 w H
              (delete_strict responds self d index_val _ Hwf Hkeys)
              (delete_strict responds self d index_val _ Hwf Hkeys))
    as (Honly & Hskip & Hexact & Hagain).
  assert (forall info idx,
            idx ∈ deleted_rows info -> index d !! idx = Some index_val ->
            reports responds
              (fun p => py_in index_val (processed_deleted_rows p) = true)
              self d info) as Hrep.
  { intros info idx Hin Hidx. right. right. exists idx. split; [done|].
    intros w0 w1 H0. rewrite (process_deleted_row_run _ _ _ _ _ H0), Hidx.
    destruct (py_in index_val (processed_deleted_rows (the_processed w0)))
      eqn:Hpy; [intros E; by simplify_eq|].
    unfold call_outcome. destruct (responds _ _); [|done].
    intros E. simplify_eq.
    cbn [the_processed default_edit_info set_processed with_deleted
         processed_deleted_rows].
    rewrite py_in_app. simpl. rewrite py_eq_refl by done.
    by rewrite orb_true_r. }
  split; [exact Honly|]. split; [exact Hskip|]. split.
  - intros idx r Hin Hidx Hr.
    destruct (Hexact (Hrep _ idx Hin Hidx) r Hr) as [Hend Hone'].
    split; [done|]. intros Hnot. apply Hone'. by rewrite Hnot.
  - intros Hcall Hnone. destruct (Hagain Hcall Hnone) as [Hnot Hnext].
    split; [by apply not_true_is_false|].
    intros idx r Hin Hidx Hr. exact (Hnext (Hrep _ idx Hin Hidx) r Hr).
Qed.

Lemma delete_at_most_once_witness :
  calls (del_item (PyStr "b"))
    (trace (edit accepts editor0 grid_ok (world_of table_ab)).1)
  = (0 + 1)%nat /\
  py_in (PyStr "b")
    (processed_deleted_rows
       (the_processed (edit accepts editor0 grid_ok (world_of table_ab)).1))
  = true.
Proof.
  pose proof (delete_at_most_once accepts editor0 table_ab grid_ok grid_ok
                (world_of table_ab) (PyStr "b") eq_refl eq_refl)
    as (_ & _ & _ & _ & Hexact).
  destruct Hexact as (_ & _ & Hexact & _).
  { intros k Hk Heq. cbn [index table_ab] in Hk.
    apply elem_of_cons in Hk as [->|Hk]; [discriminate|].
    by apply list_elem_of_singleton in Hk. }
  destruct (Hexact 1%nat 2%nat) as [Hend Hone].
  - left.
  - reflexivity.
  - vm_compute. reflexivity.
  - split; [|exact Hend]. by apply Hone.
Defined.

(** The store refuses the call of the first render: the second render, which
    reports the same deleted row, makes it again. *)
Lemma delete_refused_counterexample :
  index table_ab !! 1%nat = Some (PyStr "b") /\
  trace (edit refuses editor0 grid_delete
           (edit refuses editor0 grid_delete (world_of table_ab)).1).1
  = [data_editor (display table_ab); del_item (PyStr "b");
     data_editor (display table_ab); del_item (PyStr "b")] /\
  ~ (calls (del_item (PyStr "b"))
       (trace (edit refuses editor0 grid_delete
                 (edit refuses editor0 grid_delete (world_of table_ab)).1).1)
     <= 1)%nat.
Proof.
  split; [reflexivity|]. split; [vm_compute; reflexivity|].
  vm_compute. lia.
Qed.




(** C1, as amended. For an entry of the edited rows the editor looks the row
    key up at the entry's position in the index of the session's table and
    decodes the JSON columns of the changed columns; when the record holds,
    at that position, changed columns that compare equal, no store call is
    made; otherwise the one call [modify_item(index_val, edited_row)] is
    made, and the pair is recorded when the call returns. The rows of the
    table have distinct keys, and the positions of a diff are distinct, as
    the keys of a dictionary are. So a render that reports the entry asks
    the store at most once to apply it, whatever the store answers; when
    two consecutive renders report it, the store accepts at most one call
    that applies it, and it is asked at most once when it does not refuse
    the call. The pair is recorded only if it was or if the store accepted
    the call; a pair that was recorded is the object of no call; a render
    that returns has the pair recorded, after exactly one call, accepted, if
    it was not recorded; and after a render whose call the store did not
    accept the pair is not recorded, and the next render, if it returns,
    makes the one call again. *)
Theorem edit_at_most_once (responds : list event -> event -> bool)
    (self : DynamoDBTableEditor) (d : DataFrame)
    (grid1 grid2 : DataFrame -> DataFrame * EditInfo) (w : world)
    (idx : nat) (edited_row : pydict) (index_val : pyval)
    (decoded_row : pydict) :
  heap w !! df self = Some d ->
  index d !! idx = Some index_val -> NoDup (index d) ->
  wf_val (PyDict edited_row) = true ->
  deserialize_mapping edited_row (json_cols_of d) = Ret decoded_row ->
  NoDup (map fst (edited_rows (grid1 (display d)).2)) ->
  (idx, edited_row) ∈ edited_rows (grid1 (display d)).2 ->
  NoDup (map fst (edited_rows (grid2 (display d)).2)) ->
  (idx, edited_row) ∈ edited_rows (grid2 (display d)).2 ->
  (forall json_cols idx edited_row w', heap w' !! df self = Some d ->
     process_edited_row responds self json_cols (idx, edited_row) w'
     = match index d !! idx with
       | None => (w', Raise IndexError)
       | Some index_val =>
           match deserialize_mapping edited_row json_cols with
           | Raise e => (w', Raise e)
           | Ret edited_row =>
               if already_edited (the_processed w') idx edited_row
               then (w', Ret tt)
               else call_outcome responds (modify_item index_val edited_row)
                      (with_edited idx edited_row (the_processed w')) w'
           end
       end) /\
  (calls (modify_item index_val decoded_row)
     (trace (edit responds self grid1 w).1)
   <= calls (modify_item index_val decoded_row) (trace w) + 1)%nat /\
  (accepted responds (same_call (modify_item index_val decoded_row))
     (trace (edit responds self grid2 (edit responds self grid1 w).1).1)
   <= accepted responds (same_call (modify_item index_val decoded_row))
        (trace w) + 1)%nat /\
  ((forall tr, responds tr (modify_item index_val decoded_row) = true) ->
   (calls (modify_item index_val decoded_row)
      (trace (edit responds self grid2 (edit responds self grid1 w).1).1)
    <= calls (modify_item index_val decoded_row) (trace w) + 1)%nat) /\
  (already_edited (the_processed (edit responds self grid1 w).1) idx
     decoded_row = true ->
   already_edited (the_processed w) idx decoded_row = true \/
   accepted responds (same_call (modify_item index_val decoded_row))
     (trace (edit responds self grid1 w).1)
   = (accepted responds (same_call (modify_item index_val decoded_row))
        (trace w) + 1)%nat) /\
  (already_edited (the_processed w) idx decoded_row = true ->
   calls (modify_item index_val decoded_row)
     (trace (edit responds self grid1 w).1)
   = calls (modify_item index_val decoded_row) (trace w)) /\
  (forall r, (edit responds self grid1 w).2 = Ret r ->
     already_edited (the_processed (edit responds self grid1 w).1) idx
       decoded_row = true /\
     (already_edited (the_processed w) idx decoded_row = false ->
      calls (modify_item index_val decoded_row)
        (trace (edit responds self grid1 w).1)
      = (calls (modify_item index_val decoded_row) (trace w) + 1)%nat /\
      accepted responds (same_call (modify_item index_val decoded_row))
        (trace (edit responds self grid1 w).1)
      = (accepted responds (same_call (modify_item index_val decoded_row))
           (trace w) + 1)%nat)) /\
  (calls (modify_item index_val decoded_row)
     (trace (edit responds self grid1 w).1)
   = (calls (modify_item index_val decoded_row) (trace w) + 1)%nat ->
   accepted responds (same_call (modify_item index_val decoded_row))
     (trace (edit responds self grid1 w).1)
   = accepted responds (same_call (modify_item index_val decoded_row))
       (trace w) ->
   already_edited (the_processed (edit responds self grid1 w).1) idx
     decoded_row = false /\
   forall r,
     (edit responds self grid2 (edit responds self grid1 w).1).2 = Ret r ->
     calls (modify_item index_val decoded_row)
       (trace (edit responds self grid2 (edit responds self grid1 w).1).1)
     = (calls (modify_item index_val decoded_row)
          (trace (edit responds self grid1 w).1) + 1)%nat /\
     already_edited
       (the_processed (edit responds self grid2 (edit responds self grid1 w).1).1)
       idx decoded_row = true).
Proof.
  intros H Hidx Hnd Hwf Hdec Hnd1 Hin1 Hnd2 Hin2. split.
  { intros. by apply process_edited_row_run. }
  pose proof (edit_strict responds self d idx edited_row decoded_row
                index_val _ Hidx Hnd Hwf Hdec Hnd1 Hin1) as S1.
  pose proof (edit_strict responds self d idx edited_row decoded_row
                index_val _ Hidx Hnd Hwf Hdec Hnd2 Hin2) as S2.
  destruct (at_most_once responds
              (same_call (modify_item index_val decoded_row)) _
              (same_call_store_call _) self d grid1 grid2 w H
              (strictly_disciplined_disciplined _ _ _ _ _ _ S1)
              (strictly_disciplined_disciplined _ _ _ _ _ _ S2))
    as (Hone & Hacc & Hcalls).
  split; [exact Hone|]. split; [exact Hacc|]. split.
  { intros Hok. apply Hcalls. intros tr e [_ ->]%same_call_eq. apply Hok. }
  assert (forall info, (idx, edited_row) ∈ edited_rows info ->
            reports responds
              (fun p => already_edited p idx decoded_row = true)
              self d info) as Hrep.
  { intros info Hin. left. exists (idx, edited_row). split; [done|].
    intros w0 w1 H0.
    rewrite (process_edited_row_run _ _ _ _ _ _ _ H0), Hidx, Hdec.
    destruct (already_edited (the_processed w0) idx decoded_row) eqn:Hal;
      [intros E; by simplify_eq|].
    unfold call_outcome. destruct (responds _ _); [|done].
    intros E. simplify_eq. unfold already_edited.
    cbn [the_processed default_edit_info set_processed with_edited
         processed_edited_rows].
    rewrite lookup_insert_eq. apply py_eq_refl.
    by eapply deserialize_mapping_wf. }
  destruct (exactly_once responds
              (same_call (modify_item index_val decoded_row)) _
              (same_call_store_call _) self d grid1 grid2 w H S1 S2)
    as (Honly & Hskip & Hexact & Hagain).
  split; [exact Honly|]. split; [exact Hskip|]. split.
  - intros r Hr. destruct (Hexact (Hrep _ Hin1) r Hr) as [Hend Hone'].
    split; [done|]. intros Hnot. apply Hone'. by rewrite Hnot.
  - intros Hcall Hnone. destruct (Hagain Hcall Hnone) as [Hnot Hnext].
    split; [by apply not_true_is_false|].
    intros r Hr. exact (Hnext (Hrep _ Hin2) r Hr).
Qed.

Lemma edit_at_most_once_witness :
  calls (modify_item (PyStr "a") [("tags", PyList [PyInt 1; PyInt 2])])
    (trace (edit accepts editor0 grid_ok (world_of table_ab)).1)
  = (0 + 1)%nat /\
  already_edited
    (the_processed (edit accepts editor0 grid_ok (world_of table_ab)).1)
    0 [("tags", PyList [PyInt 1; PyInt 2])] = true.
Proof.
  pose proof (edit_at_most_once accepts editor0 table_ab grid_ok grid_ok
                (world_of table_ab) 0 [("tags", PyStr "[1, 2]")] (PyStr "a")
                [("tags", PyList [PyInt 1; PyInt 2])]) as Hthm.
  destruct Hthm as (_ & _ & _ & _ & _ & _ & Hexact & _).
  - reflexivity.
  - reflexivity.
  - apply NoDup_cons. split; [|apply NoDup_one].
    intros Hin. apply list_elem_of_singleton in Hin. discriminate.
  - reflexivity.
  - vm_compute. reflexivity.
  - apply NoDup_one.
  - left.
  - apply NoDup_one.
  - left.
  - destruct (Hexact 2%nat) as [Hend Hone]; [vm_compute; reflexivity|].
    split; [|exact Hend]. by apply Hone.
Defined.

(** The store refuses the call of the first render: the second render, which
    reports the same entry, makes it again. *)
Lemma edit_refused_counterexample :
  (0%nat, [("tags", PyStr "[1, 2]")])
    ∈ edited_rows (grid_ok (display table_ab)).2 /\
  trace (edit refuses editor0 grid_ok
           (edit refuses editor0 grid_ok (world_of table_ab)).1).1
  = [data_editor (display table_ab);
     modify_item (PyStr "a") [("tags", PyList [PyInt 1; PyInt 2])];
     data_editor (display table_ab);
     modify_item (PyStr "a") [("tags", PyList [PyInt 1; PyInt 2])]] /\
  ~ (calls (modify_item (PyStr "a") [("tags", PyList [PyInt 1; PyInt 2])])
       (trace (edit refuses editor0 grid_ok
                 (edit refuses editor0 grid_ok (world_of table_ab)).1).1)
     <= 1)%nat.
Proof.
  split; [left|]. split; [vm_compute; reflexivity|].
  vm_compute. lia.
Qed.

(** * Further properties of the codec and of [edit] *)





(** X10. Malformed text in the frame that the grid gives back ends the
    render before the diff is looked at. When every cell of the JSON columns
    of that frame is [None], or text that [json.loads] reads, or text that
    [json.loads] finds malformed, and one of them is malformed, [edit] shows
    the message that names a column with such a cell and stops the script:
    no store call is made and nothing is recorded. *)
Theorem malformed_copy_stops_render (responds : list event -> event -> bool)
    (self : DynamoDBTableEditor) (grid : DataFrame -> DataFrame * EditInfo)
    (w : world) (d : DataFrame) :
  heap w !! df self = Some d -> index d <> [] ->
  NoDup (map fst (columns d)) ->
  (forall c s, c ∈ json_cols_of d -> dict_get c (columns d) = Some s ->
     Forall (fun v => json_encodable v = true) s) ->
  (forall c, c ∈ json_cols_of d ->
     exists s, dict_get c (columns (grid (display d)).1) = Some s /\
       Forall (fun x => decodes x \/
                 exists t, x = PyStr t /\ json_loads t = Malformed) s) ->
  (exists c s t, c ∈ json_cols_of d /\
     dict_get c (columns (grid (display d)).1) = Some s /\
     PyStr t ∈ s /\ json_loads t = Malformed) ->
  exists w' c s t,
    c ∈ json_cols_of d /\
    dict_get c (columns (grid (display d)).1) = Some s /\
    PyStr t ∈ s /\ json_loads t = Malformed /\
    edit responds self grid w = (w', Raise StopException) /\
    trace w' = trace w ++ [data_editor (display d); st_error (invalid_json c)] /\
    the_processed w' = the_processed w.
Proof.
  intros H Hne Hnd Henc Htext (c0 & s0 & t0 & Hc0 & Hs0 & Ht0 & Hbad).
  pose proof (sublist_NoDup _ _ Hnd (json_cols_sublist d)) as Hndc.
  destruct (columns_apply deserializer rethrow (json_cols_of d)
              (grid (display d)).1) as [edited o] eqn:Hrun.
  destruct (columns_apply_spec _ _ _ _ _ _ Hndc Hrun) as (_ & _ & Ho).
  destruct o as [e|].
  - destruct Ho as (c & e0 & Hc & -> & Hcell).
    destruct (Htext c Hc) as (s & Hs & Hall). rewrite Hs in Hcell.
    destruct (series_apply_Raise _ _ _ Hcell) as (x & Hx & Hraise).
    rewrite Forall_forall in Hall.
    destruct (Hall x Hx) as [Hdec|(t & -> & Hmal)].
    { apply deserializer_decodes in Hdec as [v Hv]. congruence. }
    simpl in Hraise. rewrite Hmal in Hraise. injection Hraise as <-.
    destruct (edit_stops_on_bad_copy responds self grid w d (invalid_json c))
      as (w' & Hedit & Htr & Hp); try done.
    { by rewrite display_ok. }
    { by rewrite Hrun. }
    exists w', c, s, t. done.
  - exfalso. destruct (Ho c0 Hc0) as (s & s' & Hs & Happ & _).
    assert (s = s0) as -> by congruence.
    apply series_apply_Ret in Happ.
    apply list_elem_of_lookup in Ht0 as [i Hi].
    destruct (Forall2_lookup_l _ _ _ _ _ Happ Hi) as (v & _ & Hv).
    simpl in Hv. by rewrite Hbad in Hv.
Qed.

Lemma malformed_copy_stops_render_witness :
  exists w' c s t,
    c ∈ json_cols_of table_ab /\
    dict_get c (columns (grid_typo (display table_ab)).1) = Some s /\
    PyStr t ∈ s /\ json_loads t = Malformed /\
    edit accepts editor0 grid_typo (world_of table_ab)
    = (w', Raise StopException) /\
    trace w' = [] ++ [data_editor (display table_ab);
                      st_error (invalid_json c)] /\
    the_processed w' = _DEFAULT_PROCESSED.
Proof.
  apply (malformed_copy_stops_render accepts editor0 grid_typo
           (world_of table_ab) table_ab).
  - reflexivity.
  - discriminate.
  - apply NoDup_labels_ab.
  - intros c s Hc Hs. vm_compute in Hc.
    apply list_elem_of_singleton in Hc as ->.
    injection Hs as <-. by repeat constructor.
  - intros c Hc. vm_compute in Hc.
    apply list_elem_of_singleton in Hc as ->.
    eexists. split; [vm_compute; reflexivity|].
    apply Forall_cons. split.
    { right. eexists. split; [reflexivity|]. vm_compute. reflexivity. }
    apply Forall_cons. split; [|apply Forall_nil_2].
    left. right. eexists. vm_compute. reflexivity.
  - exists "tags", [PyStr "{bad"; PyStr "[]"], "{bad".
    split; [vm_compute; left|]. split; [vm_compute; reflexivity|].
    split; [left|]. vm_compute. reflexivity.
Defined.

(** X11. A grid that the user leaves alone gives the table back. On a table
    with a row and distinct column labels, whose JSON columns hold values
    that [json.dumps] accepts, made of [None], booleans, integers, text,
    lists and dictionaries with text keys, with no tuple inside: each JSON
    column holds a text, a list or a dictionary, so that pandas keeps the
    decoded cells as they are, and when the grid returns the frame it was
    shown and reports no edit, [edit] returns a new frame that is equal to
    the table of the session, makes no store call and records nothing. *)
Theorem untouched_grid_returns_table (responds : list event -> event -> bool)
    (self : DynamoDBTableEditor) (grid : DataFrame -> DataFrame * EditInfo)
    (w : world) (d : DataFrame) :
  heap w !! df self = Some d -> index d <> [] ->
  NoDup (map fst (columns d)) ->
  (forall c s, c ∈ json_cols_of d -> dict_get c (columns d) = Some s ->
     Forall (fun v => wf_val v = true /\ json_encodable v = true /\
                      tuple_free v = true) s) ->
  grid (display d) = (display d, _DEFAULT_EDIT_INFO) ->
  (forall c s, c ∈ json_cols_of d -> dict_get c (columns d) = Some s ->
     object_dtype s = true) /\
  exists w',
    edit responds self grid w = (w', Ret (S (length (heap w)))) /\
    heap w' !! S (length (heap w)) = Some d /\
    trace w' = trace w ++ [data_editor (display d)] /\
    the_processed w' = the_processed w.
Proof.
  intros H Hne Hnd Hvals Hgrid.
  pose proof (sublist_NoDup _ _ Hnd (json_cols_sublist d)) as Hndc.
  split.
  { intros c s Hc Hs.
    destruct (json_cols_first_cell d c Hc) as (v & s0 & Hin & Hv).
    rewrite (dict_get_elem_of _ _ _ Hnd Hin) in Hs. injection Hs as <-.
    simpl. replace (is_Sequence v || is_Mapping v) with true; [done|].
    by destruct v. }
  assert (forall c, c ∈ json_cols_of d ->
            exists s, dict_get c (columns d) = Some s /\
              Forall (fun v => wf_val v = true /\ json_encodable v = true /\
                               tuple_free v = true) s) as Hcols.
  { intros c Hc.
    assert (is_Some (dict_get c (columns d))) as [s Hs].
    { apply dict_get_labels.
      eapply elem_of_sublist; [done|apply json_cols_sublist]. }
    exists s. split; [done|]. by eapply Hvals. }
  assert (columns_apply dumps (fun _ e => e) (json_cols_of d) d
          = (display d, None)) as Hshown.
  { unfold display. rewrite display_ok; [done| |done].
    intros c s Hc Hs. eapply Forall_impl; [by eapply Hvals|].
    by intros v (_ & ? & _). }
  assert (display d
          = {| index := index d;
               columns := columns_map dumps (json_cols_of d) (columns d) |})
    as Hdisplay.
  { unfold display. rewrite display_ok; [done| |done].
    intros c s Hc Hs. eapply Forall_impl; [by eapply Hvals|].
    by intros v (_ & ? & _). }
  assert (columns_apply deserializer rethrow (json_cols_of d) (display d)
          = (d, None)) as Hback.
  { rewrite Hdisplay.
    rewrite (columns_apply_ok deserializer _ (json_cols_of d) _ Hndc);
      cbn [index columns].
    - rewrite columns_map_undo; [by destruct d|done|].
      intros c s Hc Hs. destruct (Hcols c Hc) as (s0 & Hs0 & Hall).
      assert (s0 = s) as -> by congruence. clear -Hall.
      induction Hall as [|v s (Hwf & Henc & Htf) _ IH]; simpl; [done|].
      f_equal; [|done]. unfold total at 1.
      by rewrite deserializer_dumps.
    - intros c Hc. destruct (Hcols c Hc) as (s & Hs & Hall).
      exists (map (total dumps) s). split.
      + rewrite dict_get_columns_map by done.
        rewrite bool_decide_eq_true_2 by done. by rewrite Hs.
      + clear -Hall.
        induction Hall as [|v s (Hwf & Henc & Htf) _ IH]; simpl;
          constructor; [|done].
        exists v. by apply deserializer_dumps. }
  rewrite edit_eq, (show_table_run _ _ _ _ H).
  destruct (index d) as [|label labels] eqn:Hidx; [done|]. cbv zeta.
  rewrite Hshown. cbn [fst snd]. rewrite Hgrid. cbn [fst snd].
  rewrite Hback. cbn [fst snd].
  set (w3 := set_heap _ _).
  assert (heap w3 = heap w ++ [display d; d]) as Hh3.
  { subst w3. simpl. by rewrite <- app_assoc. }
  rewrite (process_edits_settled responds self d _DEFAULT_EDIT_INFO w3).
  - exists (ensure_processed w3).
    destruct (ensure_processed_frame w3) as (Hh & Hp & Htr).
    split; [done|]. rewrite Hh, Hp, Htr, Hh3. split; [|done].
    rewrite lookup_app_r by lia.
    by replace (S (length (heap w)) - length (heap w))%nat with 1%nat by lia.
  - rewrite Hh3. apply lookup_app_l_Some. exact H.
  - done.
  - by split; [|split]; constructor.
Qed.

Lemma untouched_grid_returns_table_witness :
  (forall c s, c ∈ json_cols_of table_ab ->
     dict_get c (columns table_ab) = Some s -> object_dtype s = true) /\
  exists w',
    edit accepts editor0 grid_same (world_of table_ab) = (w', Ret 2%nat) /\
    heap w' !! 2%nat = Some table_ab /\
    trace w' = [] ++ [data_editor (display table_ab)] /\
    the_processed w' = _DEFAULT_PROCESSED.
Proof.
  apply (untouched_grid_returns_table accepts editor0 grid_same
           (world_of table_ab) table_ab).
  - reflexivity.
  - discriminate.
  - apply NoDup_labels_ab.
  - intros c s Hc Hs. vm_compute in Hc.
    apply list_elem_of_singleton in Hc as ->.
    injection Hs as <-. by repeat constructor.
  - reflexivity.
Defined.

(** X12. What [edit] returns. When [edit] returns, its result is a frame
    that did not exist before the render: the frame that the grid gave
    back, with the same rows and the same columns, where the columns that
    are not JSON columns are as the grid gave them, and every cell of a JSON
    column was decoded: [None] as [None], text as [json.loads] reads it.
    The JSON column holds these decoded cells when one of them is a text, a
    list or a dictionary, so that pandas keeps them as they are. *)
Theorem edit_returns_decoded_copy (responds : list event -> event -> bool)
    (self : DynamoDBTableEditor) (grid : DataFrame -> DataFrame * EditInfo)
    (w w' : world) (d : DataFrame) (edited_df : ref) :
  heap w !! df self = Some d -> NoDup (map fst (columns d)) ->
  edit responds self grid w = (w', Ret edited_df) ->
  heap w !! edited_df = None /\
  exists edited,
    heap w' !! edited_df = Some edited /\
    index edited = index (grid (display d)).1 /\
    map fst (columns edited) = map fst (columns (grid (display d)).1) /\
    (forall c, c ∈ json_cols_of d ->
       exists s s',
         dict_get c (columns (grid (display d)).1) = Some s /\
         Forall2 (fun x v => match x with
                             | PyNone => v = PyNone
                             | _ => loads x = Ret v
                             end) s s' /\
         (object_dtype s' = true ->
          dict_get c (columns edited) = Some s')) /\
    (forall c, c ∉ json_cols_of d ->
       dict_get c (columns edited)
       = dict_get c (columns (grid (display d)).1)).
Proof.
  intros H Hnd. rewrite edit_eq.
  pose proof (show_table_returns self grid w) as Hret.
  pose proof (show_table_run self grid w d H) as Hshow.
  destruct (show_table self grid w) as [w1 [[cols r]|e]]; [|done].
  destruct (Hret w1 d cols r H eq_refl) as [-> Hwidget]. clear Hret.
  destruct (index d) as [|label labels]; [done|]. cbv zeta in Hshow.
  fold (display d) in Hshow.
  destruct (columns_apply dumps (fun _ e => e) (json_cols_of d) d)
    as [shown [e|]] eqn:Hser; cbn [fst snd] in Hshow; [done|].
  destruct (columns_apply deserializer rethrow (json_cols_of d)
              (grid (display d)).1) as [edited [e|]] eqn:Hdes;
    cbn [fst snd] in Hshow; [by destruct e|].
  injection Hshow as -> ->.
  assert (heap (set_heap
            (heap (set_heap (heap w ++ [display d])
               (set_widget (Some (grid (display d)).2)
                  (log (data_editor (display d)) w))) ++ [edited])
            (set_heap (heap w ++ [display d])
               (set_widget (Some (grid (display d)).2)
                  (log (data_editor (display d)) w))))
          = heap w ++ [display d; edited]) as Hh.
  { simpl. by rewrite <- app_assoc. }
  pose proof (process_edits_heap responds self d (grid (display d)).2 _
                ltac:(rewrite Hh; by apply lookup_app_l_Some) Hwidget) as Hp.
  destruct (process_edits responds self (json_cols_of d) _)
    as [w2 [[]|e]]; [|done].
  intros [= <- <-]. cbn [fst] in Hp. split.
  { apply lookup_ge_None. lia. }
  exists edited. rewrite Hp, Hh. split.
  { rewrite lookup_app_r by lia.
    by replace (S (length (heap w)) - length (heap w))%nat with 1%nat by lia. }
  pose proof (sublist_NoDup _ _ Hnd (json_cols_sublist d)) as Hndc.
  destruct (columns_apply_spec _ _ _ _ _ _ Hndc Hdes) as (Hidx & Hother & Hall).
  pose proof (columns_apply_shape deserializer rethrow (json_cols_of d)
                (grid (display d)).1) as (_ & Hkeys & _).
  rewrite Hdes in Hkeys. cbn [fst] in Hkeys.
  split; [done|]. split; [done|]. split; [|done].
  intros c Hc. destruct (Hall c Hc) as (s & s' & Hs & Happ & Hs').
  exists s, s'. split; [done|]. split; [|done].
  apply series_apply_Ret in Happ. eapply Forall2_impl; [exact Happ|].
  intros x v. by rewrite deserializer_Ret.
Qed.

Lemma edit_returns_decoded_copy_witness :
  heap (world_of table_ab) !! 2%nat = None /\
  exists edited,
    heap (edit accepts editor0 grid_ok (world_of table_ab)).1 !! 2%nat
    = Some edited /\
    index edited = index (grid_ok (display table_ab)).1 /\
    map fst (columns edited)
    = map fst (columns (grid_ok (display table_ab)).1) /\
    (forall c, c ∈ json_cols_of table_ab ->
       exists s s',
         dict_get c (columns (grid_ok (display table_ab)).1) = Some s /\
         Forall2 (fun x v => match x with
                             | PyNone => v = PyNone
                             | _ => loads x = Ret v
                             end) s s' /\
         (object_dtype s' = true ->
          dict_get c (columns edited) = Some s')) /\
    (forall c, c ∉ json_cols_of table_ab ->
       dict_get c (columns edited)
       = dict_get c (columns (grid_ok (display table_ab)).1)).
Proof.
  apply (edit_returns_decoded_copy accepts editor0 grid_ok
           (world_of table_ab)
           (edit accepts editor0 grid_ok (world_of table_ab)).1
           table_ab 2).
  - reflexivity.
  - apply NoDup_labels_ab.
  - vm_compute. reflexivity.
Defined.

(** X13. An entry that cannot be applied applies nothing. A position that
    is not in the table raises an [IndexError] before anything else is
    done, for an edited and for a deleted row; an added row without the
    column ["_index"] raises a [KeyError] once its JSON columns are decoded;
    and whenever the step of an entry raises, no frame has changed and
    nothing is recorded, and either no call was made, or the store refused
    the one call that was made. The row of the diff may have been decoded
    by then. *)
Theorem failed_entry_changes_nothing
    (responds : list event -> event -> bool) (self : DynamoDBTableEditor)
    (d : DataFrame) (w : world) :
  heap w !! df self = Some d ->
  (forall json_cols idx edited_row, index d !! idx = None ->
     process_edited_row responds self json_cols (idx, edited_row) w
     = (w, Raise IndexError)) /\
  (forall idx, index d !! idx = None ->
     process_deleted_row responds self idx w = (w, Raise IndexError)) /\
  (forall json_cols added_row decoded,
     deserialize_mapping added_row json_cols = Ret decoded ->
     dict_get "_index" decoded = None ->
     (process_added_row responds json_cols added_row w).2
     = Raise (KeyError "_index")) /\
  (forall json_cols (step : M unit) w' e,
     (exists entry, step = process_edited_row responds self json_cols entry) \/
     (exists added_row,
        step = process_added_row responds json_cols added_row) \/
     (exists idx, step = process_deleted_row responds self idx) ->
     step w = (w', Raise e) ->
     heap w' = heap w /\ the_processed w' = the_processed w /\
     (trace w' = trace w \/
      exists c, is_store_call c = true /\ responds (trace w) c = false /\
                e = ClientError /\ trace w' = trace w ++ [c])).
Proof.
  intros H. split; [|split; [|split]].
  - intros cols idx row Hidx.
    by rewrite (process_edited_row_run _ _ _ _ _ _ _ H), Hidx.
  - intros idx Hidx. by rewrite (process_deleted_row_run _ _ _ _ _ H), Hidx.
  - intros cols row dec Hdec Hkey.
    by rewrite process_added_row_run, Hdec, Hkey.
  - assert (forall c p w' e,
              is_store_call c = true ->
              call_outcome responds c p w = (w', Raise e) ->
              heap w' = heap w /\ the_processed w' = the_processed w /\
              (trace w' = trace w \/
               exists c, is_store_call c = true /\
                         responds (trace w) c = false /\
                         e = ClientError /\ trace w' = trace w ++ [c]))
      as Hcall.
    { intros c p w' e Hc. unfold call_outcome.
      destruct (responds (trace w) c) eqn:Hr; [done|].
      intros [= <- <-]. split; [done|]. split; [done|]. right. by exists c. }
    intros cols step w' e [[[idx row] ->]|[[row ->]|[idx ->]]].
    + rewrite (process_edited_row_run _ _ _ _ _ _ _ H).
      repeat case_match; try (intros [= <- _]; by auto); try done.
      by apply Hcall.
    + rewrite process_added_row_run. cbv zeta.
      repeat case_match; try (intros [= <- _]; by auto); try done.
      by apply Hcall.
    + rewrite (process_deleted_row_run _ _ _ _ _ H).
      repeat case_match; try (intros [= <- _]; by auto); try done.
      by apply Hcall.
Qed.

Lemma failed_entry_changes_nothing_witness :
  process_deleted_row accepts editor0 7 (world_of table_ab)
  = (world_of table_ab, Raise IndexError).
Proof.
  refine (proj1 (proj2 (failed_entry_changes_nothing accepts editor0 table_ab
                          (world_of table_ab) _)) 7%nat _);
    reflexivity.
Defined.

(** * The further properties on the sample session *)

Lemma calls_come_from_diff_witness :
  exists evs,
    trace (edit accepts editor0 grid_ok (world_of table_ab)).1 = [] ++ evs /\
    Forall (from_diff table_ab edits_ok) evs /\
    (edits_ok = _DEFAULT_EDIT_INFO ->
     Forall (fun e => is_store_call e = false) evs).
Proof.
  apply (calls_come_from_diff accepts editor0 table_ab grid_ok
           (world_of table_ab)).
  reflexivity.
Defined.

Lemma record_follows_accepted_calls_witness :
  extends _DEFAULT_PROCESSED
    (the_processed (edit accepts editor0 grid_ok (world_of table_ab)).1).
Proof.
  refine (proj1 (record_follows_accepted_calls accepts editor0 table_ab
                   grid_ok (world_of table_ab) _)).
  reflexivity.
Defined.

Lemma edit_keeps_frames_witness :
  heap (edit accepts editor0 grid_ok (world_of table_ab)).1 !! 0%nat
  = Some table_ab.
Proof.
  refine (proj1 (proj2 (edit_keeps_frames accepts editor0 table_ab grid_ok
                          (world_of table_ab) _))).
  reflexivity.
Defined.

Lemma one_call_per_entry_witness :
  (store_calls (trace (edit accepts editor0 grid_ok (world_of table_ab)).1)
   <= 0 + 1 + 1 + 1)%nat.
Proof.
  apply (one_call_per_entry accepts editor0 table_ab grid_ok
           (world_of table_ab)).
  reflexivity.
Defined.

Lemma rerender_makes_no_call_witness :
  the_processed
    (edit accepts editor0 grid_ok
       (edit accepts editor0 grid_ok (world_of table_ab)).1).1
  = the_processed (edit accepts editor0 grid_ok (world_of table_ab)).1.
Proof.
  refine (proj2 (rerender_makes_no_call accepts editor0 table_ab grid_ok
                   grid_ok (world_of table_ab)
                   (edit accepts editor0 grid_ok (world_of table_ab)).1
                   2%nat _ _ _ _ _ _ _ _)).
  - reflexivity.
  - apply NoDup_one.
  - repeat constructor.
  - repeat constructor.
  - vm_compute. reflexivity.
  - done.
  - done.
  - done.
Defined.

Lemma table_fetched_once_witness :
  heap (renders accepts [(table_ab, grid_ok); (table_a, grid_same)] world_new)
    !! 0%nat
  = Some table_ab.
Proof.
  refine (proj1 (proj2 (table_fetched_once accepts table_ab grid_ok
                          [(table_a, grid_same)] world_new _))).
  reflexivity.
Defined.

Lemma codec_keeps_shape_witness :
  exists d',
    (_serialize_json_cols 0 ["tags"] (world_of table_a)).1
    = set_heap (<[0%nat := d']> (heap (world_of table_a))) (world_of table_a) /\
    index d' = index table_a /\
    map fst (columns d') = map fst (columns table_a) /\
    (forall c, c ∉ ["tags"] ->
       dict_get c (columns d') = dict_get c (columns table_a)) /\
    (forall c s, dict_get c (columns table_a) = Some s ->
       exists s', dict_get c (columns d') = Some s' /\ length s' = length s).
Proof.
  refine (proj1 (codec_keeps_shape (world_of table_a) 0 table_a [] ["tags"] _)
            _ (or_introl eq_refl)).
  reflexivity.
Defined.
